(** * Travel AI agent: conversation state machine, validation, offer
      selection and booking orchestration

    A shallow embedding of the server-side JavaScript of the travel agent
    (the Mongoose [Conversation] model, the validation service, the Duffel
    service and the offer-selection helper of the flight routes), followed by
    the properties established about it.

    Conventions of the embedding.
    - A JavaScript string is a [string]; a property that may be [undefined]
      is an [option].
    - A JavaScript number that may be [NaN] is an [option Z] ([None] is
      [NaN]); every comparison with [NaN] is false.  Amounts and durations
      are integers of the smallest unit.
    - A plain object used as a dictionary is a [gmap string _]; the set of
      paths Mongoose tracks as modified is a [gset string].
    - A call that may throw returns a [result]; code that talks to the
      provider threads the provider's state and a log of the calls issued.
    - A reading of the clock ([new Date()]) is the argument [now], in
      milliseconds; the readings inside one call are taken at one instant. *)

From stdpp Require Import gmap strings list fin_maps.
From Stdlib Require Import ZArith Lia Ascii DecimalString DecimalNat Sorted.

Local Open Scope Z_scope.

(** ** JavaScript primitives used by the sources *)
Module Js.

(** A thrown value: an [Error] carrying a message, a [TypeError] raised by
    the runtime, or the error object of the provider's client. *)
Inductive exn : Type :=
| Error (message : string)
| TypeError
| ProviderError (errors : list string).

Inductive result (A : Type) : Type :=
| Ok (a : A)
| Throw (e : exn).
Global Arguments Ok {A} a.
Global Arguments Throw {A} e.

(** Template rendering of a non-negative integer, [`${n}`]. *)
Definition showNat (n : nat) : string :=
  NilEmpty.string_of_uint (Nat.to_uint n).

(** [a || b] on possibly missing strings: the empty string is falsy. *)
Definition truthyStr (v : option string) : bool :=
  match v with
  | Some s => negb (String.eqb s "")
  | None => false
  end.

Definition orElse (a b : option string) : option string :=
  if truthyStr a then a else b.

(** [a === b] on possibly missing strings. *)
Definition strictEq (a b : option string) : bool :=
  bool_decide (a = b).

(** Comparisons of numbers, [None] being [NaN]. *)
Definition numLe (a b : option Z) : bool :=
  match a, b with
  | Some x, Some y => x <=? y
  | _, _ => false
  end.

Definition numLt (a b : option Z) : bool :=
  match a, b with
  | Some x, Some y => x <? y
  | _, _ => false
  end.

Definition numGe (a b : option Z) : bool := numLe b a.

(** [Array.prototype.sort(cmp)]: a stable sort; [cmp a b > 0] moves [a]
    behind [b].  Insertion from the right keeps equal elements in their
    original order. *)
Section Sort.
Context {A : Type} (cmp : A -> A -> Z).

Fixpoint insertSorted (x : A) (l : list A) : list A :=
  match l with
  | [] => [x]
  | y :: l' => if cmp x y <=? 0 then x :: y :: l' else y :: insertSorted x l'
  end.

Definition sort (l : list A) : list A := foldr insertSorted [] l.
End Sort.

(** *** Strings *)

Definition isDigit (c : ascii) : bool :=
  ((48 <=? nat_of_ascii c) && (nat_of_ascii c <=? 57))%nat.

Definition isUpper (c : ascii) : bool :=
  ((65 <=? nat_of_ascii c) && (nat_of_ascii c <=? 90))%nat.

Definition isLower (c : ascii) : bool :=
  ((97 <=? nat_of_ascii c) && (nat_of_ascii c <=? 122))%nat.

(** White space of the ASCII range, as [parseInt] and [Number] skip it. *)
Definition isSpace (c : ascii) : bool :=
  let n := nat_of_ascii c in
  ((n =? 9) || (n =? 10) || (n =? 11) || (n =? 12) || (n =? 13) || (n =? 32))%nat.

Fixpoint filterChars (p : ascii -> bool) (s : string) : string :=
  match s with
  | EmptyString => EmptyString
  | String c s' => if p c then String c (filterChars p s') else filterChars p s'
  end.

Fixpoint mapChars (f : ascii -> ascii) (s : string) : string :=
  match s with
  | EmptyString => EmptyString
  | String c s' => String (f c) (mapChars f s')
  end.

Fixpoint allChars (p : ascii -> bool) (s : string) : bool :=
  match s with
  | EmptyString => true
  | String c s' => p c && allChars p s'
  end.

(** [s.replace(/\D/g, '')] *)
Definition removeNonDigits (s : string) : string := filterChars isDigit s.

(** [s.startsWith(p)] *)
Fixpoint startsWith (p s : string) : bool :=
  match p, s with
  | EmptyString, _ => true
  | String _ _, EmptyString => false
  | String a p', String b s' => Ascii.eqb a b && startsWith p' s'
  end.

(** [s.includes(c)] for a one-character needle. *)
Fixpoint includesChar (c : ascii) (s : string) : bool :=
  match s with
  | EmptyString => false
  | String d s' => Ascii.eqb c d || includesChar c s'
  end.

(** [s.split(c)[0]]: the part of [s] before the first [c]. *)
Fixpoint splitHead (c : ascii) (s : string) : string :=
  match s with
  | EmptyString => EmptyString
  | String d s' => if Ascii.eqb c d then EmptyString else String d (splitHead c s')
  end.

(** [s.toUpperCase()] on the ASCII letters. *)
Definition toUpperCase (s : string) : string :=
  mapChars (fun c => if isLower c then ascii_of_nat (nat_of_ascii c - 32) else c) s.

Fixpoint dropWhile (p : ascii -> bool) (s : string) : string :=
  match s with
  | EmptyString => EmptyString
  | String c s' => if p c then dropWhile p s' else s
  end.

Fixpoint takeWhile (p : ascii -> bool) (s : string) : string :=
  match s with
  | EmptyString => EmptyString
  | String c s' => if p c then String c (takeWhile p s') else EmptyString
  end.

(** The value of a digit in radix 16 (which covers radix 10). *)
Definition digitValue (c : ascii) : option Z :=
  let n := Z.of_nat (nat_of_ascii c) in
  if isDigit c then Some (n - 48)
  else if ((97 <=? nat_of_ascii c) && (nat_of_ascii c <=? 102))%nat then Some (n - 87)
  else if ((65 <=? nat_of_ascii c) && (nat_of_ascii c <=? 70))%nat then Some (n - 55)
  else None.

Definition isRadixDigit (radix : Z) (c : ascii) : bool :=
  match digitValue c with
  | Some v => v <? radix
  | None => false
  end.

Fixpoint digitsValue (radix : Z) (acc : Z) (s : string) : Z :=
  match s with
  | EmptyString => acc
  | String c s' => digitsValue radix (radix * acc + default 0 (digitValue c)) s'
  end.

(** [parseInt(s)] without a radix argument: leading white space and a sign
    are skipped, [0x] selects radix 16, the longest run of digits is read,
    and the result is [NaN] ([None]) when there is no digit. *)
Definition parseInt (s : string) : option Z :=
  let s1 := dropWhile isSpace s in
  let '(sign, s2) :=
    match s1 with
    | String "-" r => (-1, r)
    | String "+" r => (1, r)
    | _ => (1, s1)
    end in
  let '(radix, s3) :=
    match s2 with
    | String "0" (String "x" r) => (16, r)
    | String "0" (String "X" r) => (16, r)
    | _ => (10, s2)
    end in
  let ds := takeWhile (isRadixDigit radix) s3 in
  match ds with
  | EmptyString => None
  | _ => Some (sign * digitsValue radix 0 ds)
  end.

(** [/^\d{4}-\d{2}-\d{2}$/.test(s)] *)
Definition isIsoDate (s : string) : bool :=
  match s with
  | String y1 (String y2 (String y3 (String y4 (String "-"
      (String m1 (String m2 (String "-" (String d1 (String d2 EmptyString))))))))) =>
      isDigit y1 && isDigit y2 && isDigit y3 && isDigit y4 &&
      isDigit m1 && isDigit m2 && isDigit d1 && isDigit d2
  | _ => false
  end.

(** The built-in [Date] as far as the sources use it: [parse s] is the time
    value of [new Date(s)] ([None] for an invalid date), [getHours t] the
    hour of [t] in the zone of the server, [toISODate t] the date part of
    [toISOString()]. *)
Class DateRuntime : Type := {
  parse : string -> option Z;
  getHours : Z -> Z;
  toISODate : Z -> string
}.

(** [Array.prototype.slice(0, n)] for [n >= 0] and [slice(-n)] for
    [n >= 1]. *)
Definition sliceFirst {A : Type} (n : nat) (l : list A) : list A := take n l.
Definition sliceLast {A : Type} (n : nat) (l : list A) : list A :=
  drop (length l - n)%nat l.

End Js.

(** ** The conversation document (server/src/models/Conversation.js) *)
Module Conversation.

Record Message : Type := {
  role : string;
  content : string;
  timestamp : Z;
  metadata : gmap string string
}.

Record SearchHistoryItem : Type := {
  searchParams : gmap string string;
  searchedAt : Z
}.

(** [refinementsSchema]: the array paths of a Mongoose sub-document default
    to the empty array. *)
Record Refinements : Type := {
  appliedFilters : gmap string string;
  viewedOffers : list string
}.

(** The fields of [conversationSchema] that the methods below read or
    write, and [modifiedPaths], the paths Mongoose has marked as modified
    since the document was last saved. *)
Record t : Type := {
  sessionId : string;
  currentStage : string;
  flightSearchParams : gmap string string;
  messages : list Message;
  searchResults : list string;
  searchHistory : list SearchHistoryItem;
  refinements : option Refinements;
  updatedAt : Z;
  expiresAt : Z;
  modifiedPaths : gset string
}.

(** 24 * 60 * 60 * 1000 *)
Definition DAY_MS : Z := 24 * 60 * 60 * 1000.

(** [this.isModified(path)] *)
Definition isModified (path : string) (c : t) : bool :=
  bool_decide (path ∈ modifiedPaths c).

(** The activity the pre-save hook looks at: whether the message log or the
    stage is marked as modified. *)
Definition active (c : t) : bool :=
  isModified "messages" c || isModified "currentStage" c.

Definition markModified (path : string) (c : t) : t :=
  {| sessionId := sessionId c; currentStage := currentStage c;
     flightSearchParams := flightSearchParams c; messages := messages c;
     searchResults := searchResults c; searchHistory := searchHistory c;
     refinements := refinements c; updatedAt := updatedAt c;
     expiresAt := expiresAt c;
     modifiedPaths := {[path]} ∪ modifiedPaths c |}.

(** Assignments to the paths of the document.  On a document that was
    saved before, Mongoose marks the path of a string when the value
    assigned differs from the one held; an assignment or a push on an array
    or a sub-document marks its path. *)
Definition setCurrentStage (s : string) (c : t) : t :=
  if String.eqb s (currentStage c) then c
  else
    markModified "currentStage"
    {| sessionId := sessionId c; currentStage := s;
       flightSearchParams := flightSearchParams c; messages := messages c;
       searchResults := searchResults c; searchHistory := searchHistory c;
       refinements := refinements c; updatedAt := updatedAt c;
       expiresAt := expiresAt c; modifiedPaths := modifiedPaths c |}.

Definition setFlightSearchParams (p : gmap string string) (c : t) : t :=
  markModified "flightSearchParams"
  {| sessionId := sessionId c; currentStage := currentStage c;
     flightSearchParams := p; messages := messages c;
     searchResults := searchResults c; searchHistory := searchHistory c;
     refinements := refinements c; updatedAt := updatedAt c;
     expiresAt := expiresAt c; modifiedPaths := modifiedPaths c |}.

Definition setMessages (ms : list Message) (c : t) : t :=
  markModified "messages"
  {| sessionId := sessionId c; currentStage := currentStage c;
     flightSearchParams := flightSearchParams c; messages := ms;
     searchResults := searchResults c; searchHistory := searchHistory c;
     refinements := refinements c; updatedAt := updatedAt c;
     expiresAt := expiresAt c; modifiedPaths := modifiedPaths c |}.

Definition setSearchResults (rs : list string) (c : t) : t :=
  markModified "searchResults"
  {| sessionId := sessionId c; currentStage := currentStage c;
     flightSearchParams := flightSearchParams c; messages := messages c;
     searchResults := rs; searchHistory := searchHistory c;
     refinements := refinements c; updatedAt := updatedAt c;
     expiresAt := expiresAt c; modifiedPaths := modifiedPaths c |}.

Definition setSearchHistory (h : list SearchHistoryItem) (c : t) : t :=
  markModified "searchHistory"
  {| sessionId := sessionId c; currentStage := currentStage c;
     flightSearchParams := flightSearchParams c; messages := messages c;
     searchResults := searchResults c; searchHistory := h;
     refinements := refinements c; updatedAt := updatedAt c;
     expiresAt := expiresAt c; modifiedPaths := modifiedPaths c |}.

Definition setRefinements (r : Refinements) (c : t) : t :=
  markModified "refinements"
  {| sessionId := sessionId c; currentStage := currentStage c;
     flightSearchParams := flightSearchParams c; messages := messages c;
     searchResults := searchResults c; searchHistory := searchHistory c;
     refinements := Some r; updatedAt := updatedAt c;
     expiresAt := expiresAt c; modifiedPaths := modifiedPaths c |}.

(** [conversationSchema.pre('save', ...)]: the hook that runs before the
    document is written. *)
Definition preSave (now : Z) (c : t) : t :=
  let expires :=
    if isModified "messages" c || isModified "currentStage" c
    then now + DAY_MS
    else expiresAt c in
  {| sessionId := sessionId c; currentStage := currentStage c;
     flightSearchParams := flightSearchParams c; messages := messages c;
     searchResults := searchResults c; searchHistory := searchHistory c;
     refinements := refinements c; updatedAt := now;
     expiresAt := expires; modifiedPaths := modifiedPaths c |}.

(** [this.save()]: the hook, then the write, after which no path is
    modified any more. *)
Definition save (now : Z) (c : t) : t :=
  let c' := preSave now c in
  {| sessionId := sessionId c'; currentStage := currentStage c';
     flightSearchParams := flightSearchParams c'; messages := messages c';
     searchResults := searchResults c'; searchHistory := searchHistory c';
     refinements := refinements c'; updatedAt := updatedAt c';
     expiresAt := expiresAt c'; modifiedPaths := ∅ |}.

(** [conversationSchema.methods.addMessage] *)
Definition addMessage (now : Z) (r cnt : string) (meta : gmap string string)
    (c : t) : t :=
  let m := {| role := r; content := cnt; timestamp := now; metadata := meta |} in
  save now (setMessages (messages c ++ [m]) c).

(** The table of [updateStage] and [canTransitionTo]: an object literal
    keyed by the stage names of the schema's [enum], which are the values
    [currentStage] takes. *)
Definition validTransitions : gmap string (list string) :=
  <["initial" := ["search"]]>
  (<["search" := ["selection"]]>
  (<["selection" := ["authentication"; "passenger_details"]]>
  (<["authentication" := ["passenger_details"; "additional_services"]]>
  (<["passenger_details" := ["additional_services"]]>
  (<["additional_services" := ["payment"]]>
  (<["payment" := ["confirmation"]]>
  (<["confirmation" := []]> ∅))))))).

(** [Array.prototype.includes] on strings. *)
Definition includes (x : string) (l : list string) : bool :=
  existsb (String.eqb x) l.

(** [conversationSchema.methods.updateStage]: the document afterwards and
    the boolean returned. *)
Definition updateStage (newStage : string) (c : t) : t * bool :=
  let currentStageTransitions :=
    default [] (validTransitions !! currentStage c) in
  if includes newStage currentStageTransitions
  then (setCurrentStage newStage c, true)
  else (c, false).

(** [conversationSchema.methods.canTransitionTo] *)
Definition canTransitionTo (targetStage : string) (c : t) : bool :=
  let currentStageTransitions :=
    default [] (validTransitions !! currentStage c) in
  includes targetStage currentStageTransitions.

(** [conversationSchema.methods.updateSearchParams]: [{...a, ...b}] keeps
    the keys of both and takes the value of [b] where both have one. *)
Definition updateSearchParams (now : Z) (params : gmap string string)
    (c : t) : t :=
  let c1 := setFlightSearchParams (params ∪ flightSearchParams c) c in
  let pushed :=
    searchHistory c1 ++
    [{| searchParams := flightSearchParams c1; searchedAt := now |}] in
  let c2 := setSearchHistory pushed c1 in
  let c3 :=
    if (10 <? length (searchHistory c2))%nat
    then setSearchHistory (Js.sliceLast 10 (searchHistory c2)) c2
    else c2 in
  save now c3.

Definition emptyRefinements : Refinements :=
  {| appliedFilters := ∅; viewedOffers := [] |}.

(** [conversationSchema.methods.applyFilter] *)
Definition applyFilter (now : Z) (filterCriteria : gmap string string)
    (c : t) : t :=
  let r := default emptyRefinements (refinements c) in
  let r' := {| appliedFilters := filterCriteria ∪ appliedFilters r;
               viewedOffers := viewedOffers r |} in
  save now (setRefinements r' c).

(** [conversationSchema.methods.trackViewedOffer] *)
Definition trackViewedOffer (now : Z) (offerId : string) (c : t) : t :=
  let c1 :=
    match refinements c with
    | Some _ => c
    | None => setRefinements emptyRefinements c
    end in
  let r := default emptyRefinements (refinements c1) in
  let c2 :=
    if negb (includes offerId (viewedOffers r))
    then setRefinements
           {| appliedFilters := appliedFilters r;
              viewedOffers := viewedOffers r ++ [offerId] |} c1
    else c1 in
  save now c2.

(** A document as [new Conversation({ sessionId })] creates it: the schema
    defaults. *)
Definition create (now : Z) (sid : string) : t :=
  {| sessionId := sid; currentStage := "initial"; flightSearchParams := ∅;
     messages := []; searchResults := []; searchHistory := [];
     refinements := None; updatedAt := now; expiresAt := now + DAY_MS;
     modifiedPaths := ∅ |}.

(** The operations the routes perform on a conversation, each at the
    instant it runs: the methods of the model, the direct assignments of the
    stage and of the search results, and a plain save. *)
Inductive op : Type :=
| OpAddMessage (r cnt : string)
| OpUpdateStage (newStage : string)
| OpSetCurrentStage (newStage : string)
| OpUpdateSearchParams (params : gmap string string)
| OpSetSearchResults (rs : list string)
| OpApplyFilter (filterCriteria : gmap string string)
| OpTrackViewedOffer (offerId : string)
| OpSave.

Definition step (now : Z) (o : op) (c : t) : t :=
  match o with
  | OpAddMessage r cnt => addMessage now r cnt ∅ c
  | OpUpdateStage s => fst (updateStage s c)
  | OpSetCurrentStage s => setCurrentStage s c
  | OpUpdateSearchParams p => updateSearchParams now p c
  | OpSetSearchResults rs => setSearchResults rs c
  | OpApplyFilter f => applyFilter now f c
  | OpTrackViewedOffer i => trackViewedOffer now i c
  | OpSave => save now c
  end.

Definition run (ops : list (Z * op)) (c : t) : t :=
  foldl (fun acc '(now, o) => step now o acc) c ops.

(** The searches a run of operations makes: for each [updateSearchParams],
    in the order of the calls, the merged parameters and the instant of the
    call. *)
Fixpoint recorded (ops : list (Z * op)) (c : t) : list SearchHistoryItem :=
  match ops with
  | [] => []
  | (now, o) :: rest =>
      match o with
      | OpUpdateSearchParams params =>
          [{| searchParams := params ∪ flightSearchParams c; searchedAt := now |}]
      | _ => []
      end ++ recorded rest (step now o c)
  end.

(** The viewed-offer list of a conversation ([[]] while [refinements] is
    unset). *)
Definition viewed (c : t) : list string :=
  viewedOffers (default emptyRefinements (refinements c)).

(** [n] distinct offer ids: the id of index [k] is [k] letters long. *)
Fixpoint offerIdOf (k : nat) : string :=
  match k with
  | O => "o"
  | S k' => String "x"%char (offerIdOf k')
  end.

Definition viewOffers (n : nat) : list (Z * op) :=
  map (fun k => (0, OpTrackViewedOffer (offerIdOf k))) (seq 0 n).

(** The transition graph as the specification draws it. *)
Inductive edge : string -> string -> Prop :=
| edge_initial_search : edge "initial" "search"
| edge_search_selection : edge "search" "selection"
| edge_selection_authentication : edge "selection" "authentication"
| edge_selection_passenger : edge "selection" "passenger_details"
| edge_authentication_passenger : edge "authentication" "passenger_details"
| edge_authentication_services : edge "authentication" "additional_services"
| edge_passenger_services : edge "passenger_details" "additional_services"
| edge_services_payment : edge "additional_services" "payment"
| edge_payment_confirmation : edge "payment" "confirmation".

End Conversation.

(** ** The provider's client (@duffel/api) and the Duffel service
       (server/src/services/duffel.service.js) *)
Module Duffel.
Import Js.

(** *** What the provider returns and receives *)

Record OfferPassenger : Type := { passenger_id : string }.
Record AvailableService : Type := { service_id : string }.

(** A raw offer of the provider, as far as the orchestration reads it. *)
Record RawOffer : Type := {
  offer_id : string;
  total_amount : string;
  total_currency : string;
  offer_passengers : list OfferPassenger;
  available_services : option (list AvailableService)
}.

Record IdentityDocument : Type := {
  unique_identifier : string;
  expires_on : option string;
  issuing_country_code : option string;
  document_type : string
}.

Record OrderPassenger : Type := {
  order_passenger_id : string;
  phone_number : string;
  order_email : option string;
  born_on : option string;
  order_title : option string;
  order_gender : string;
  given_name : option string;
  family_name : option string;
  identity_documents : option (list IdentityDocument)
}.

Record OrderService : Type := { order_service_id : string; order_quantity : Z }.

Record Payment : Type := {
  payment_type : option string;
  payment_currency : option string;
  payment_amount : string
}.

Record OrderData : Type := {
  selected_offers : list string;
  order_passengers : list OrderPassenger;
  payments : list Payment;
  order_services : option (list OrderService)
}.

Record Order : Type := {
  order_id : string;
  order_total_amount : string;
  order_total_currency : string
}.

Record PaymentRequest : Type := {
  request_order_id : string;
  payment : Payment
}.

Record PaymentRecord : Type := { payment_id : string }.

(** The operations of the client that the service calls, over the state of
    the provider. *)
Class Client (St : Type) : Type := {
  offers_get : string -> bool -> St -> result RawOffer * St;
  orders_create : OrderData -> St -> result Order * St;
  orders_get : string -> St -> result Order * St;
  payments_create : PaymentRequest -> St -> result PaymentRecord * St
}.

(** The calls issued to the provider, in order. *)
Inductive call : Type :=
| CallOffersGet (offerId : string) (return_available_services : bool)
| CallOrdersCreate (orderData : OrderData)
| CallOrdersGet (orderId : string)
| CallPaymentsCreate (request : PaymentRequest).

Definition isOrdersCreate (c : call) : bool :=
  match c with
  | CallOrdersCreate _ => true
  | _ => false
  end.

(** *** The monad of the service: provider state, call log, exceptions *)

Definition world (St : Type) : Type := (St * list call)%type.
Definition M (St A : Type) : Type := world St -> result A * world St.

Definition ret {St A : Type} (a : A) : M St A := fun w => (Ok a, w).
Definition throw {St A : Type} (e : exn) : M St A := fun w => (Throw e, w).
Definition bind {St A B : Type} (m : M St A) (k : A -> M St B) : M St B :=
  fun w =>
    match m w with
    | (Ok a, w') => k a w'
    | (Throw e, w') => (Throw e, w')
    end.

(** [try { m } catch (error) { h error }] *)
Definition tryCatch {St A : Type} (m : M St A) (h : exn -> M St A) : M St A :=
  fun w =>
    match m w with
    | (Ok a, w') => (Ok a, w')
    | (Throw e, w') => h e w'
    end.

Definition lift {St A : Type} (r : result A) : M St A := fun w => (r, w).

Notation "'let*' x ':=' m 'in' k" := (bind m (fun x => k))
  (at level 10, x name, m at level 100, k at level 200).

Fixpoint mapM {St A B : Type} (f : A -> M St B) (l : list A) : M St (list B) :=
  match l with
  | [] => ret []
  | x :: l' => let* y := f x in let* ys := mapM f l' in ret (y :: ys)
  end.

Section Service.
Context {St : Type} `{Client St} `{DateRuntime}.

Definition offersGet (offerId : string) (withServices : bool) : M St RawOffer :=
  fun '(st, log) =>
    let '(r, st') := offers_get offerId withServices st in
    (r, (st', log ++ [CallOffersGet offerId withServices])).

Definition ordersCreate (orderData : OrderData) : M St Order :=
  fun '(st, log) =>
    let '(r, st') := orders_create orderData st in
    (r, (st', log ++ [CallOrdersCreate orderData])).

Definition ordersGet (orderId : string) : M St Order :=
  fun '(st, log) =>
    let '(r, st') := orders_get orderId st in
    (r, (st', log ++ [CallOrdersGet orderId])).

Definition paymentsCreate (request : PaymentRequest) : M St PaymentRecord :=
  fun '(st, log) =>
    let '(r, st') := payments_create request st in
    (r, (st', log ++ [CallPaymentsCreate request])).

(** *** [searchFlights]: the detail-enrichment fan-out *)

(** One branch of the fan-out: the [async (offer) => { try ... catch ... }]
    handed to [offers.data.map]. *)
Definition fetchDetailed (offer : RawOffer) : M St RawOffer :=
  tryCatch (offersGet (offer_id offer) true) (fun _ => ret offer).

(** [await Promise.all(offers.data.map(...))]: the calls are issued in the
    order of the list, the provider answers them in that order, and the
    results are collected in the order of the list. *)
Definition detailedOffers (offers : list RawOffer) : M St (list RawOffer) :=
  mapM fetchDetailed offers.

(** What a branch returns when its call is issued in provider state
    [st]: the detailed offer when the fetch succeeds, the offer it was
    given when the fetch throws. *)
Definition enriched (offer : RawOffer) (st : St) : RawOffer :=
  match fst (offers_get (offer_id offer) true st) with
  | Ok fullOffer => fullOffer
  | Throw _ => offer
  end.

(** *** [createOrder] *)

(** The passenger record submitted at booking time. *)
Record Passenger : Type := {
  gender : option string;
  title : option string;
  phoneNumber : option string;
  email : option string;
  dateOfBirth : option string;
  firstName : option string;
  lastName : option string;
  passportNumber : option string;
  passportExpiry : option string;
  nationality : option string
}.

Record PaymentDetails : Type := {
  details_type : option string;
  details_amount : option string;
  details_currency : option string
}.

Record ServiceRequest : Type := {
  requested_id : string;
  requested_quantity : option Z
}.

(** The inner [formatDate] of [createOrder]. *)
Definition formatDate (dateInput : option string) : option string :=
  if negb (truthyStr dateInput) then None
  else
    let s := default "" dateInput in
    if isIsoDate s then Some s
    else if includesChar "T" s then Some (splitHead "T" s)
    else
      match parse s with
      | Some t => Some (toISODate t)
      | None => None
      end.

(** The inner [formatPhoneNumber] of [createOrder]. *)
Definition formatPhoneNumber (phoneNumber : option string) : string :=
  if negb (truthyStr phoneNumber) then ""
  else
    let cleaned := removeNonDigits (default "" phoneNumber) in
    if negb (startsWith "+" cleaned)
    then
      let cleaned :=
        if (String.length cleaned <=? 10)%nat then "31" +:+ cleaned else cleaned in
      "+" +:+ cleaned
    else cleaned.

Definition duffelGender (passenger : Passenger) : string :=
  if strictEq (gender passenger) (Some "male") || strictEq (gender passenger) (Some "m")
  then "m"
  else if strictEq (gender passenger) (Some "female") ||
          strictEq (gender passenger) (Some "f")
  then "f"
  else if strictEq (title passenger) (Some "Mr") then "m"
  else if bool_decide (title passenger ∈ [Some "Mrs"; Some "Ms"; Some "Miss"])
  then "f"
  else "other".

(** The callback of [passengers.map((passenger, index) => ...)]. *)
Definition formatPassenger (offerPassengerIds : list string)
    (index : nat) (passenger : Passenger) : result OrderPassenger :=
  match offerPassengerIds !! index with
  | None =>
      Throw (Error ("No matching passenger ID for passenger at index " +:+
                    showNat index))
  | Some pid =>
      Ok {| order_passenger_id := pid;
            phone_number := formatPhoneNumber (phoneNumber passenger);
            order_email := email passenger;
            born_on := formatDate (dateOfBirth passenger);
            order_title := title passenger;
            order_gender := duffelGender passenger;
            given_name := firstName passenger;
            family_name := lastName passenger;
            identity_documents :=
              if truthyStr (passportNumber passenger)
              then Some [{| unique_identifier := default "" (passportNumber passenger);
                            expires_on := formatDate (passportExpiry passenger);
                            issuing_country_code := nationality passenger;
                            document_type := "passport" |}]
              else None |}
  end.

Fixpoint formatPassengers (offerPassengerIds : list string) (index : nat)
    (passengers : list Passenger) : result (list OrderPassenger) :=
  match passengers with
  | [] => Ok []
  | p :: ps =>
      match formatPassenger offerPassengerIds index p with
      | Throw e => Throw e
      | Ok fp =>
          match formatPassengers offerPassengerIds (S index) ps with
          | Throw e => Throw e
          | Ok fps => Ok (fp :: fps)
          end
      end
  end.

(** [service.quantity || 1] *)
Definition quantityOr1 (q : option Z) : Z :=
  match q with
  | Some n => if n =? 0 then 1 else n
  | None => 1
  end.

Definition countMismatch (expected got : nat) : exn :=
  Error ("Passenger count mismatch: expected " +:+ showNat expected +:+
         ", got " +:+ showNat got).

(** [async createOrder(offerId, passengers, paymentDetails, services = [])];
    the [catch] logs the error and throws it again. *)
Definition createOrder (offerId : string) (passengers : list Passenger)
    (paymentDetails : PaymentDetails) (services : list ServiceRequest)
    : M St Order :=
  let* offer := offersGet offerId true in
  let exactAmount := total_amount offer in
  let currency := total_currency offer in
  let validServices :=
    match available_services offer with
    | Some available =>
        if (0 <? length services)%nat
        then
          let availableServiceIds := map service_id available in
          List.filter
            (fun service => bool_decide (requested_id service ∈ availableServiceIds))
            services
        else []
    | None => []
    end in
  let offerPassengerIds := map passenger_id (offer_passengers offer) in
  if negb (length passengers =? length offerPassengerIds)%nat
  then throw (countMismatch (length offerPassengerIds) (length passengers))
  else
    let* formattedPassengers :=
      lift (formatPassengers offerPassengerIds 0 passengers) in
    let formattedServices :=
      map (fun service =>
             {| order_service_id := requested_id service;
                order_quantity := quantityOr1 (requested_quantity service) |})
          validServices in
    let paymentType :=
      if strictEq (details_type paymentDetails) (Some "card")
      then Some "balance" else details_type paymentDetails in
    let orderData :=
      {| selected_offers := [offerId];
         order_passengers := formattedPassengers;
         payments := [{| payment_type := paymentType;
                         payment_currency := Some currency;
                         payment_amount := exactAmount |}];
         order_services :=
           if (0 <? length formattedServices)%nat
           then Some formattedServices else None |} in
    ordersCreate orderData.

(** *** [payForHoldOrder] *)

(** [paymentDetails.amount.toString()] throws a [TypeError] when the
    amount is missing. *)
Definition payForHoldOrder (orderId : string) (paymentDetails : PaymentDetails)
    : M St PaymentRecord :=
  let* order := ordersGet orderId in
  match details_amount paymentDetails with
  | None => throw TypeError
  | Some amount =>
      paymentsCreate
        {| request_order_id := orderId;
           payment :=
             {| payment_type :=
                  if truthyStr (details_type paymentDetails)
                  then details_type paymentDetails else Some "balance";
                payment_amount := amount;
                payment_currency := details_currency paymentDetails |} |}
  end.

End Service.

(** The calls a run adds to the log. *)
Definition issued {St A : Type} (m : M St A) (st : St) : list call :=
  snd (snd (m (st, []))).

End Duffel.

(** ** The canonical offers ([formatOffers]) with their filter
       ([filterOffers], duffel.service.js) and the diverse selection
       ([selectDiverseOffers], routes/flights.js) *)
Module Offers.
Import Js.

Record Airline : Type := { iataCode : string }.
Record Segment : Type := { airline : Airline }.

Record Slice : Type := {
  departureDateTime : string;
  duration : option string;
  durationMinutes : Z;
  segments : list Segment
}.

(** A canonical offer as [formatOffers] builds it; [totalAmount], read from
    the provider's decimal string, and [durationMinutes] are numbers. *)
Record Offer : Type := {
  id : string;
  totalAmount : Z;
  slices : list Slice
}.

Record TimeRange : Type := { from : string; to : string }.

Record Criteria : Type := {
  departureTime : option TimeRange;
  maxConnections : option Z;
  airlines : option (list string);
  maxPrice : option Z;
  minPrice : option Z;
  maxDuration : option Z;
  sort : option string
}.

(** [Array.prototype.filter] with a callback that may throw. *)
Fixpoint filterR {A : Type} (p : A -> result bool) (l : list A) : result (list A) :=
  match l with
  | [] => Ok []
  | x :: l' =>
      match p x with
      | Throw e => Throw e
      | Ok b =>
          match filterR p l' with
          | Throw e => Throw e
          | Ok r => Ok (if b then x :: r else r)
          end
      end
  end.

(** The part of a string after its first [PT]. *)
Fixpoint afterPT (s : string) : option string :=
  match s with
  | EmptyString => None
  | String c r =>
      match r with
      | String d r' => if Ascii.eqb c "P" && Ascii.eqb d "T" then Some r' else afterPT r
      | EmptyString => None
      end
  end.

(** One optional group [(?:(\d+)X)?] read at the front of [s]: the digits
    captured and the rest of the string. *)
Definition group (unit : ascii) (s : string) : option string * string :=
  let ds := takeWhile isDigit s in
  match ds, dropWhile isDigit s with
  | String _ _, String u rest => if Ascii.eqb u unit then (Some ds, rest) else (None, s)
  | _, _ => (None, s)
  end.

(** [parseDurationToMinutes]: [/PT(?:(\d+)H)?(?:(\d+)M)?/].  The hours and
    the minutes are integers here; the doubles of the code are these
    integers as long as the result is at most [2^53 - 1]. *)
Definition parseDurationToMinutes (duration : option string) : Z :=
  if negb (truthyStr duration) then 0
  else
    match afterPT (default "" duration) with
    | None => 0
    | Some r =>
        let '(h, r1) := group "H" r in
        let '(m, _) := group "M" r1 in
        let hours := match h with Some ds => default 0 (parseInt ds) | None => 0 end in
        let minutes := match m with Some ds => default 0 (parseInt ds) | None => 0 end in
        hours * 60 + minutes
    end.

Section WithDate.
Context `{DateRuntime}.

(** [new Date(offer.slices[0].departureDateTime)]: the time value, [NaN]
    for an invalid date; a [TypeError] when the offer has no slice. *)
Definition departure (offer : Offer) : result (option Z) :=
  match slices offer with
  | [] => Throw TypeError
  | slice :: _ => Ok (parse (departureDateTime slice))
  end.

(** The callback of the time-based filter. *)
Definition departsWithin (range : TimeRange) (offer : Offer) : result bool :=
  match departure offer with
  | Throw e => Throw e
  | Ok departureTime =>
      let hour := getHours <$> departureTime in
      let fromHour := parseInt (splitHead ":" (from range)) in
      let toHour := parseInt (splitHead ":" (to range)) in
      Ok (if numLt toHour fromHour
          then numGe hour fromHour || numLe hour toHour
          else numGe hour fromHour && numLe hour toHour)
  end.

(** The comparator on first-slice departures; a [NaN] difference counts
    as [0]. *)
Definition cmpDeparture (a b : Offer) : Z :=
  match departure a, departure b with
  | Ok (Some x), Ok (Some y) => x - y
  | _, _ => 0
  end.

(** [[...offers].sort((a, b) => new Date(a.slices[0].departureDateTime) -
    new Date(b.slices[0].departureDateTime))]: the comparator is called on
    every element of a list of two or more, and throws on an offer without
    a slice. *)
Definition sortByDeparture (flip : bool) (offers : list Offer) : result (list Offer) :=
  if (2 <=? length offers)%nat &&
     existsb (fun o => match slices o with [] => true | _ => false end) offers
  then Throw TypeError
  else Ok (Js.sort (fun a b => if flip then cmpDeparture b a else cmpDeparture a b)
             offers).

Definition parsedDuration (offer : Offer) : Z :=
  foldl (fun total slice => total + parseDurationToMinutes (duration slice)) 0
        (slices offer).

(** [async filterOffers(offers, criteria)] *)
Definition filterOffers (offers : list Offer) (criteria : Criteria)
    : result (list Offer) :=
  let timed :=
    match departureTime criteria with
    | Some range => filterR (departsWithin range) offers
    | None => Ok offers
    end in
  match timed with
  | Throw e => Throw e
  | Ok filtered =>
      let filtered :=
        match maxConnections criteria with
        | Some limit =>
            List.filter
              (fun offer =>
                 forallb (fun slice => Z.of_nat (length (segments slice)) - 1 <=? limit)
                         (slices offer))
              filtered
        | None => filtered
        end in
      let filtered :=
        match airlines criteria with
        | Some ((_ :: _) as codes) =>
            let airlineCodes := map toUpperCase codes in
            List.filter
              (fun offer =>
                 existsb
                   (fun slice =>
                      existsb
                        (fun segment =>
                           bool_decide (iataCode (airline segment) ∈ airlineCodes))
                        (segments slice))
                   (slices offer))
              filtered
        | _ => filtered
        end in
      let filtered :=
        match maxPrice criteria with
        | Some limit =>
            if limit =? 0 then filtered
            else List.filter (fun offer => totalAmount offer <=? limit) filtered
        | None => filtered
        end in
      let filtered :=
        match minPrice criteria with
        | Some limit =>
            if limit =? 0 then filtered
            else List.filter (fun offer => limit <=? totalAmount offer) filtered
        | None => filtered
        end in
      let filtered :=
        match maxDuration criteria with
        | Some limit =>
            if limit =? 0 then filtered
            else List.filter (fun offer => parsedDuration offer <=? limit) filtered
        | None => filtered
        end in
      match sort criteria with
      | Some "price_low" =>
          Ok (Js.sort (fun a b => totalAmount a - totalAmount b) filtered)
      | Some "price_high" =>
          Ok (Js.sort (fun a b => totalAmount b - totalAmount a) filtered)
      | Some "duration_short" =>
          Ok (Js.sort (fun a b => parsedDuration a - parsedDuration b) filtered)
      | Some "duration_long" =>
          Ok (Js.sort (fun a b => parsedDuration b - parsedDuration a) filtered)
      | Some "departure_early" => sortByDeparture false filtered
      | Some "departure_late" => sortByDeparture true filtered
      | _ => Ok filtered
      end
  end.

(** The hour the time-based filter compares: [getHours()] of the
    departure of the first slice. *)
Definition departureHour (offer : Offer) : option Z :=
  match departure offer with
  | Ok t => getHours <$> t
  | Throw _ => None
  end.

(** *** [selectDiverseOffers] *)

Definition totalDuration (offer : Offer) : Z :=
  foldl (fun total slice => total + durationMinutes slice) 0 (slices offer).

(** [!selected.find(s => s.id === offer.id)] *)
Definition unselected (selected : list Offer) (offer : Offer) : bool :=
  negb (existsb (fun s => String.eqb (id s) (id offer)) selected).

(** [const o = sorted.find(offer => ...); if (o) selected.push(o)] *)
Definition pushUnique (sorted selected : list Offer) : list Offer :=
  match List.find (unselected selected) sorted with
  | Some offer => selected ++ [offer]
  | None => selected
  end.

(** The loop that fills the remaining slots. *)
Fixpoint fill (offers : list Offer) (count : nat) (selected : list Offer)
    : list Offer :=
  match offers with
  | [] => selected
  | offer :: rest =>
      if (count <=? length selected)%nat then selected
      else fill rest count
             (if unselected selected offer then selected ++ [offer] else selected)
  end.

(** [function selectDiverseOffers(offers, count)], [count] a natural
    number. *)
Definition selectDiverseOffers (offers : list Offer) (count : nat)
    : result (list Offer) :=
  if (length offers <=? count)%nat then Ok offers
  else
    let byPrice := Js.sort (fun a b => totalAmount a - totalAmount b) offers in
    let byDuration := Js.sort (fun a b => totalDuration a - totalDuration b) offers in
    match sortByDeparture false offers with
    | Throw e => Throw e
    | Ok byTime =>
        let selected :=
          match byPrice with
          | cheapest :: _ => [cheapest]
          | [] => []
          end in
        let selected := pushUnique byDuration selected in
        let selected := pushUnique byTime selected in
        let selected := fill offers count selected in
        Ok (sliceFirst count selected)
    end.
End WithDate.

(** What the selection keeps true of [selected]: its ids are pairwise
    distinct and its members are offers of the input. *)
Definition wellSelected (offers selected : list Offer) : Prop :=
  NoDup (map id selected) /\ forall o, o ∈ selected -> o ∈ offers.

(** Criteria that ask for a departure window only. *)
Definition departureOnly (range : TimeRange) : Criteria :=
  {| departureTime := Some range; maxConnections := None; airlines := None;
     maxPrice := None; minPrice := None; maxDuration := None; sort := None |}.

(** The window of the time-based filter on hours: closed on both ends, and
    wrapping midnight when [toHour < fromHour]. *)
Definition inWindow (fromHour toHour hour : Z) : Prop :=
  if toHour <? fromHour
  then fromHour <= hour \/ hour <= toHour
  else fromHour <= hour /\ hour <= toHour.

Definition inWindowb (fromHour toHour hour : Z) : bool :=
  if toHour <? fromHour
  then (fromHour <=? hour) || (hour <=? toHour)
  else (fromHour <=? hour) && (hour <=? toHour).

(** The test of the time-based filter on an offer that has a slice, for
    the hours [fromHour] and [toHour] read from the criteria. *)
Definition keptByWindow `{DateRuntime} (fromHour toHour : Z) (offer : Offer) : bool :=
  match departureHour offer with
  | Some hour => inWindowb fromHour toHour hour
  | None => false
  end.

(** The half-open window [[from, to)] of the specification. *)
Definition inHalfOpenWindow (fromHour toHour hour : Z) : Prop :=
  fromHour <= hour /\ hour < toHour.

End Offers.

(** ** The validation service (server/src/services/validation.service.js) *)
Module Validation.
Import Js.

Record ValidationError : Type := { field : string; message : string }.

(** One leg of a multi-city trip, as [validateMultiCity] reads it: the
    first leg carries its date under [date], an additional stop under
    [departureDate]. *)
Module Segment.
Record t : Type := {
  origin : option string;
  destination : option string;
  date : option string;
  departureDate : option string
}.
End Segment.

Record TimeRange : Type := { from : option string; to : option string }.

Record Passengers : Type := {
  adults : option Z;
  children : option Z;
  infants : option Z
}.

(** The search parameters handed to [validateFlightSearch]. *)
Record Params : Type := {
  type : option string;
  origin : option string;
  destination : option string;
  departureDate : option string;
  returnDate : option string;
  departureTime : option TimeRange;
  arrivalTime : option TimeRange;
  passengers : option Passengers;
  maxConnections : option Z;
  additionalStops : option (list Segment.t)
}.

Record ValidationResult : Type := {
  errors : list ValidationError;
  warnings : list string;
  isValid : bool
}.

Definition err (f m : string) : ValidationError := {| field := f; message := m |}.

(** [!v] on a possibly missing string. *)
Definition missing (v : option string) : bool := negb (truthyStr v).

(** The string a regular expression tests when handed [v]. *)
Definition toStr (v : option string) : string := default "undefined" v.

(** [isValidAirportCode]: [/^[A-Z]{3}$/.test(code)] *)
Definition isValidAirportCode (code : option string) : bool :=
  match toStr code with
  | String a (String b (String c EmptyString)) => isUpper a && isUpper b && isUpper c
  | _ => false
  end.

Definition inRange (lo hi : nat) (c : ascii) : bool :=
  ((lo <=? nat_of_ascii c) && (nat_of_ascii c <=? hi))%nat.

(** [timeRegex]: [/^([0-1]?[0-9]|2[0-3]):[0-5][0-9]$/] *)
Definition timeRegexTest (s : string) : bool :=
  match s with
  | String h (String ":" (String m1 (String m2 EmptyString))) =>
      isDigit h && inRange 48 53 m1 && isDigit m2
  | String h1 (String h2 (String ":" (String m1 (String m2 EmptyString)))) =>
      ((inRange 48 49 h1 && isDigit h2) || (Ascii.eqb h1 "2" && inRange 48 51 h2)) &&
      inRange 48 53 m1 && isDigit m2
  | _ => false
  end.

(** The part of a string after its first [c]. *)
Fixpoint afterChar (c : ascii) (s : string) : string :=
  match s with
  | EmptyString => EmptyString
  | String d s' => if Ascii.eqb c d then s' else afterChar c s'
  end.

(** [timeToMinutes], on a string that [timeRegex] accepts. *)
Definition timeToMinutes (time : string) : Z :=
  digitsValue 10 0 (splitHead ":" time) * 60 + digitsValue 10 0 (afterChar ":" time).

Definition quote : string := String (ascii_of_nat 34) EmptyString.

(** [Math.ceil(x / d)] for a positive [d]. *)
Definition ceilDiv (x d : Z) : Z := - ((- x) / d).

Section WithDate.
Context `{DateRuntime}.

(** [new Date(v)] for a possibly missing string: the time value, [NaN]
    when [v] is [undefined] or does not parse. *)
Definition newDate (v : option string) : option Z :=
  match v with
  | Some s => parse s
  | None => None
  end.

(** [validateDates]; [today] is the start of the current day. *)
Definition validateDates (today : Z) (params : Params) : list ValidationError :=
  if missing (departureDate params)
  then [err "departureDate" "Departure date is required"]
  else
    match newDate (departureDate params) with
    | None => [err "departureDate" "Invalid departure date format"]
    | Some depDate =>
        (if depDate <? today
         then [err "departureDate" "Departure date must be in the future"]
         else []) ++
        (if strictEq (type params) (Some "round_trip") &&
            truthyStr (returnDate params)
         then
           match newDate (returnDate params) with
           | None => [err "returnDate" "Invalid return date format"]
           | Some retDate =>
               if retDate <=? depDate
               then [err "returnDate" "Return date must be after departure date"]
               else []
           end
         else [])
    end.

(** [validateTimeRange] *)
Definition validateTimeRange (timeRange : TimeRange) (fieldName : string)
    : list ValidationError :=
  if missing (from timeRange) || missing (to timeRange)
  then [err fieldName "Time range must have both from and to times"]
  else
    let f := default "" (from timeRange) in
    let t := default "" (to timeRange) in
    let errors :=
      (if negb (timeRegexTest f)
       then [err fieldName
               ("Invalid " +:+ quote +:+ "from" +:+ quote +:+
                " time format. Use HH:MM format")]
       else []) ++
      (if negb (timeRegexTest t)
       then [err fieldName
               ("Invalid " +:+ quote +:+ "to" +:+ quote +:+
                " time format. Use HH:MM format")]
       else []) in
    match errors with
    | [] =>
        if timeToMinutes t <=? timeToMinutes f
        then [err fieldName
                (quote +:+ "From" +:+ quote +:+ " time must be before " +:+
                 quote +:+ "to" +:+ quote +:+ " time")]
        else []
    | _ => errors
    end.

(** [new Date(segment.date || segment.departureDate)] *)
Definition segmentDate (segment : Segment.t) : option Z :=
  newDate (orElse (Segment.date segment) (Segment.departureDate segment)).

(** The errors [validateMultiCity] reports on the pair of legs [i] and
    [i + 1]. *)
Definition continuityError (i : nat) : ValidationError :=
  err "additionalStops"
      ("Segment " +:+ showNat (i + 1) +:+ " destination doesn't match segment " +:+
       showNat (i + 2) +:+ " origin").

Definition sequenceError (i : nat) : ValidationError :=
  err "additionalStops"
      ("Segment " +:+ showNat (i + 2) +:+ " departure must be after segment " +:+
       showNat (i + 1)).

(** One round of the loop of [validateMultiCity]. *)
Definition segmentPairErrors (i : nat) (currentSegment nextSegment : Segment.t)
    : list ValidationError :=
  (if (0 <? i)%nat &&
      negb (strictEq (Segment.destination currentSegment)
                     (Segment.origin nextSegment))
   then [continuityError i] else []) ++
  (if negb (isValidAirportCode (Segment.origin currentSegment))
   then [err "additionalStops"
           ("Invalid airport code in segment " +:+ showNat (i + 1) +:+ " origin")]
   else []) ++
  (if negb (isValidAirportCode (Segment.destination currentSegment))
   then [err "additionalStops"
           ("Invalid airport code in segment " +:+ showNat (i + 1) +:+
            " destination")]
   else []) ++
  (if numLe (segmentDate nextSegment) (segmentDate currentSegment)
   then [sequenceError i] else []).

(** [for (let i = 0; i < allSegments.length - 1; i++)], from round [i] on
    the segments from index [i]. *)
Fixpoint segmentLoop (i : nat) (segments : list Segment.t)
    : list ValidationError :=
  match segments with
  | currentSegment :: ((nextSegment :: _) as rest) =>
      segmentPairErrors i currentSegment nextSegment ++ segmentLoop (S i) rest
  | _ => []
  end.

Definition allSegments (params : Params) (stops : list Segment.t)
    : list Segment.t :=
  {| Segment.origin := origin params; Segment.destination := destination params;
     Segment.date := departureDate params; Segment.departureDate := None |}
  :: stops.

(** [validateMultiCity] *)
Definition validateMultiCity (params : Params) : list ValidationError :=
  match additionalStops params with
  | None =>
      [err "additionalStops" "Additional stops are required for multi-city trips"]
  | Some [] =>
      [err "additionalStops"
         "At least one additional stop is required for multi-city trips"]
  | Some stops => segmentLoop 0 (allSegments params stops)
  end.

(** [validatePassengers] *)
Definition validatePassengers (passengers : option Passengers)
    : list ValidationError :=
  match passengers with
  | None => [err "passengers" "Passengers must be specified"]
  | Some p =>
      let a := default 0 (adults p) in
      let c := default 0 (children p) in
      let i := default 0 (infants p) in
      (if a <? 1
       then [err "passengers.adults" "At least one adult passenger is required"]
       else []) ++
      (if c <? 0
       then [err "passengers.children"
               "Number of children must be a non-negative integer"]
       else []) ++
      (if i <? 0
       then [err "passengers.infants"
               "Number of infants must be a non-negative integer"]
       else []) ++
      (if 9 <? a + c + i
       then [err "passengers" "Maximum 9 passengers allowed"]
       else []) ++
      (if a <? i
       then [err "passengers.infants"
               "Number of infants cannot exceed number of adults"]
       else [])
  end.

(** [validateFlightSearch]; [now] is the instant of the call, [today] the
    start of its day. *)
Definition validateFlightSearch (now today : Z) (params : Params)
    : ValidationResult :=
  let errors :=
    (if missing (origin params)
     then [err "origin" "Origin airport is required"]
     else if negb (isValidAirportCode (origin params))
     then [err "origin" "Invalid origin airport code format"]
     else []) ++
    (if missing (destination params)
     then [err "destination" "Destination airport is required"]
     else if negb (isValidAirportCode (destination params))
     then [err "destination" "Invalid destination airport code format"]
     else []) ++
    (if strictEq (origin params) (destination params)
     then [err "destination" "Origin and destination cannot be the same"]
     else []) ++
    validateDates today params ++
    match departureTime params with
    | Some range => validateTimeRange range "departureTime"
    | None => []
    end ++
    match arrivalTime params with
    | Some range => validateTimeRange range "arrivalTime"
    | None => []
    end ++
    (if strictEq (type params) (Some "round_trip") && missing (returnDate params)
     then [err "returnDate" "Return date is required for round-trip flights"]
     else []) ++
    (if strictEq (type params) (Some "multi_city")
     then validateMultiCity params
     else []) ++
    validatePassengers (passengers params) ++
    match maxConnections params with
    | Some n =>
        if (n <? 0) || (3 <? n)
        then [err "maxConnections" "Max connections must be between 0 and 3"]
        else []
    | None => []
    end in
  let daysDiff :=
    match newDate (departureDate params) with
    | Some depDate => Some (ceilDiv (depDate - now) (1000 * 60 * 60 * 24))
    | None => None
    end in
  let warnings :=
    (if numLt daysDiff (Some 2)
     then ["Booking very close to departure date may have limited availability"]
     else []) ++
    (if numLt (Some 365) daysDiff
     then ["Booking more than a year in advance may have limited availability"]
     else []) in
  {| errors := errors; warnings := warnings;
     isValid := (length errors =? 0)%nat |}.
End WithDate.

End Validation.

(** ** A provider double and a clock for the examples *)
Module Sandbox.
Import Js Duffel.

(** The provider holds the detailed offers it can serve, the orders placed
    and the payments received. *)
Record state : Type := {
  catalogue : gmap string RawOffer;
  orders : list Order;
  received : list PaymentRequest
}.

Definition amountOf (d : OrderData) : string :=
  match payments d with
  | p :: _ => payment_amount p
  | [] => "0"
  end.

Definition currencyOf (d : OrderData) : string :=
  match payments d with
  | p :: _ => default "" (payment_currency p)
  | [] => ""
  end.

#[export] Instance client : Client state := {|
  offers_get offerId _ st :=
    match catalogue st !! offerId with
    | Some o => (Ok o, st)
    | None => (Throw (ProviderError ["not_found"]), st)
    end;
  orders_create d st :=
    let o := {| order_id := "ord_" +:+ showNat (length (orders st));
                order_total_amount := amountOf d;
                order_total_currency := currencyOf d |} in
    (Ok o, {| catalogue := catalogue st; orders := orders st ++ [o];
              received := received st |});
  orders_get orderId st :=
    match List.find (fun o => String.eqb (order_id o) orderId) (orders st) with
    | Some o => (Ok o, st)
    | None => (Throw (ProviderError ["not_found"]), st)
    end;
  payments_create r st :=
    (Ok {| payment_id := "pay_" +:+ showNat (length (received st)) |},
     {| catalogue := catalogue st; orders := orders st;
        received := received st ++ [r] |})
|}.

(** A clock for timestamps written [YYYY-MM-DD] or [YYYY-MM-DDTHH:MM...],
    read in UTC on a calendar of twelve months of 31 days: its time values
    order the timestamps as the calendar does and keep the hour of the
    day. *)
Definition digitsAt (pos len : nat) (s : string) : option Z :=
  let d := String.substring pos len s in
  if (String.length d =? len)%nat && allChars isDigit d
  then Some (digitsValue 10 0 d) else None.

Definition calendarTime (s : string) : option Z :=
  match digitsAt 0 4 s, digitsAt 5 2 s, digitsAt 8 2 s with
  | Some y, Some m, Some d =>
      let day := (y * 12 + (m - 1)) * 31 + (d - 1) in
      match digitsAt 11 2 s, digitsAt 14 2 s with
      | Some hh, Some mm => Some (((day * 24 + hh) * 60 + mm) * 60000)
      | _, _ => Some (day * 24 * 3600000)
      end
  | _, _, _ => None
  end.

#[export] Instance clock : DateRuntime := {|
  parse := calendarTime;
  getHours t := (t / 3600000) mod 24;
  toISODate _ := "1970-01-01"
|}.

Definition passenger (first last phone : string) : Passenger :=
  {| gender := None; title := Some "Mr"; phoneNumber := Some phone;
     email := Some "traveller@example.com"; dateOfBirth := Some "1990-04-12";
     firstName := Some first; lastName := Some last; passportNumber := None;
     passportExpiry := None; nationality := None |}.

Definition offerFor (oid amount : string) (slots : list string)
    (svc : option (list string)) : RawOffer :=
  {| offer_id := oid; total_amount := amount; total_currency := "EUR";
     offer_passengers := map (fun i => {| passenger_id := i |}) slots;
     available_services :=
       option_map (map (fun i => {| service_id := i |})) svc |}.

(** An offer with three passenger slots. *)
Definition offer3 : RawOffer :=
  offerFor "off_3" "420.00" ["pas_1"; "pas_2"; "pas_3"] (Some ["ase_1"]).

Definition withOffer3 : state :=
  {| catalogue := {[ "off_3" := offer3 ]}; orders := []; received := [] |}.

(** A hold order whose current price is 120.00 EUR. *)
Definition heldOrder : Order :=
  {| order_id := "ord_1"; order_total_amount := "120.00";
     order_total_currency := "EUR" |}.

Definition withHeldOrder : state :=
  {| catalogue := ∅; orders := [heldOrder]; received := [] |}.

(** Three listed offers, of which the provider can detail the first and the
    third only. *)
Definition listed : list RawOffer :=
  [offerFor "off_a" "100.00" ["pas_1"] None;
   offerFor "off_b" "110.00" ["pas_1"] None;
   offerFor "off_c" "120.00" ["pas_1"] None].

Definition detailsOfTwo : state :=
  {| catalogue :=
       {[ "off_a" := offerFor "off_a" "100.00" ["pas_1"] (Some ["ase_1"]);
          "off_c" := offerFor "off_c" "120.00" ["pas_1"] (Some ["ase_2"]) ]};
     orders := []; received := [] |}.

(** A canonical offer of one slice and one segment. *)
Definition offerAt (oid : string) (amount minutes : Z) (departs : string)
    : Offers.Offer :=
  {| Offers.id := oid; Offers.totalAmount := amount;
     Offers.slices :=
       [{| Offers.departureDateTime := departs; Offers.duration := None;
           Offers.durationMinutes := minutes;
           Offers.segments := [{| Offers.airline := {| Offers.iataCode := "KL" |} |}] |}] |}.

Definition redEye : Offers.Offer := offerAt "off_0030" 31000 95 "2025-06-02T00:30:00".
Definition noon : Offers.Offer := offerAt "off_1200" 18000 80 "2025-06-01T12:00:00".
Definition halfPastNoon : Offers.Offer :=
  offerAt "off_1230" 21000 85 "2025-06-01T12:30:00".
Definition morning : Offers.Offer := offerAt "off_0915" 25000 70 "2025-06-01T09:15:00".

(** Multi-city searches for one adult.  [brokenFirstLink]: JFK to LHR,
    then CDG to JFK, the second leg starting where the first did not end.
    [brokenLaterLink]: JFK to LHR, LHR to CDG, then AMS to JFK a day before
    the second leg. *)
Definition leg (o d day : string) : Validation.Segment.t :=
  {| Validation.Segment.origin := Some o; Validation.Segment.destination := Some d;
     Validation.Segment.date := None; Validation.Segment.departureDate := Some day |}.

Definition multiCity (o d day : string) (stops : list Validation.Segment.t)
    : Validation.Params :=
  {| Validation.type := Some "multi_city"; Validation.origin := Some o;
     Validation.destination := Some d; Validation.departureDate := Some day;
     Validation.returnDate := None; Validation.departureTime := None;
     Validation.arrivalTime := None;
     Validation.passengers :=
       Some {| Validation.adults := Some 1; Validation.children := Some 0;
               Validation.infants := Some 0 |};
     Validation.maxConnections := None;
     Validation.additionalStops := Some stops |}.

Definition brokenFirstLink : Validation.Params :=
  multiCity "JFK" "LHR" "2025-06-01" [leg "CDG" "JFK" "2025-06-05"].

Definition brokenLaterLink : Validation.Params :=
  multiCity "JFK" "LHR" "2025-06-01"
    [leg "LHR" "CDG" "2025-06-03"; leg "AMS" "JFK" "2025-06-02";
     leg "JFK" "AMS" "2025-06-09"].

Definition roundTheWorld : Validation.Params :=
  multiCity "JFK" "LHR" "2025-06-01"
    [leg "LHR" "CDG" "2025-06-03"; leg "CDG" "JFK" "2025-06-05"].

(** The instant of the examples: 1 May 2025, 08:00. *)
Definition may1st : Z := default 0 (calendarTime "2025-05-01").
Definition may1st8am : Z := default 0 (calendarTime "2025-05-01T08:00").

(** Ten offers [off_x0] to [off_x9]: the later the offer in the list, the
    cheaper and the slower it is; all leave at 09:15. *)
Definition tenOffers : list Offers.Offer :=
  map (fun k => offerAt ("off_x" +:+ showNat k) (50000 - 1000 * Z.of_nat k)
                        (60 + 5 * Z.of_nat k) "2025-06-01T09:15:00")
      (seq 0 10).

End Sandbox.

(** ** Further primitives on strings *)
Module Text.
Import Js.

(** [s.toLowerCase()] on the ASCII letters. *)
Definition toLowerCase (s : string) : string :=
  mapChars (fun c => if isUpper c then ascii_of_nat (nat_of_ascii c + 32) else c) s.

(** [parts.join(sep)] *)
Fixpoint join (sep : string) (parts : list string) : string :=
  match parts with
  | [] => ""
  | [p] => p
  | p :: rest => p +:+ sep +:+ join sep rest
  end.

End Text.

(** ** Durations ([formatDuration], duffel.service.js) *)
Module Durations.
Import Js Offers Text.

(** [Number.MAX_SAFE_INTEGER], [2^53 - 1].  The numbers of the code are
    doubles: up to this bound they are the integers written here, their sums
    and products are exact, and they print in plain decimal. *)
Definition MAX_SAFE_INTEGER : Z := 9007199254740991.

(** [formatDuration]: [/PT(?:(\d+)H)?(?:(\d+)M)?/], then the parts that
    are positive joined by a blank, [0m] when there is none.  The hours and
    the minutes are printed as the integers they are up to
    [MAX_SAFE_INTEGER]. *)
Definition formatDuration (duration : option string) : string :=
  if negb (truthyStr duration) then ""
  else
    let d := default "" duration in
    match afterPT d with
    | None => d
    | Some r =>
        let '(h, r1) := group "H" r in
        let '(m, _) := group "M" r1 in
        let hours := match h with Some ds => default 0 (parseInt ds) | None => 0 end in
        let minutes := match m with Some ds => default 0 (parseInt ds) | None => 0 end in
        let parts :=
          (if 0 <? hours then [showNat (Z.to_nat hours) +:+ "h"] else []) ++
          (if 0 <? minutes then [showNat (Z.to_nat minutes) +:+ "m"] else []) in
        match join " " parts with
        | EmptyString => "0m"
        | joined => joined
        end
    end.

(** A non-empty run of decimal digits. *)
Definition isDigits (ds : string) : bool :=
  allChars isDigit ds && negb (String.eqb ds "").

(** An optional part [<digits><unit>] of an ISO 8601 duration. *)
Definition part (ds : option string) (unit : string) : string :=
  match ds with
  | Some ds => ds +:+ unit
  | None => ""
  end.

Definition partOk (ds : option string) : bool :=
  match ds with
  | Some ds => isDigits ds
  | None => true
  end.

(** The number a part writes, [0] when it is absent. *)
Definition partValue (ds : option string) : Z :=
  match ds with
  | Some ds => digitsValue 10 0 ds
  | None => 0
  end.

(** [PT<h>H<m>M], and [P<d>DT<h>H<m>M] for a day or more. *)
Definition iso (h m : option string) : string :=
  "PT" +:+ part h "H" +:+ part m "M".

Definition isoDays (d : string) (h m : option string) : string :=
  "P" +:+ d +:+ "DT" +:+ part h "H" +:+ part m "M".

(** The readable form of [hours] and [minutes]. *)
Definition readable (hours minutes : nat) : string :=
  match hours, minutes with
  | O, O => "0m"
  | O, _ => showNat minutes +:+ "m"
  | _, O => showNat hours +:+ "h"
  | _, _ => showNat hours +:+ "h " +:+ showNat minutes +:+ "m"
  end.

End Durations.

(** ** The canonical form of the provider's offers ([formatOffers],
       duffel.service.js) *)
Module Normalise.
Import Js Offers Durations.

(** The provider's offers, as far as the canonical form keeps what the
    filter and the selection read. *)
Record Carrier : Type := { iata_code : string }.

Record RawSegment : Type := {
  operating_carrier : Carrier;
  departing_at : string;
  arriving_at : string
}.

Record RawSlice : Type := {
  slice_duration : option string;
  slice_segments : list RawSegment
}.

Record RawOffer : Type := {
  raw_id : string;
  raw_total_amount : string;
  raw_slices : list RawSlice
}.

Section WithNumbers.
(** [parseFloat] on the decimal strings of the provider, in the smallest
    unit of the currency. *)
Context (parseFloat : string -> Z).

Definition formatSegment (segment : RawSegment) : Segment :=
  {| airline := {| iataCode := iata_code (operating_carrier segment) |} |}.

(** The callback of [offer.slices.map]: [slice.segments[0].departing_at]
    is a [TypeError] on a slice without segments. *)
Definition formatSlice (slice : RawSlice) : result Slice :=
  match slice_segments slice with
  | [] => Throw TypeError
  | first :: _ =>
      Ok {| departureDateTime := departing_at first;
            duration := Some (formatDuration (slice_duration slice));
            durationMinutes := parseDurationToMinutes (slice_duration slice);
            segments := map formatSegment (slice_segments slice) |}
  end.

(** [Array.prototype.map] with a callback that may throw. *)
Fixpoint mapR {A B : Type} (f : A -> result B) (l : list A) : result (list B) :=
  match l with
  | [] => Ok []
  | x :: l' =>
      match f x with
      | Throw e => Throw e
      | Ok y =>
          match mapR f l' with
          | Throw e => Throw e
          | Ok ys => Ok (y :: ys)
          end
      end
  end.

Definition formatOffer (offer : RawOffer) : result Offer :=
  match mapR formatSlice (raw_slices offer) with
  | Throw e => Throw e
  | Ok formatted =>
      Ok {| id := raw_id offer;
            totalAmount := parseFloat (raw_total_amount offer);
            slices := formatted |}
  end.

(** [formatOffers(offers)] *)
Definition formatOffers (offers : list RawOffer) : result (list Offer) :=
  mapR formatOffer offers.
End WithNumbers.

(** Criteria that ask for an order only. *)
Definition sortOnly (order : string) : Criteria :=
  {| departureTime := None; maxConnections := None; airlines := None;
     maxPrice := None; minPrice := None; maxDuration := None;
     sort := Some order |}.

(** Criteria that ask for a maximum duration only. *)
Definition durationOnly (limit : Z) : Criteria :=
  {| departureTime := None; maxConnections := None; airlines := None;
     maxPrice := None; minPrice := None; maxDuration := Some limit;
     sort := None |}.

End Normalise.

(** ** What [filterOffers] asks of an offer *)
Module Filtering.
Import Js Offers.

(** The orders [filterOffers] knows. *)
Definition orders : list string :=
  ["price_low"; "price_high"; "duration_short"; "duration_long";
   "departure_early"; "departure_late"].

(** The [switch] on the order, over what each case returns. *)
Section Switch.
Context {A : Type} (a1 a2 a3 a4 a5 a6 d : A).

Definition switch (order : string) : A :=
  match order with
  | "price_low" => a1
  | "price_high" => a2
  | "duration_short" => a3
  | "duration_long" => a4
  | "departure_early" => a5
  | "departure_late" => a6
  | _ => d
  end.
End Switch.

Section WithDate.
Context `{DateRuntime}.

(** What each criterion asks of an offer. *)
Definition inDepartureWindow (range : TimeRange) (offer : Offer) : bool :=
  match departsWithin range offer with
  | Ok kept => kept
  | Throw _ => false
  end.

Definition withinConnections (limit : Z) (offer : Offer) : bool :=
  forallb (fun slice => Z.of_nat (length (segments slice)) - 1 <=? limit)
          (slices offer).

Definition fliesWith (codes : list string) (offer : Offer) : bool :=
  existsb
    (fun slice =>
       existsb
         (fun segment =>
            bool_decide (iataCode (airline segment) ∈ map toUpperCase codes))
         (segments slice))
    (slices offer).

(** An offer meets the criteria when it meets each criterion that is set;
    a price or duration limit of [0] and an empty list of airlines count
    as not set. *)
Definition meets (criteria : Criteria) (offer : Offer) : bool :=
  match departureTime criteria with
  | Some range => inDepartureWindow range offer
  | None => true
  end &&
  match maxConnections criteria with
  | Some limit => withinConnections limit offer
  | None => true
  end &&
  match airlines criteria with
  | Some ((_ :: _) as codes) => fliesWith codes offer
  | _ => true
  end &&
  match maxPrice criteria with
  | Some limit => (limit =? 0) || (totalAmount offer <=? limit)
  | None => true
  end &&
  match minPrice criteria with
  | Some limit => (limit =? 0) || (limit <=? totalAmount offer)
  | None => true
  end &&
  match maxDuration criteria with
  | Some limit => (limit =? 0) || (parsedDuration offer <=? limit)
  | None => true
  end.

(** The last step of [filterOffers]: the order asked for. *)
Definition ordered (order : option string) (filtered : list Offer)
    : result (list Offer) :=
  match order with
  | Some "price_low" =>
      Ok (Js.sort (fun a b => totalAmount a - totalAmount b) filtered)
  | Some "price_high" =>
      Ok (Js.sort (fun a b => totalAmount b - totalAmount a) filtered)
  | Some "duration_short" =>
      Ok (Js.sort (fun a b => parsedDuration a - parsedDuration b) filtered)
  | Some "duration_long" =>
      Ok (Js.sort (fun a b => parsedDuration b - parsedDuration a) filtered)
  | Some "departure_early" => sortByDeparture false filtered
  | Some "departure_late" => sortByDeparture true filtered
  | _ => Ok filtered
  end.

(** The steps of [filterOffers] after the departure window: each criterion
    that is set narrows the list. *)
Definition narrowed (criteria : Criteria) (filtered : list Offer) : list Offer :=
  let filtered :=
    match maxConnections criteria with
    | Some limit => List.filter (withinConnections limit) filtered
    | None => filtered
    end in
  let filtered :=
    match airlines criteria with
    | Some ((_ :: _) as codes) => List.filter (fliesWith codes) filtered
    | _ => filtered
    end in
  let filtered :=
    match maxPrice criteria with
    | Some limit =>
        if limit =? 0 then filtered
        else List.filter (fun offer => totalAmount offer <=? limit) filtered
    | None => filtered
    end in
  let filtered :=
    match minPrice criteria with
    | Some limit =>
        if limit =? 0 then filtered
        else List.filter (fun offer => limit <=? totalAmount offer) filtered
    | None => filtered
    end in
  match maxDuration criteria with
  | Some limit =>
      if limit =? 0 then filtered
      else List.filter (fun offer => parsedDuration offer <=? limit) filtered
  | None => filtered
  end.

(** The time of the first departure, for offers whose first slice carries
    a valid date. *)
Definition departureKey (offer : Offer) : Z :=
  match departure offer with
  | Ok (Some t) => t
  | _ => 0
  end.

Definition departureKnown (offer : Offer) : bool :=
  match departure offer with
  | Ok (Some _) => true
  | _ => false
  end.
End WithDate.

(** Lists in the order of a key. *)
Definition ascending {A : Type} (key : A -> Z) (l : list A) : Prop :=
  StronglySorted (fun a b => key a <= key b) l.

Definition descending {A : Type} (key : A -> Z) (l : list A) : Prop :=
  StronglySorted (fun a b => key b <= key a) l.

End Filtering.

(** ** The way of a conversation through its stages *)
Module Journey.
Import Conversation.

(** The stages in the order of the schema's [enum]. *)
Definition stages : list string :=
  ["initial"; "search"; "selection"; "authentication"; "passenger_details";
   "additional_services"; "payment"; "confirmation"].

(** The index of [x] in [l], the length of [l] when [x] is not in it. *)
Fixpoint indexOf (x : string) (l : list string) : nat :=
  match l with
  | [] => 0
  | y :: l' => if String.eqb x y then 0 else S (indexOf x l')
  end.

(** The place of a stage on the way to the confirmation. *)
Definition rank (stage : string) : nat := indexOf stage stages.

(** [updateStage] called with each target in turn: the conversation
    afterwards and the number of calls that returned [true]. *)
Fixpoint attempts (targets : list string) (c : t) : t * nat :=
  match targets with
  | [] => (c, 0%nat)
  | target :: rest =>
      let '(c1, ok) := updateStage target c in
      let '(c2, n) := attempts rest c1 in
      (c2, if ok then S n else n)
  end.

End Journey.

(** ** Times of the day *)
Module Clock.
Import Js.

(** [n.toString().padStart(2, '0')] *)
Definition two (n : nat) : string :=
  (if (n <? 10)%nat then "0" else "") +:+ showNat n.

(** The time [h:mm] of the day, the hour written with two digits when
    [padded]. *)
Definition clock (padded : bool) (h m : nat) : string :=
  (if padded then two h else showNat h) +:+ ":" +:+ two m.

(** [timeRegex] spelled with comparisons of characters. *)
Definition isClock (s : string) : bool :=
  match s with
  | String a (String b (String c (String d rest))) =>
      if Ascii.eqb b ":"
      then
        match rest with
        | EmptyString => isDigit a && Validation.inRange 48 53 c && isDigit d
        | _ => false
        end
      else
        match rest with
        | String e EmptyString =>
            Ascii.eqb c ":" &&
            ((Validation.inRange 48 49 a && isDigit b) ||
             (Ascii.eqb a "2" && Validation.inRange 48 51 b)) &&
            Validation.inRange 48 53 d && isDigit e
        | _ => false
        end
  | _ => false
  end.

End Clock.

(** ** The search parameters ([FlightSearchParams], models/FlightSearch.js) *)
Module FlightSearch.
Import Js.

(** An additional stop of a multi-city search. *)
Module Stop.
Record t : Type := {
  origin : option string;
  destination : option string;
  date : option string;
  departureDate : option string;
  departureTime : option Validation.TimeRange
}.
End Stop.

(** The [params] handed to the constructor. *)
Module Input.
Record t : Type := {
  type : option string;
  origin : option string;
  destination : option string;
  departureDate : option string;
  returnDate : option string;
  departureTime : option Validation.TimeRange;
  arrivalTime : option Validation.TimeRange;
  cabinClass : option string;
  passengers : option Validation.Passengers;
  maxConnections : option Z;
  additionalStops : option (list Stop.t)
}.
End Input.

(** The object the constructor builds. *)
Record FlightSearchParams : Type := {
  type : string;
  origin : option string;
  destination : option string;
  departureDate : option string;
  returnDate : option string;
  departureTime : option Validation.TimeRange;
  arrivalTime : option Validation.TimeRange;
  cabinClass : string;
  passengers : Validation.Passengers;
  maxConnections : option Z;
  additionalStops : list Stop.t
}.

(** [a || b] on a possibly missing string, [b] a string. *)
Definition orDefault (a : option string) (b : string) : string :=
  if truthyStr a then default b a else b.

(** [constructor(params = {})] *)
Definition construct (params : Input.t) : FlightSearchParams :=
  {| type := orDefault (Input.type params) "one_way";
     origin := Input.origin params;
     destination := Input.destination params;
     departureDate := Input.departureDate params;
     returnDate := Input.returnDate params;
     departureTime := Input.departureTime params;
     arrivalTime := Input.arrivalTime params;
     cabinClass := orDefault (Input.cabinClass params) "economy";
     passengers :=
       default {| Validation.adults := Some 1; Validation.children := Some 0;
                  Validation.infants := Some 0 |}
               (Input.passengers params);
     maxConnections := Input.maxConnections params;
     additionalStops := default [] (Input.additionalStops params) |}.

(** The object as [validateFlightSearch] reads it. *)
Definition asSegment (stop : Stop.t) : Validation.Segment.t :=
  {| Validation.Segment.origin := Stop.origin stop;
     Validation.Segment.destination := Stop.destination stop;
     Validation.Segment.date := Stop.date stop;
     Validation.Segment.departureDate := Stop.departureDate stop |}.

Definition asParams (search : FlightSearchParams) : Validation.Params :=
  {| Validation.type := Some (type search);
     Validation.origin := origin search;
     Validation.destination := destination search;
     Validation.departureDate := departureDate search;
     Validation.returnDate := returnDate search;
     Validation.departureTime := departureTime search;
     Validation.arrivalTime := arrivalTime search;
     Validation.passengers := Some (passengers search);
     Validation.maxConnections := maxConnections search;
     Validation.additionalStops := Some (map asSegment (additionalStops search)) |}.

(** What [toDuffelFormat] returns. *)
Record DuffelSlice : Type := {
  slice_origin : option string;
  slice_destination : option string;
  departure_date : string;
  departure_time : option Validation.TimeRange;
  arrival_time : option Validation.TimeRange
}.

Record DuffelPassenger : Type := {
  passenger_type : string;
  age : option Z
}.

Record DuffelRequest : Type := {
  slices : list DuffelSlice;
  request_passengers : list DuffelPassenger;
  cabin_class : string;
  max_connections : option Z
}.

(** [isValidTimeRange] *)
Definition isValidTimeRange (timeRange : Validation.TimeRange) : bool :=
  if Validation.missing (Validation.from timeRange) ||
     Validation.missing (Validation.to timeRange)
  then false
  else
    let f := default "" (Validation.from timeRange) in
    let t := default "" (Validation.to timeRange) in
    if negb (Validation.timeRegexTest f) || negb (Validation.timeRegexTest t)
    then false
    else Validation.timeToMinutes f <? Validation.timeToMinutes t.

(** [this.passengers.<kind>] as the bound of a counting loop. *)
Definition count (n : option Z) : nat := Z.to_nat (default 0 n).

(** [formatPassengers()] *)
Definition formatPassengers (search : FlightSearchParams) : list DuffelPassenger :=
  replicate (count (Validation.adults (passengers search)))
            {| passenger_type := "adult"; age := None |} ++
  replicate (count (Validation.children (passengers search)))
            {| passenger_type := "child"; age := Some 10 |} ++
  replicate (count (Validation.infants (passengers search)))
            {| passenger_type := "infant_without_seat"; age := Some 1 |}.

Section WithDate.
Context `{DateRuntime}.

(** [validate()]; [today] is the start of the current day. *)
Definition validate (today : Z) (search : FlightSearchParams) : list string :=
  let depDate := Validation.newDate (departureDate search) in
  (if Validation.missing (origin search) then ["Origin is required"] else []) ++
  (if Validation.missing (destination search)
   then ["Destination is required"] else []) ++
  (if Validation.missing (departureDate search)
   then ["Departure date is required"] else []) ++
  (if numLt depDate (Some today)
   then ["Departure date must be in the future"] else []) ++
  (if String.eqb (type search) "round_trip"
   then
     if Validation.missing (returnDate search)
     then ["Return date is required for round-trip flights"]
     else if numLe (Validation.newDate (returnDate search)) depDate
     then ["Return date must be after departure date"]
     else []
   else []) ++
  (if String.eqb (type search) "multi_city" &&
      (length (additionalStops search) =? 0)%nat
   then ["Multi-city trips require at least one additional stop"]
   else []) ++
  match departureTime search with
  | Some range =>
      if negb (isValidTimeRange range) then ["Invalid departure time range"] else []
  | None => []
  end ++
  match arrivalTime search with
  | Some range =>
      if negb (isValidTimeRange range) then ["Invalid arrival time range"] else []
  | None => []
  end.

(** [formatDate(date)]: a string of the form [YYYY-MM-DD] is returned as
    it is; anything else goes through [new Date(date).toISOString()], which
    throws a [RangeError], an error with the message [Invalid time value],
    on an invalid date. *)
Definition formatDate (date : option string) : result string :=
  match date with
  | Some s =>
      if isIsoDate s then Ok s
      else
        match parse s with
        | Some t => Ok (toISODate t)
        | None => Throw (Error "Invalid time value")
        end
  | None => Throw (Error "Invalid time value")
  end.

(** [createSlice(origin, destination, date, departureTime, arrivalTime)] *)
Definition createSlice (o d date : option string)
    (departs arrives : option Validation.TimeRange) : result DuffelSlice :=
  match formatDate date with
  | Throw e => Throw e
  | Ok formatted =>
      Ok {| slice_origin := o; slice_destination := d;
            departure_date := formatted;
            departure_time := departs; arrival_time := arrives |}
  end.

(** [this.additionalStops.forEach(stop => slices.push(...))] *)
Fixpoint stopSlices (stops : list Stop.t) : result (list DuffelSlice) :=
  match stops with
  | [] => Ok []
  | stop :: rest =>
      match createSlice (Stop.origin stop) (Stop.destination stop)
                        (Stop.departureDate stop) (Stop.departureTime stop) None with
      | Throw e => Throw e
      | Ok slice =>
          match stopSlices rest with
          | Throw e => Throw e
          | Ok more => Ok (slice :: more)
          end
      end
  end.

(** [buildSlices()] *)
Definition buildSlices (search : FlightSearchParams) : result (list DuffelSlice) :=
  match createSlice (origin search) (destination search) (departureDate search)
                    (departureTime search) (arrivalTime search) with
  | Throw e => Throw e
  | Ok outbound =>
      let back :=
        if String.eqb (type search) "round_trip" && truthyStr (returnDate search)
        then
          match createSlice (destination search) (origin search) (returnDate search)
                            (departureTime search) (arrivalTime search) with
          | Throw e => Throw e
          | Ok slice => Ok [slice]
          end
        else Ok [] in
      match back with
      | Throw e => Throw e
      | Ok back =>
          let more :=
            if String.eqb (type search) "multi_city"
            then stopSlices (additionalStops search)
            else Ok [] in
          match more with
          | Throw e => Throw e
          | Ok more => Ok (outbound :: back ++ more)
          end
      end
  end.

(** [toDuffelFormat()] *)
Definition toDuffelFormat (today : Z) (search : FlightSearchParams)
    : result DuffelRequest :=
  let errors := validate today search in
  if (0 <? length errors)%nat
  then Throw (Error ("Validation errors: " +:+ Text.join ", " errors))
  else
    match buildSlices search with
    | Throw e => Throw e
    | Ok built =>
        Ok {| slices := built;
              request_passengers := formatPassengers search;
              cabin_class := cabinClass search;
              max_connections := maxConnections search |}
    end.
End WithDate.

(** The number of slices [buildSlices] makes for a search. *)
Definition sliceCount (search : FlightSearchParams) : nat :=
  if String.eqb (type search) "round_trip" then 2
  else if String.eqb (type search) "multi_city"
       then S (length (additionalStops search))
       else 1.

(** The legs of a search: the outbound leg, then the way back of a round
    trip or the additional stops of a multi-city search. *)
Definition legs (search : FlightSearchParams)
    : list (option string * option string) :=
  (origin search, destination search) ::
  (if String.eqb (type search) "round_trip"
   then [(destination search, origin search)]
   else if String.eqb (type search) "multi_city"
        then map (fun stop => (Stop.origin stop, Stop.destination stop))
                 (additionalStops search)
        else []).

(** A date [formatDate] accepts. *)
Definition formattable `{DateRuntime} (date : option string) : bool :=
  match date with
  | Some s => isIsoDate s || bool_decide (is_Some (parse s))
  | None => false
  end.

End FlightSearch.

(** ** The recommendation helpers (routes/flights.js) *)
Module Recommend.
Import Js.

(** [timeRanges] *)
Definition timeRanges : gmap string (list Z) :=
  <["morning" := [6; 12]]>
  (<["afternoon" := [12; 17]]>
  (<["evening" := [17; 21]]>
  (<["night" := [21; 24; 0; 5]]> ∅))).

(** [checkTimeMatch(hour, timeOfDay)]; [hour] is [NaN] for an invalid
    date, and an index outside the range reads [undefined], which compares
    false. *)
Definition checkTimeMatch (hour : option Z) (timeOfDay : string) : bool :=
  match timeRanges !! timeOfDay with
  | None => false
  | Some range =>
      if (length range =? 2)%nat
      then numGe hour (range !! 0%nat) && numLt hour (range !! 1%nat)
      else numGe hour (range !! 0%nat) || numLt hour (range !! 3%nat)
  end.

(** The departure part of [generateRecommendationReasoning]. *)
Definition departureLabel (departureHour : option Z) : string :=
  if numGe departureHour (Some 6) && numLt departureHour (Some 12)
  then "Morning departure"
  else if numGe departureHour (Some 12) && numLt departureHour (Some 17)
  then "Afternoon departure"
  else if numGe departureHour (Some 17) && numLt departureHour (Some 21)
  then "Evening departure"
  else "Night departure".

(** The time of day a label names. *)
Definition timeOfDayOf (label : string) : string :=
  if String.eqb label "Morning departure" then "morning"
  else if String.eqb label "Afternoon departure" then "afternoon"
  else if String.eqb label "Evening departure" then "evening"
  else "night".

End Recommend.

(** ** More options (routes/flights.js, routes/chat.js) *)
Module MoreOptions.
Import Js Offers.

Section WithDate.
Context `{DateRuntime}.

(** [offers.filter(offer => !existingIds.includes(offer.id))] *)
Definition unseen (existingIds : list string) (offers : list Offer) : list Offer :=
  List.filter (fun offer => negb (Conversation.includes (id offer) existingIds))
              offers.

(** The offers shown for "more options": those whose id is not among
    [existingIds], the ids of the current [searchResults], then the diverse
    selection of three. *)
Definition moreOptions (existingIds : list string) (offers : list Offer)
    : result (list Offer) :=
  selectDiverseOffers (unseen existingIds offers) 3.
End WithDate.

End MoreOptions.

(** ** The life of a conversation document (models/Conversation.js) *)
Module Lifecycle.
Import Js.

(** A conversation with the paths the status reads. *)
Record Doc : Type := {
  conversation : Conversation.t;
  bookingReference : option string;
  paymentStatus : string
}.

(** The virtual [status], read at [now]. *)
Definition status (now : Z) (d : Doc) : string :=
  if truthyStr (bookingReference d) then "completed"
  else if String.eqb (paymentStatus d) "processing" then "processing"
  else if String.eqb (Conversation.currentStage (conversation d)) "confirmation"
  then "confirmed"
  else if Conversation.expiresAt (conversation d) <? now then "expired"
  else "active".

(** The filter of [cleanupExpired]:
    [{ expiresAt: { $lt: now }, bookingReference: { $exists: false } }]. *)
Definition expiredUnbooked (now : Z) (d : Doc) : bool :=
  (Conversation.expiresAt (conversation d) <? now) &&
  bool_decide (bookingReference d = None).

(** [cleanupExpired()]: the collection after [deleteMany]. *)
Definition cleanupExpired (now : Z) (collection : list Doc) : list Doc :=
  List.filter (fun d => negb (expiredUnbooked now d)) collection.

End Lifecycle.

(** ** Time preferences in free text ([parseTimePreference],
       validation.service.js) *)
Module TimePreference.
Import Js Text Clock.

(** [s.includes(needle)] *)
Fixpoint includesStr (needle s : string) : bool :=
  startsWith needle s ||
  match s with
  | EmptyString => false
  | String _ s' => includesStr needle s'
  end.

Definition window (f t : string) : Validation.TimeRange :=
  {| Validation.from := Some f; Validation.to := Some t |}.

(** [preferences], in the order of the object literal, which is the order
    [Object.entries] lists it in. *)
Definition preferences : list (string * Validation.TimeRange) :=
  [("early morning", window "05:00" "08:00");
   ("morning", window "06:00" "12:00");
   ("afternoon", window "12:00" "17:00");
   ("evening", window "17:00" "21:00");
   ("night", window "21:00" "23:59");
   ("late night", window "22:00" "23:59");
   ("red eye", window "23:00" "05:00");
   ("business hours", window "08:00" "18:00");
   ("daytime", window "06:00" "18:00")].

(** The loop over the entries: the value of the first key the text
    includes. *)
Definition keyword (lowerText : string) : option Validation.TimeRange :=
  snd <$> List.find (fun entry => includesStr (fst entry) lowerText) preferences.

(** [\s*(am|pm)] at the front of [s]. *)
Definition period (s : string) : option string :=
  match dropWhile isSpace s with
  | String "a" (String "m" _) => Some "am"
  | String "p" (String "m" _) => Some "pm"
  | _ => None
  end.

(** [(\d{1,2})\s*(am|pm)] at the front of [s]: two digits are tried before
    one. *)
Definition timeAt (s : string) : option (string * string) :=
  match s with
  | String a r =>
      if isDigit a
      then
        let one := (fun p => (String a "", p)) <$> period r in
        match r with
        | String b r' =>
            if isDigit b
            then
              match period r' with
              | Some p => Some (String a (String b ""), p)
              | None => one
              end
            else one
        | EmptyString => one
        end
      else None
  | EmptyString => None
  end.

(** [lowerText.match(/(\d{1,2})\s*(am|pm)/i)]: the leftmost match. *)
Fixpoint timeMatch (s : string) : option (string * string) :=
  match timeAt s with
  | Some found => Some found
  | None =>
      match s with
      | EmptyString => None
      | String _ s' => timeMatch s'
      end
  end.

(** The hour of the day of an hour with its period. *)
Definition hour24 (hour : Z) (p : string) : Z :=
  let hour := if String.eqb p "pm" && negb (hour =? 12) then hour + 12 else hour in
  if String.eqb p "am" && (hour =? 12) then 0 else hour.

(** [parseTimePreference(text)] *)
Definition parseTimePreference (text : string) : option Validation.TimeRange :=
  let lowerText := toLowerCase text in
  match keyword lowerText with
  | Some value => Some value
  | None =>
      match timeMatch lowerText with
      | Some (digits, p) =>
          let hour := hour24 (default 0 (parseInt digits)) p in
          Some (window (two (Z.to_nat hour) +:+ ":00")
                       (two (Z.to_nat (hour + 2)) +:+ ":00"))
      | None => None
      end
  end.

(** The window of a time mention, by its first hour. *)
Definition twoHours (h : nat) : Validation.TimeRange :=
  window (two h +:+ ":00") (two (h + 2) +:+ ":00").

End TimePreference.

(** ** Passengers and services of the Duffel service (duffel.service.js) *)
Module Service.
Import Js.

Definition adult : FlightSearch.DuffelPassenger :=
  {| FlightSearch.passenger_type := "adult"; FlightSearch.age := None |}.
Definition child : FlightSearch.DuffelPassenger :=
  {| FlightSearch.passenger_type := "child"; FlightSearch.age := Some 10 |}.
Definition infant : FlightSearch.DuffelPassenger :=
  {| FlightSearch.passenger_type := "infant_without_seat";
     FlightSearch.age := Some 1 |}.

(** [formatPassengers(passengers)] on counts that are integers or
    missing: a missing count takes its default, and a count of adults
    below one lists one adult. *)
Definition formatPassengers (passengers : option Validation.Passengers)
    : list FlightSearch.DuffelPassenger :=
  match passengers with
  | None => [adult]
  | Some p =>
      let adults := default 1 (Validation.adults p) in
      let children := default 0 (Validation.children p) in
      let infants := default 0 (Validation.infants p) in
      (if adults <? 1 then [adult] else replicate (Z.to_nat adults) adult) ++
      (if 0 <? children then replicate (Z.to_nat children) child else []) ++
      (if 0 <? infants then replicate (Z.to_nat infants) infant else [])
  end.

(** A service of an offer, as the provider lists it. *)
Record Metadata : Type := {
  amenities : option (list string);
  disclosures : option (list string);
  column : option string;
  metadata_type : option string
}.

Record RawService : Type := {
  id : option string;
  type : option string;
  metadata : option Metadata;
  maximum_quantity : option Z
}.

(** A formatted service, as far as its heading decides it: a seat carries
    the kind of seat as its type, a bag the type of its metadata or
    [checked], any other service the type of the provider. *)
Record Formatted : Type := {
  formatted_id : string;
  formatted_type : option string;
  maximumQuantity : option Z
}.

Record AvailableServices : Type := {
  seats : list Formatted;
  baggage : list Formatted;
  other : list Formatted
}.

(** [determineSeatType(metadata)] *)
Definition determineSeatType (meta : option Metadata) : string :=
  match meta with
  | None => "standard"
  | Some m =>
      if Conversation.includes "extra_legroom" (default [] (amenities m)) ||
         Conversation.includes "extra_legroom" (default [] (disclosures m))
      then "extra_legroom"
      else if truthyStr (column m)
      then
        let c := default "" (column m) in
        if String.eqb c "A" || String.eqb c "F" || String.eqb c "K" then "window"
        else if String.eqb c "C" || String.eqb c "D" || String.eqb c "E" ||
                String.eqb c "H"
        then "aisle"
        else "middle"
      else "standard"
  end.

(** [n || 1] *)
Definition orOne (n : option Z) : Z :=
  match n with
  | Some 0 | None => 1
  | Some n => n
  end.

(** The callback of [services.forEach]. *)
Definition fileService (acc : AvailableServices) (service : RawService)
    : AvailableServices :=
  if negb (truthyStr (id service)) then acc
  else
    let i := default "" (id service) in
    if strictEq (type service) (Some "seat")
    then {| seats := seats acc ++
                     [{| formatted_id := i;
                         formatted_type := Some (determineSeatType (metadata service));
                         maximumQuantity := None |}];
            baggage := baggage acc; other := other acc |}
    else if strictEq (type service) (Some "baggage")
    then {| seats := seats acc;
            baggage := baggage acc ++
                       [{| formatted_id := i;
                           formatted_type :=
                             orElse (metadata service ≫= metadata_type)
                                    (Some "checked");
                           maximumQuantity :=
                             Some (orOne (maximum_quantity service)) |}];
            other := other acc |}
    else {| seats := seats acc; baggage := baggage acc;
            other := other acc ++
                     [{| formatted_id := i;
                         formatted_type := type service;
                         maximumQuantity :=
                           Some (orOne (maximum_quantity service)) |}] |}.

(** [formatAvailableServices(services)] *)
Definition formatAvailableServices (services : list RawService) : AvailableServices :=
  foldl fileService {| seats := []; baggage := []; other := [] |} services.

(** The heading a service belongs under. *)
Definition isSeat (service : RawService) : bool :=
  truthyStr (id service) && strictEq (type service) (Some "seat").

Definition isBaggage (service : RawService) : bool :=
  truthyStr (id service) && strictEq (type service) (Some "baggage").

Definition isOther (service : RawService) : bool :=
  truthyStr (id service) && negb (strictEq (type service) (Some "seat")) &&
  negb (strictEq (type service) (Some "baggage")).

Definition idsOf (p : RawService -> bool) (services : list RawService)
    : list string :=
  map (fun service => default "" (id service)) (List.filter p services).

End Service.

(** ** Multi-city searches and the filter handler *)

Module MultiCity.

(** [{ ...params, additionalStops: stops }] *)
Definition withStops (stops : list Validation.Segment.t)
    (params : Validation.Params) : Validation.Params :=
  {| Validation.type := Validation.type params;
     Validation.origin := Validation.origin params;
     Validation.destination := Validation.destination params;
     Validation.departureDate := Validation.departureDate params;
     Validation.returnDate := Validation.returnDate params;
     Validation.departureTime := Validation.departureTime params;
     Validation.arrivalTime := Validation.arrivalTime params;
     Validation.passengers := Validation.passengers params;
     Validation.maxConnections := Validation.maxConnections params;
     Validation.additionalStops := Some stops |}.

(** [{ ...segment, origin, destination }] *)
Definition reroute (origin destination : option string)
    (segment : Validation.Segment.t) : Validation.Segment.t :=
  {| Validation.Segment.origin := origin;
     Validation.Segment.destination := destination;
     Validation.Segment.date := Validation.Segment.date segment;
     Validation.Segment.departureDate :=
       Validation.Segment.departureDate segment |}.

End MultiCity.

Module FilterHandler.
Import Js Offers.

Section WithDate.
Context `{DateRuntime}.

(** [handleFlightFilter], from the offers of the search to the offers
    shown: [filterOffers(offers, filterCriteria)], then [slice(0, 3)]. *)
Definition bestFilteredOffers (offers : list Offer) (filterCriteria : Criteria)
    : result (list Offer) :=
  match filterOffers offers filterCriteria with
  | Ok filteredOffers => Ok (take 3 filteredOffers)
  | Throw e => Throw e
  end.

End WithDate.
End FilterHandler.


(** ** Data for the examples *)
Module Samples.
Import Js.

(** Amounts in hundredths, read off a decimal string with two decimals. *)
Definition hundredths (s : string) : Z := digitsValue 10 0 (removeNonDigits s).

Definition rawSegment (code departs arrives : string) : Normalise.RawSegment :=
  {| Normalise.operating_carrier := {| Normalise.iata_code := code |};
     Normalise.departing_at := departs; Normalise.arriving_at := arrives |}.

(** Two offers of the provider: a direct flight of two and a half hours,
    and a journey of a day and an hour with a connection. *)
Definition rawOffers : list Normalise.RawOffer :=
  [{| Normalise.raw_id := "off_direct"; Normalise.raw_total_amount := "180.00";
      Normalise.raw_slices :=
        [{| Normalise.slice_duration := Some "PT2H30M";
            Normalise.slice_segments :=
              [rawSegment "KL" "2025-06-01T09:15:00" "2025-06-01T11:45:00"] |}] |};
   {| Normalise.raw_id := "off_long"; Normalise.raw_total_amount := "95.50";
      Normalise.raw_slices :=
        [{| Normalise.slice_duration := Some "P1DT1H";
            Normalise.slice_segments :=
              [rawSegment "BA" "2025-06-01T07:00:00" "2025-06-01T19:00:00";
               rawSegment "BA" "2025-06-02T06:00:00" "2025-06-02T08:00:00"] |}] |}].

Definition fourOffers : list Offers.Offer :=
  [Sandbox.noon; Sandbox.redEye; Sandbox.halfPastNoon; Sandbox.morning].

(** At most 260.00, cheapest first. *)
Definition cheapFirst : Offers.Criteria :=
  {| Offers.departureTime := None; Offers.maxConnections := Some 0;
     Offers.airlines := Some ["kl"]; Offers.maxPrice := Some 26000;
     Offers.minPrice := None; Offers.maxDuration := None;
     Offers.sort := Some "price_low" |}.

(** No limit, cheapest first. *)
Definition cheapest : Offers.Criteria :=
  {| Offers.departureTime := None; Offers.maxConnections := None;
     Offers.airlines := None; Offers.maxPrice := None;
     Offers.minPrice := None; Offers.maxDuration := None;
     Offers.sort := Some "price_low" |}.

Definition window (f t : string) : Validation.TimeRange :=
  {| Validation.from := Some f; Validation.to := Some t |}.

(** A round trip from Amsterdam to New York for two adults and a child,
    leaving in the morning. *)
Definition roundTrip : FlightSearch.FlightSearchParams :=
  FlightSearch.construct
    {| FlightSearch.Input.type := Some "round_trip";
       FlightSearch.Input.origin := Some "AMS";
       FlightSearch.Input.destination := Some "JFK";
       FlightSearch.Input.departureDate := Some "2025-06-01";
       FlightSearch.Input.returnDate := Some "2025-06-10";
       FlightSearch.Input.departureTime := Some (window "08:00" "12:00");
       FlightSearch.Input.arrivalTime := None;
       FlightSearch.Input.cabinClass := None;
       FlightSearch.Input.passengers :=
         Some {| Validation.adults := Some 2; Validation.children := Some 1;
                 Validation.infants := None |};
       FlightSearch.Input.maxConnections := Some 1;
       FlightSearch.Input.additionalStops := None |}.

(** Two conversations a day and more after their creation: one whose
    payment is being processed, and one that is booked. *)
Definition paying : Lifecycle.Doc :=
  {| Lifecycle.conversation :=
       Conversation.setCurrentStage "payment" (Conversation.create 0 "session-1");
     Lifecycle.bookingReference := None;
     Lifecycle.paymentStatus := "processing" |}.

Definition booked : Lifecycle.Doc :=
  {| Lifecycle.conversation :=
       Conversation.setCurrentStage "confirmation" (Conversation.create 0 "session-2");
     Lifecycle.bookingReference := Some "BK-2041";
     Lifecycle.paymentStatus := "completed" |}.

End Samples.

(** * Properties *)

(** ** The stage machine of the conversation *)
Section ConversationStage.
Import Conversation.

Lemma includes_spec (x : string) (l : list string) :
  includes x l = true <-> x ∈ l.
Proof.
  unfold includes. rewrite existsb_exists, list_elem_of_In. split.
  - intros (y & Hy & E). apply String.eqb_eq in E. by subst.
  - intros H. exists x. split; [done | apply String.eqb_refl].
Qed.

Lemma includes_false (x : string) (l : list string) :
  includes x l = false <-> x ∉ l.
Proof.
  rewrite <- includes_spec. destruct (includes x l); split; congruence.
Qed.

Ltac table_case :=
  rewrite lookup_insert; case_decide;
  [ subst; rewrite includes_spec; simpl; rewrite ?elem_of_cons, elem_of_nil;
    let Hin := fresh "Hin" in
    intros Hin; repeat destruct Hin as [Hin | Hin]; subst;
    try constructor; try done
  | ].

Lemma transitions_sound (cur target : string) :
  includes target (default [] (validTransitions !! cur)) = true ->
  edge cur target.
Proof.
  unfold validTransitions.
  do 8 table_case.
  rewrite lookup_empty. simpl. discriminate.
Qed.

Lemma transitions_complete (cur target : string) :
  edge cur target ->
  includes target (default [] (validTransitions !! cur)) = true.
Proof. intros H. destruct H; vm_compute; reflexivity. Qed.

Lemma transitions_graph (cur target : string) :
  includes target (default [] (validTransitions !! cur)) = true <->
  edge cur target.
Proof. split; [apply transitions_sound | apply transitions_complete]. Qed.
End ConversationStage.

Section ConversationClaims.
Import Conversation.

Lemma currentStage_setCurrentStage (s : string) (c : Conversation.t) :
  currentStage (setCurrentStage s c) = s.
Proof.
  unfold setCurrentStage.
  by destruct (String.eqb_spec s (currentStage c)).
Qed.

(** No stage is its own successor. *)
Lemma edge_irreflexive (cur target : string) : edge cur target -> target <> cur.
Proof. by destruct 1. Qed.

(** C7. [updateStage] returns [true] exactly when the pair (current stage,
    target) is an edge of the transition graph; on an edge the stage
    becomes the target; off the graph it returns [false] and the document
    is the one it was given, so [payment] to [selection] is rejected with
    the stage unchanged. *)
Theorem updateStage_iff_edge (c : Conversation.t) (target : string) :
  (snd (updateStage target c) = true <-> edge (currentStage c) target) /\
  (edge (currentStage c) target ->
     updateStage target c = (setCurrentStage target c, true) /\
     currentStage (fst (updateStage target c)) = target) /\
  (~ edge (currentStage c) target -> updateStage target c = (c, false)) /\
  (currentStage c = "payment" -> updateStage "selection" c = (c, false)).
Proof.
  assert (Hpay : currentStage c = "payment" ->
                 updateStage "selection" c = (c, false)).
  { intros Hp. unfold updateStage. rewrite Hp. reflexivity. }
  unfold updateStage in *.
  pose proof (transitions_graph (currentStage c) target) as G.
  destruct (includes target (default [] (validTransitions !! currentStage c)))
    eqn:E; cbn [fst snd].
  - split; [tauto | split; [| split; [| exact Hpay]]].
    + intros _. split; [reflexivity | apply currentStage_setCurrentStage].
    + intros Hn. exfalso. apply Hn, G. reflexivity.
  - assert (Hno : ~ edge (currentStage c) target).
    { intros He. apply G in He. discriminate. }
    split; [split; [discriminate | tauto] | split; [tauto | split; [done |]]].
    exact Hpay.
Qed.

(** The expiry of a saved document: pushed to a day after the save when
    the message log or the stage was modified since the last save, and
    left as it was otherwise. *)
Lemma save_expiresAt (now : Z) (c : Conversation.t) :
  expiresAt (save now c) =
  if isModified "messages" c || isModified "currentStage" c
  then now + DAY_MS else expiresAt c.
Proof. reflexivity. Qed.

Lemma isModified_markModified (p q : string) (c : Conversation.t) :
  isModified p (markModified q c) = bool_decide (p = q) || isModified p c.
Proof.
  unfold isModified, markModified; simpl.
  rewrite <- bool_decide_or. apply bool_decide_ext. set_solver.
Qed.

Lemma isModified_other (p q : string) (c : Conversation.t) :
  p <> q -> isModified p (markModified q c) = isModified p c.
Proof.
  intros Hne. rewrite isModified_markModified.
  by rewrite bool_decide_eq_false_2.
Qed.

Lemma isModified_same (p : string) (c : Conversation.t) :
  isModified p (markModified p c) = true.
Proof.
  rewrite isModified_markModified. by rewrite bool_decide_eq_true_2.
Qed.

Lemma active_setFlightSearchParams p c :
  active (setFlightSearchParams p c) = active c.
Proof.
  unfold active, setFlightSearchParams.
  by rewrite !isModified_other by discriminate.
Qed.

Lemma active_setSearchHistory h c :
  active (setSearchHistory h c) = active c.
Proof.
  unfold active, setSearchHistory.
  by rewrite !isModified_other by discriminate.
Qed.

Lemma active_setSearchResults rs c :
  active (setSearchResults rs c) = active c.
Proof.
  unfold active, setSearchResults.
  by rewrite !isModified_other by discriminate.
Qed.

Lemma active_setRefinements r c :
  active (setRefinements r c) = active c.
Proof.
  unfold active, setRefinements.
  by rewrite !isModified_other by discriminate.
Qed.

Lemma active_setMessages ms c : active (setMessages ms c) = true.
Proof. unfold active, setMessages. by rewrite isModified_same. Qed.

Lemma active_setCurrentStage s c :
  s <> currentStage c -> active (setCurrentStage s c) = true.
Proof.
  intros Hne. unfold active, setCurrentStage.
  destruct (String.eqb_spec s (currentStage c)) as [| _]; [done |].
  rewrite (isModified_same "currentStage"). apply orb_true_r.
Qed.

(** C8, as the code has it.  A save refreshes the expiry exactly when the
    message log or the stage is marked as modified: [addMessage], a saved
    change of the stage and a saved successful [updateStage] push
    [expiresAt] to a day after the save, while [updateSearchParams] and a
    saved change of the search results leave [expiresAt] as it was unless
    the messages or the stage were modified as well. *)
Theorem expiry_refreshed_on_messages_or_stage
    (now : Z) (c : Conversation.t) :
  (forall r cnt meta, expiresAt (addMessage now r cnt meta c) = now + DAY_MS) /\
  (forall s,
     s <> currentStage c ->
     expiresAt (save now (setCurrentStage s c)) = now + DAY_MS) /\
  (forall target,
     snd (updateStage target c) = true ->
     expiresAt (save now (fst (updateStage target c))) = now + DAY_MS) /\
  (forall params,
     expiresAt (updateSearchParams now params c) =
     if isModified "messages" c || isModified "currentStage" c
     then now + DAY_MS else expiresAt c) /\
  (forall rs,
     expiresAt (save now (setSearchResults rs c)) =
     if isModified "messages" c || isModified "currentStage" c
     then now + DAY_MS else expiresAt c).
Proof.
  fold (active c).
  assert (Hstage : forall s, s <> currentStage c ->
            expiresAt (save now (setCurrentStage s c)) = now + DAY_MS).
  { intros s Hne. rewrite save_expiresAt. fold (active (setCurrentStage s c)).
    by rewrite active_setCurrentStage. }
  split; [| split; [exact Hstage | split; [| split]]].
  - intros r cnt meta. unfold addMessage. rewrite save_expiresAt.
    fold (active (setMessages (messages c ++
      [{| role := r; content := cnt; timestamp := now; metadata := meta |}]) c)).
    by rewrite active_setMessages.
  - intros target Hok. unfold updateStage in *.
    destruct (includes target _) eqn:E; [| discriminate].
    cbn [fst]. apply Hstage, edge_irreflexive, transitions_graph, E.
  - intros params. unfold updateSearchParams. rewrite save_expiresAt.
    match goal with
    | |- (if isModified "messages" ?d || _ then _ else _) = _ =>
        fold (active d);
        replace (active d) with (active c);
        [ replace (expiresAt d) with (expiresAt c); [ reflexivity | ] | ]
    end.
    + by destruct (_ <? _)%nat.
    + destruct (_ <? _)%nat;
        by rewrite ?active_setSearchHistory, ?active_setFlightSearchParams.
  - intros rs. rewrite save_expiresAt. fold (active (setSearchResults rs c)).
    by rewrite active_setSearchResults.
Qed.

(** C8 fails as stated: a save that only changes the flight search
    parameters of a freshly created conversation, five seconds after its
    creation, leaves [expiresAt] where it was. *)
Lemma search_params_save_keeps_expiry :
  let c0 := create 0 "session-1" in
  let c1 := updateSearchParams 5000 {[ "origin" := "AMS" ]} c0 in
  flightSearchParams c0 !! "origin" = None /\
  flightSearchParams c1 !! "origin" = Some "AMS" /\
  currentStage c1 = currentStage c0 /\
  messages c1 = messages c0 /\
  expiresAt c1 = expiresAt c0 /\
  expiresAt c1 < 5000 + DAY_MS.
Proof. vm_compute. repeat split. Qed.

Lemma updateSearchParams_history (now : Z) (p : gmap string string)
    (c : Conversation.t) :
  (length (searchHistory (updateSearchParams now p c)) <= 10)%nat.
Proof.
  unfold updateSearchParams.
  destruct (_ <? _)%nat eqn:E; simpl.
  - unfold Js.sliceLast. rewrite length_drop. lia.
  - apply Nat.ltb_ge in E. exact E.
Qed.

Lemma trackViewedOffer_history (now : Z) (i : string) (c : Conversation.t) :
  searchHistory (trackViewedOffer now i c) = searchHistory c.
Proof.
  unfold trackViewedOffer.
  destruct (refinements c) as [r |] eqn:E; simpl; rewrite ?E; simpl.
  - by destruct (includes i (viewedOffers r)).
  - reflexivity.
Qed.

Lemma setCurrentStage_history (s : string) (c : Conversation.t) :
  searchHistory (setCurrentStage s c) = searchHistory c.
Proof. unfold setCurrentStage. by destruct (String.eqb s (currentStage c)). Qed.

Lemma updateStage_history (s : string) (c : Conversation.t) :
  searchHistory (fst (updateStage s c)) = searchHistory c.
Proof.
  unfold updateStage. destruct (includes _ _); [| done].
  apply setCurrentStage_history.
Qed.

Lemma searchHistory_step (now : Z) (o : op) (c : Conversation.t) :
  (length (searchHistory c) <= 10)%nat ->
  (length (searchHistory (step now o c)) <= 10)%nat.
Proof.
  intros H. destruct o; unfold step.
  - exact H.
  - by rewrite updateStage_history.
  - by rewrite setCurrentStage_history.
  - apply updateSearchParams_history.
  - exact H.
  - exact H.
  - by rewrite trackViewedOffer_history.
  - exact H.
Qed.

Lemma viewed_trackViewedOffer (now : Z) (i : string) (c : Conversation.t) :
  viewed (trackViewedOffer now i c) =
  if includes i (viewed c) then viewed c else viewed c ++ [i].
Proof.
  unfold trackViewedOffer, viewed.
  destruct (refinements c) as [r |] eqn:E; simpl; rewrite ?E; simpl.
  - by destruct (includes i (viewedOffers r)); simpl; rewrite ?E.
  - reflexivity.
Qed.

Lemma run_snoc (ops : list (Z * op)) (now : Z) (o : op) (c : Conversation.t) :
  run (ops ++ [(now, o)]) c = step now o (run ops c).
Proof. unfold run. by rewrite foldl_app. Qed.

Lemma sliceLast_short {A : Type} (n : nat) (l : list A) :
  (length l <= n)%nat -> Js.sliceLast n l = l.
Proof.
  intros Hl. unfold Js.sliceLast.
  by replace (length l - n)%nat with 0%nat by lia.
Qed.

Lemma sliceLast_app {A : Type} (n : nat) (l r : list A) :
  Js.sliceLast n (Js.sliceLast n l ++ r) = Js.sliceLast n (l ++ r).
Proof.
  destruct (Nat.le_gt_cases (length l) n) as [Hle | Hgt].
  - by rewrite (sliceLast_short n l Hle).
  - unfold Js.sliceLast.
    set (k := (length l - n)%nat).
    assert (Hs : length (drop k l) = n) by (rewrite length_drop; lia).
    assert (Hd : length (take k l) = k) by (rewrite length_take; lia).
    replace (l ++ r) with (take k l ++ (drop k l ++ r))
      by (by rewrite app_assoc, take_drop).
    rewrite !length_app, Hs, Hd.
    replace (k + (n + length r) - n)%nat with (length (take k l) + length r)%nat
      by lia.
    rewrite drop_app_add. f_equal. lia.
Qed.

Lemma updateSearchParams_keeps_last (now : Z) (p : gmap string string)
    (c : Conversation.t) :
  searchHistory (updateSearchParams now p c) =
    Js.sliceLast 10
      (searchHistory c ++
       [{| searchParams := p ∪ flightSearchParams c; searchedAt := now |}]).
Proof.
  unfold updateSearchParams.
  destruct (_ <? _)%nat eqn:E; simpl.
  - reflexivity.
  - apply Nat.ltb_ge in E. simpl in E. by rewrite sliceLast_short.
Qed.

Lemma step_history (now : Z) (o : op) (c : Conversation.t) :
  searchHistory (step now o c) =
    match o with
    | OpUpdateSearchParams p => searchHistory (updateSearchParams now p c)
    | _ => searchHistory c
    end.
Proof.
  destruct o; unfold step; try reflexivity.
  - apply updateStage_history.
  - apply setCurrentStage_history.
  - apply trackViewedOffer_history.
Qed.

Lemma run_history (ops : list (Z * op)) (c : Conversation.t) :
  (length (searchHistory c) <= 10)%nat ->
  searchHistory (run ops c) =
    Js.sliceLast 10 (searchHistory c ++ recorded ops c).
Proof.
  revert c. induction ops as [| [now o] ops IH]; intros c Hc.
  - cbn [recorded run foldl]. by rewrite app_nil_r, sliceLast_short.
  - change (run ((now, o) :: ops) c) with (run ops (step now o c)).
    rewrite IH by (by apply searchHistory_step).
    cbn [recorded]. rewrite step_history.
    destruct o; try reflexivity.
    rewrite updateSearchParams_keeps_last, sliceLast_app.
    by rewrite <- app_assoc.
Qed.

Lemma sliceLast_suffix {A : Type} (n : nat) (l : list A) :
  (exists dropped, l = dropped ++ Js.sliceLast n l) /\
  length (Js.sliceLast n l) = (n `min` length l)%nat.
Proof.
  unfold Js.sliceLast. split.
  - exists (take (length l - n) l). by rewrite take_drop.
  - rewrite length_drop. lia.
Qed.

(** C9, as the code has it.  Over any sequence of operations on a
    conversation whose search history holds at most 10 entries, the search
    history never exceeds 10 entries, and it holds the last 10 (all of
    them, while there are fewer) of the entries it started with followed by
    the searches made, in their order: each [updateSearchParams] appends
    the merged parameters to the history and keeps the last 10.  The
    viewed-offer list has no cap: [trackViewedOffer] appends every id that
    is not yet in the list and leaves the list alone otherwise. *)
Theorem history_capped_viewed_offers_deduplicated
    (ops : list (Z * op)) (c : Conversation.t) :
  (length (searchHistory c) <= 10)%nat ->
  (length (searchHistory (run ops c)) <= 10)%nat /\
  (exists dropped,
     searchHistory c ++ recorded ops c = dropped ++ searchHistory (run ops c)) /\
  length (searchHistory (run ops c)) =
    (10 `min` length (searchHistory c ++ recorded ops c))%nat /\
  (forall now p,
     (length (searchHistory (updateSearchParams now p (run ops c))) <= 10)%nat /\
     (exists dropped,
        searchHistory (run ops c) ++
        [{| searchParams := p ∪ flightSearchParams (run ops c);
            searchedAt := now |}] =
        dropped ++ searchHistory (updateSearchParams now p (run ops c))) /\
     length (searchHistory (updateSearchParams now p (run ops c))) =
       (10 `min` S (length (searchHistory (run ops c))))%nat) /\
  (forall now i,
     viewed (trackViewedOffer now i (run ops c)) =
     if includes i (viewed (run ops c))
     then viewed (run ops c) else viewed (run ops c) ++ [i]).
Proof.
  intros H.
  pose proof (run_history ops c H) as Hr.
  destruct (sliceLast_suffix 10 (searchHistory c ++ recorded ops c))
    as [Hd Hl].
  rewrite <- Hr in Hd, Hl.
  split; [rewrite Hl; lia |]. split; [exact Hd |]. split; [exact Hl |].
  split.
  - intros now p. split; [apply updateSearchParams_history |].
    rewrite updateSearchParams_keeps_last.
    set (pushed := searchHistory (run ops c) ++ _).
    destruct (sliceLast_suffix 10 pushed) as [Hd' Hl'].
    split; [exact Hd' |]. rewrite Hl'. subst pushed.
    rewrite length_app. cbn [length]. lia.
  - intros. apply viewed_trackViewedOffer.
Qed.

(** Twelve successive searches on a new conversation, then an offer
    viewed twice. *)
Lemma history_capped_witness :
  let c0 := create 0 "session-1" in
  let ops :=
    map (fun k => (Z.of_nat k, OpUpdateSearchParams {[ "origin" := offerIdOf k ]}))
        (seq 0 12) ++
    [(12, OpTrackViewedOffer "off_1"); (13, OpTrackViewedOffer "off_1")] in
  (length (searchHistory c0) <= 10)%nat /\
  (length (searchHistory (run ops c0)) <= 10)%nat /\
  (exists dropped,
     searchHistory c0 ++ recorded ops c0 = dropped ++ searchHistory (run ops c0)) /\
  length (searchHistory (run ops c0)) =
    (10 `min` length (searchHistory c0 ++ recorded ops c0))%nat /\
  (forall now p,
     (length (searchHistory (updateSearchParams now p (run ops c0))) <= 10)%nat /\
     (exists dropped,
        searchHistory (run ops c0) ++
        [{| searchParams := p ∪ flightSearchParams (run ops c0);
            searchedAt := now |}] =
        dropped ++ searchHistory (updateSearchParams now p (run ops c0))) /\
     length (searchHistory (updateSearchParams now p (run ops c0))) =
       (10 `min` S (length (searchHistory (run ops c0))))%nat) /\
  (forall now i,
     viewed (trackViewedOffer now i (run ops c0)) =
     if includes i (viewed (run ops c0))
     then viewed (run ops c0) else viewed (run ops c0) ++ [i]).
Proof.
  intros c0 ops.
  assert (H0 : (length (searchHistory c0) <= 10)%nat) by (simpl; lia).
  split; [exact H0 |].
  exact (history_capped_viewed_offers_deduplicated ops c0 H0).
Defined.

(** After the twelve searches the history holds the last ten, from the
    third to the twelfth, in the order they were made. *)
Example history_keeps_last_ten :
  let c0 := create 0 "session-1" in
  let ops :=
    map (fun k => (Z.of_nat k, OpUpdateSearchParams {[ "origin" := offerIdOf k ]}))
        (seq 0 12) in
  map (fun item => (searchParams item !! "origin", searchedAt item))
      (searchHistory (run ops c0)) =
  map (fun k => (Some (offerIdOf k), Z.of_nat k)) (seq 2 10).
Proof. vm_compute. reflexivity. Qed.

Lemma offerIdOf_length (k : nat) : String.length (offerIdOf k) = S k.
Proof.
  induction k as [| k IH]; [reflexivity |].
  simpl. by rewrite IH.
Qed.

Lemma offerIdOf_fresh (n : nat) :
  includes (offerIdOf n) (map offerIdOf (seq 0 n)) = false.
Proof.
  apply includes_false. rewrite list_elem_of_In, in_map_iff.
  intros (k & E & Hk). apply in_seq in Hk.
  apply (f_equal String.length) in E. rewrite !offerIdOf_length in E. lia.
Qed.

Lemma viewOffers_viewed (n : nat) (now : Z) (sid : string) :
  viewed (run (viewOffers n) (create now sid)) = map offerIdOf (seq 0 n).
Proof.
  induction n as [| n IH]; [reflexivity |].
  unfold viewOffers in *. rewrite seq_S, map_app. simpl.
  rewrite run_snoc. simpl. rewrite viewed_trackViewedOffer, IH.
  rewrite offerIdOf_fresh. by rewrite map_app.
Qed.

(** C9 fails as stated for the viewed offers: eleven distinct offers viewed
    in a new conversation leave eleven entries, more than the window of
    ten kept for the search history, and any number [n] of distinct offers
    viewed leaves [n] entries. *)
Lemma viewed_offers_grow_without_cap :
  length (viewed (run (viewOffers 11) (create 0 "session-1"))) = 11%nat /\
  (forall n : nat,
     length (viewed (run (viewOffers n) (create 0 "session-1"))) = n).
Proof.
  split.
  - vm_compute. reflexivity.
  - intros n. rewrite viewOffers_viewed. by rewrite length_map, length_seq.
Qed.
End ConversationClaims.

(** ** Booking orchestration *)
Section BookingClaims.
Import Js Duffel.
Context {St : Type} `{Client St} `{DateRuntime}.

Lemma issued_log {A : Type} (m : M St A) (st : St) (log : list call)
    (r : result A) (st' : St) (calls : list call) :
  m (st, []) = (r, (st', calls)) -> issued m st = calls.
Proof. unfold issued. by intros ->. Qed.

(** C1. When the passenger array and the passenger slots of the fetched
    offer differ in length, [createOrder] throws the count-mismatch error
    right after reading the offer: the only call it has issued is that
    read, no order-creation call reaches the provider, and the provider is
    in the state the read left it in. *)
Theorem createOrder_count_mismatch
    (offerId : string) (passengers : list Passenger)
    (paymentDetails : PaymentDetails) (services : list ServiceRequest)
    (st st1 : St) (log : list call) (offer : RawOffer) :
  offers_get offerId true st = (Ok offer, st1) ->
  length passengers <> length (offer_passengers offer) ->
  createOrder offerId passengers paymentDetails services (st, log) =
    (Throw (countMismatch (length (offer_passengers offer)) (length passengers)),
     (st1, log ++ [CallOffersGet offerId true])) /\
  issued (createOrder offerId passengers paymentDetails services) st =
    [CallOffersGet offerId true] /\
  existsb isOrdersCreate
    (issued (createOrder offerId passengers paymentDetails services) st) = false.
Proof.
  intros Hget Hlen.
  assert (Hrun : forall l,
    createOrder offerId passengers paymentDetails services (st, l) =
    (Throw (countMismatch (length (offer_passengers offer)) (length passengers)),
     (st1, l ++ [CallOffersGet offerId true]))).
  { intros l. unfold createOrder, bind, offersGet. rewrite Hget.
    rewrite length_map.
    destruct (Nat.eqb_spec (length passengers) (length (offer_passengers offer)))
      as [E | _]; [contradiction | reflexivity]. }
  split; [apply Hrun |].
  unfold issued. rewrite Hrun. simpl. by split.
Qed.

(** What [payForHoldOrder] submits: the amount and the currency of the
    caller's [paymentDetails], whatever the order just read holds. *)
Lemma payForHoldOrder_request
    (orderId amount : string) (paymentDetails : PaymentDetails)
    (st st1 : St) (order : Order) :
  orders_get orderId st = (Ok order, st1) ->
  details_amount paymentDetails = Some amount ->
  issued (payForHoldOrder orderId paymentDetails) st =
    [CallOrdersGet orderId;
     CallPaymentsCreate
       {| request_order_id := orderId;
          payment :=
            {| payment_type :=
                 if truthyStr (details_type paymentDetails)
                 then details_type paymentDetails else Some "balance";
               payment_amount := amount;
               payment_currency := details_currency paymentDetails |} |}].
Proof.
  intros Hget Hamount.
  unfold issued, payForHoldOrder, bind, ordersGet, paymentsCreate.
  rewrite Hget, Hamount.
  by destruct (payments_create _ st1).
Qed.

Lemma fetchDetailed_enriched (o : RawOffer) (w : world St) :
  exists w', fetchDetailed o w = (Ok (enriched o (fst w)), w').
Proof.
  destruct w as [st log].
  unfold fetchDetailed, tryCatch, offersGet, enriched. simpl.
  destruct (offers_get (offer_id o) true st) as [[full | e] st']; simpl; eauto.
Qed.

Lemma detailedOffers_cons (o : RawOffer) (os : list RawOffer) (w : world St) :
  detailedOffers (o :: os) w =
  match detailedOffers os (snd (fetchDetailed o w)) with
  | (Ok rs, w2) => (Ok (enriched o (fst w) :: rs), w2)
  | (Throw e, w2) => (Throw e, w2)
  end.
Proof.
  destruct (fetchDetailed_enriched o w) as (w1 & E).
  change (detailedOffers (o :: os) w) with
    (bind (fetchDetailed o)
       (fun y => bind (detailedOffers os) (fun ys => ret (y :: ys))) w).
  unfold bind at 1. rewrite E. simpl. unfold bind, ret.
  by destruct (detailedOffers os w1) as [[rs | e] w2].
Qed.

Lemma detailedOffers_length (offers : list RawOffer) (w : world St) :
  exists results w',
    detailedOffers offers w = (Ok results, w') /\
    length results = length offers.
Proof.
  revert w. induction offers as [| o os IH]; intros w.
  - by exists [], w.
  - rewrite detailedOffers_cons.
    destruct (IH (snd (fetchDetailed o w))) as (rs & w2 & Hrs & Hl).
    rewrite Hrs. exists (enriched o (fst w) :: rs), w2. simpl. by rewrite Hl.
Qed.

(** C10. The fan-out never throws and returns as many offers as it was
    given; the offer at each position is the detailed offer when the fetch
    of that position succeeded and the offer as listed when that fetch
    threw, the fetch of position [i] being issued in the provider state
    left by the fetches of the positions before it. *)
Theorem detailedOffers_degrades_per_offer
    (offers : list RawOffer) (w : world St) :
  exists results w',
    detailedOffers offers w = (Ok results, w') /\
    length results = length offers /\
    forall (i : nat) (offer : RawOffer),
      offers !! i = Some offer ->
      results !! i =
        Some (enriched offer (fst (snd (detailedOffers (take i offers) w)))) /\
      (forall fullOffer st',
         offers_get (offer_id offer) true
           (fst (snd (detailedOffers (take i offers) w))) = (Ok fullOffer, st') ->
         results !! i = Some fullOffer) /\
      (forall e st',
         offers_get (offer_id offer) true
           (fst (snd (detailedOffers (take i offers) w))) = (Throw e, st') ->
         results !! i = Some offer).
Proof.
  assert (Hmain : exists results w',
    detailedOffers offers w = (Ok results, w') /\
    length results = length offers /\
    forall (i : nat) (offer : RawOffer),
      offers !! i = Some offer ->
      results !! i =
        Some (enriched offer (fst (snd (detailedOffers (take i offers) w))))).
  { revert w. induction offers as [| o os IH]; intros w.
    - exists [], w. repeat split. intros i offer Hi. discriminate.
    - destruct (IH (snd (fetchDetailed o w))) as (rs & w2 & Hrs & Hl & Hi).
      exists (enriched o (fst w) :: rs), w2.
      rewrite detailedOffers_cons. rewrite Hrs.
      split; [done | split; [simpl; by rewrite Hl |]].
      intros [| i] offer Hlook; simpl in Hlook.
      + injection Hlook as <-. reflexivity.
      + simpl. rewrite (Hi i offer Hlook). f_equal. f_equal.
        rewrite detailedOffers_cons.
        destruct (detailedOffers_length (take i os) (snd (fetchDetailed o w)))
          as (rs' & w' & E & _).
        by rewrite E. }
  destruct Hmain as (rs & w' & Hrun & Hlen & Hi).
  exists rs, w'. split; [done | split; [done |]].
  intros i offer Hlook. pose proof (Hi i offer Hlook) as Hres.
  split; [exact Hres | split].
  - intros fullOffer st' Hget. rewrite Hres. unfold enriched. by rewrite Hget.
  - intros e st' Hget. rewrite Hres. unfold enriched. by rewrite Hget.
Qed.

Lemma startsWith_plus_digit (c : ascii) (s : string) :
  isDigit c = true -> startsWith "+" (String c s) = false.
Proof.
  destruct c as [[] [] [] [] [] [] [] []]; vm_compute;
    intros; try reflexivity; discriminate.
Qed.

(** The digit string [formatPhoneNumber] works on never starts with a
    plus sign: the sign is removed with the other non-digits. *)
Lemma removeNonDigits_no_plus (s : string) :
  startsWith "+" (removeNonDigits s) = false.
Proof.
  unfold removeNonDigits.
  induction s as [| c s IH]; [reflexivity |].
  cbn [filterChars]. destruct (isDigit c) eqn:D; [| exact IH].
  by apply startsWith_plus_digit.
Qed.

(** What [formatPhoneNumber] returns on a non-empty input: the country
    code goes in whenever at most ten digits are left, with or without a
    leading plus sign in the input. *)
Lemma formatPhoneNumber_digits (s : string) :
  s <> "" ->
  formatPhoneNumber (Some s) =
  "+" +:+ (if (String.length (removeNonDigits s) <=? 10)%nat
           then "31" +:+ removeNonDigits s else removeNonDigits s).
Proof.
  intros Hs. unfold formatPhoneNumber, truthyStr.
  destruct (String.eqb_spec s "") as [-> | _]; [done |].
  cbn [negb default]. by rewrite removeNonDigits_no_plus.
Qed.
End BookingClaims.

Section BookingExamples.
Import Js Duffel Sandbox.

(** Two passengers against the three slots of [offer3]: the booking stops
    with "expected 3, got 2" after the read of the offer. *)
Lemma createOrder_count_mismatch_witness :
  let passengers :=
    [passenger "Ada" "Byron" "0612345678"; passenger "Alan" "Turing" "0687654321"] in
  let paymentDetails :=
    {| details_type := Some "card"; details_amount := None;
       details_currency := None |} in
  offers_get "off_3" true withOffer3 = (Ok offer3, withOffer3) /\
  length passengers <> length (offer_passengers offer3) /\
  createOrder "off_3" passengers paymentDetails [] (withOffer3, []) =
    (Throw (Error "Passenger count mismatch: expected 3, got 2"),
     (withOffer3, [CallOffersGet "off_3" true])) /\
  issued (createOrder "off_3" passengers paymentDetails []) withOffer3 =
    [CallOffersGet "off_3" true] /\
  existsb isOrdersCreate
    (issued (createOrder "off_3" passengers paymentDetails []) withOffer3) = false.
Proof.
  intros passengers paymentDetails.
  assert (Hget : offers_get "off_3" true withOffer3 = (Ok offer3, withOffer3))
    by reflexivity.
  assert (Hlen : length passengers <> length (offer_passengers offer3))
    by (simpl; lia).
  split; [exact Hget | split; [exact Hlen |]].
  exact (createOrder_count_mismatch "off_3" passengers paymentDetails []
           withOffer3 withOffer3 [] offer3 Hget Hlen).
Defined.

(** With three matching passengers the same booking reaches the provider:
    the order-creation call is issued with the amount of the offer. *)
Example createOrder_three_passengers :
  let passengers :=
    [passenger "Ada" "Byron" "0612345678"; passenger "Alan" "Turing" "0687654321";
     passenger "Grace" "Hopper" "+31612345678"] in
  let paymentDetails :=
    {| details_type := Some "card"; details_amount := Some "1.00";
       details_currency := Some "USD" |} in
  map isOrdersCreate
    (issued (createOrder "off_3" passengers paymentDetails []) withOffer3) =
    [false; true] /\
  fst (createOrder "off_3" passengers paymentDetails [] (withOffer3, [])) =
    Ok {| order_id := "ord_0"; order_total_amount := "420.00";
          order_total_currency := "EUR" |}.
Proof. vm_compute. split; reflexivity. Qed.

(** C3, evaluated.  The provider holds the order [ord_1] at 120.00 EUR; a
    caller that passes 100.00 USD has exactly that submitted as the
    payment, after the read of the order. *)
Theorem payForHoldOrder_submits_caller_amount :
  let paymentDetails :=
    {| details_type := None; details_amount := Some "100.00";
       details_currency := Some "USD" |} in
  orders_get "ord_1" withHeldOrder = (Ok heldOrder, withHeldOrder) /\
  order_total_amount heldOrder = "120.00" /\
  order_total_currency heldOrder = "EUR" /\
  issued (payForHoldOrder "ord_1" paymentDetails) withHeldOrder =
    [CallOrdersGet "ord_1";
     CallPaymentsCreate
       {| request_order_id := "ord_1";
          payment := {| payment_type := Some "balance";
                        payment_amount := "100.00";
                        payment_currency := Some "USD" |} |}].
Proof.
  intros paymentDetails.
  split; [reflexivity | split; [reflexivity | split; [reflexivity |]]].
  by rewrite (payForHoldOrder_request "ord_1" "100.00" paymentDetails
                withHeldOrder withHeldOrder heldOrder).
Qed.

(** C5, evaluated.  A ten-digit number written with its international
    prefix gets the default country code in front of it. *)
Theorem formatPhoneNumber_inserts_code_after_plus :
  formatPhoneNumber (Some "+4512345678") = "+314512345678" /\
  formatPhoneNumber (Some "0612345678") = "+310612345678" /\
  formatPhoneNumber (Some "+31612345678") = "+31612345678" /\
  (forall s : string, startsWith "+" (removeNonDigits s) = false).
Proof.
  split; [reflexivity | split; [reflexivity | split; [reflexivity |]]].
  apply removeNonDigits_no_plus.
Qed.

(** The fan-out on three listed offers when the fetch of the second one
    fails: three offers come back, the second as it was listed. *)
Example detailedOffers_one_failure :
  fst (detailedOffers listed (detailsOfTwo, [])) =
    Ok [offerFor "off_a" "100.00" ["pas_1"] (Some ["ase_1"]);
        offerFor "off_b" "110.00" ["pas_1"] None;
        offerFor "off_c" "120.00" ["pas_1"] (Some ["ase_2"])].
Proof. vm_compute. reflexivity. Qed.
End BookingExamples.

(** ** Filtering and selecting offers *)
Section FilterClaims.
Import Js Offers.
Context `{DateRuntime}.

Lemma inWindowb_spec (fromHour toHour hour : Z) :
  inWindowb fromHour toHour hour = true <-> inWindow fromHour toHour hour.
Proof.
  unfold inWindowb, inWindow. destruct (toHour <? fromHour).
  - rewrite orb_true_iff, !Z.leb_le. tauto.
  - rewrite andb_true_iff, !Z.leb_le. tauto.
Qed.

Lemma departsWithin_window (range : TimeRange) (fromHour toHour : Z)
    (offer : Offer) :
  parseInt (splitHead ":" (from range)) = Some fromHour ->
  parseInt (splitHead ":" (to range)) = Some toHour ->
  slices offer <> [] ->
  departsWithin range offer = Ok (keptByWindow fromHour toHour offer).
Proof.
  intros Hf Ht Hs.
  unfold departsWithin, keptByWindow, departureHour, departure.
  destruct (slices offer) as [| slice rest]; [done |].
  rewrite Hf, Ht. f_equal.
  destruct (parse (departureDateTime slice)) as [t |]; simpl.
  - reflexivity.
  - by destruct (toHour <? fromHour).
Qed.

Lemma filterR_pure {A : Type} (p : A -> result bool) (q : A -> bool)
    (l : list A) :
  Forall (fun x => p x = Ok (q x)) l -> filterR p l = Ok (List.filter q l).
Proof.
  induction 1 as [| x l Hx _ IH]; [reflexivity |].
  simpl. rewrite Hx, IH. by destruct (q x).
Qed.

(** C4, as the code has it.  With the hours [fromHour] and [toHour] read
    from the criteria and no other criterion set, [filterOffers] keeps, in
    their order, exactly the offers whose first slice departs at an hour
    of the window; the window is closed on both ends when
    [fromHour <= toHour] ([hour >= from] and [hour <= to]) and wraps
    midnight when [toHour < fromHour] ([hour >= from] or [hour <= to]). *)
Theorem filterOffers_departure_window
    (offers : list Offer) (range : TimeRange) (fromHour toHour : Z) :
  parseInt (splitHead ":" (from range)) = Some fromHour ->
  parseInt (splitHead ":" (to range)) = Some toHour ->
  Forall (fun offer => slices offer <> []) offers ->
  filterOffers offers (departureOnly range) =
    Ok (List.filter (keptByWindow fromHour toHour) offers) /\
  (forall offer,
     keptByWindow fromHour toHour offer = true <->
     exists hour, departureHour offer = Some hour /\
                  inWindow fromHour toHour hour) /\
  (forall hour,
     fromHour <= toHour ->
     (inWindow fromHour toHour hour <-> fromHour <= hour /\ hour <= toHour)) /\
  (forall hour,
     toHour < fromHour ->
     (inWindow fromHour toHour hour <-> fromHour <= hour \/ hour <= toHour)).
Proof.
  intros Hf Ht Hs. split; [| split; [| split]].
  - unfold filterOffers, departureOnly. simpl.
    rewrite (filterR_pure _ (keptByWindow fromHour toHour)); [reflexivity |].
    eapply Forall_impl; [exact Hs |].
    intros offer Ho. by apply departsWithin_window.
  - intros offer. unfold keptByWindow.
    destruct (departureHour offer) as [hour |].
    + rewrite inWindowb_spec. split; [eauto |].
      by intros (h & [= <-] & Hw).
    + split; [discriminate | by intros (h & ? & _)].
  - intros hour Hle. unfold inWindow.
    destruct (Z.ltb_spec toHour fromHour); [lia | tauto].
  - intros hour Hlt. unfold inWindow.
    destruct (Z.ltb_spec toHour fromHour); [tauto | lia].
Qed.
End FilterClaims.

Section FilterExamples.
Import Js Offers Sandbox.

(** The overnight window 23:00 to 05:00 keeps the departure at 00:30 and
    drops the one at 12:00. *)
Lemma filterOffers_departure_window_witness :
  let range := {| from := "23:00"; to := "05:00" |} in
  let offers := [noon; redEye] in
  parseInt (splitHead ":" (from range)) = Some 23 /\
  parseInt (splitHead ":" (to range)) = Some 5 /\
  Forall (fun offer => slices offer <> []) offers /\
  filterOffers offers (departureOnly range) =
    Ok (List.filter (keptByWindow 23 5) offers) /\
  (forall offer,
     keptByWindow 23 5 offer = true <->
     exists hour, departureHour offer = Some hour /\ inWindow 23 5 hour) /\
  (forall hour,
     23 <= 5 -> (inWindow 23 5 hour <-> 23 <= hour /\ hour <= 5)) /\
  (forall hour,
     5 < 23 -> (inWindow 23 5 hour <-> 23 <= hour \/ hour <= 5)).
Proof.
  intros range offers.
  assert (Hf : parseInt (splitHead ":" (from range)) = Some 23) by reflexivity.
  assert (Ht : parseInt (splitHead ":" (to range)) = Some 5) by reflexivity.
  assert (Hs : Forall (fun offer => slices offer <> []) offers)
    by (repeat constructor; discriminate).
  split; [exact Hf | split; [exact Ht | split; [exact Hs |]]].
  exact (filterOffers_departure_window offers range 23 5 Hf Ht Hs).
Defined.

Example filterOffers_overnight :
  filterOffers [noon; redEye]
    (departureOnly {| from := "23:00"; to := "05:00" |}) = Ok [redEye] /\
  departureHour redEye = Some 0 /\ departureHour noon = Some 12.
Proof. vm_compute. repeat split. Qed.

(** C4 fails as stated: with the window 08:00 to 12:00 an offer that
    departs at 12:30, hour 12, is kept, although 12 lies outside the
    half-open window from 8 to 12. *)
Lemma departure_at_to_hour_is_kept :
  let range := {| from := "08:00"; to := "12:00" |} in
  parseInt (splitHead ":" (from range)) = Some 8 /\
  parseInt (splitHead ":" (to range)) = Some 12 /\
  departureHour halfPastNoon = Some 12 /\
  filterOffers [morning; halfPastNoon] (departureOnly range) =
    Ok [morning; halfPastNoon] /\
  ~ inHalfOpenWindow 8 12 12.
Proof.
  repeat split; try (vm_compute; reflexivity).
  unfold inHalfOpenWindow. lia.
Qed.
End FilterExamples.

Section SortFacts.
Import Js.
Context {A : Type} (cmp : A -> A -> Z).

Lemma insertSorted_perm (x : A) (l : list A) :
  insertSorted cmp x l ≡ₚ x :: l.
Proof.
  induction l as [| y l IH]; [reflexivity |].
  simpl. destruct (cmp x y <=? 0); [reflexivity |].
  rewrite IH. apply Permutation_swap.
Qed.

Lemma sort_perm (l : list A) : Js.sort cmp l ≡ₚ l.
Proof.
  induction l as [| x l IH]; [reflexivity |].
  unfold Js.sort in *. simpl. by rewrite insertSorted_perm, IH.
Qed.

Lemma sort_elem (x : A) (l : list A) : x ∈ Js.sort cmp l <-> x ∈ l.
Proof. by rewrite sort_perm. Qed.

Lemma sort_length (l : list A) : length (Js.sort cmp l) = length l.
Proof. by rewrite sort_perm. Qed.
End SortFacts.

Section SortByKey.
Import Js.
Context {A : Type} (key : A -> Z).

(** The head of a list sorted on an integer key carries the least key. *)
Lemma sort_head_least (l : list A) (o : A) (rest : list A) :
  Js.sort (fun a b => key a - key b) l = o :: rest ->
  forall o', o' ∈ l -> key o <= key o'.
Proof.
  revert o rest. induction l as [| x l IH]; intros o rest Hs o' Ho'.
  - by apply elem_of_nil in Ho'.
  - unfold Js.sort in Hs. simpl in Hs.
    fold (Js.sort (fun a b => key a - key b) l) in Hs.
    destruct (Js.sort (fun a b => key a - key b) l) as [| y s] eqn:E.
    + assert (l = []) as ->.
      { apply length_zero_iff_nil. by rewrite <- (sort_length (fun a b => key a - key b)), E. }
      simpl in Hs. injection Hs as <- _.
      apply list_elem_of_singleton in Ho'. by subst.
    + simpl in Hs. apply elem_of_cons in Ho'.
      destruct (Z.leb_spec (key x - key y) 0) as [Hle | Hgt].
      * injection Hs as <- _. destruct Ho' as [-> | Ho']; [lia |].
        specialize (IH y s eq_refl o' Ho'). lia.
      * injection Hs as <- _. destruct Ho' as [-> | Ho']; [lia |].
        exact (IH y s eq_refl o' Ho').
Qed.
End SortByKey.

Section SelectClaims.
Import Js Offers.
Context `{DateRuntime}.

Lemma unselected_spec (selected : list Offer) (offer : Offer) :
  unselected selected offer = true <-> id offer ∉ map id selected.
Proof.
  unfold unselected. rewrite negb_true_iff, <- not_true_iff_false.
  apply not_iff_compat.
  rewrite existsb_exists, list_elem_of_In, in_map_iff.
  split.
  - intros (s & Hin & Heq). apply String.eqb_eq in Heq. eauto.
  - intros (s & Heq & Hin). exists s. split; [done | by apply String.eqb_eq].
Qed.

Lemma wellSelected_push (offers selected : list Offer) (o : Offer) :
  wellSelected offers selected -> o ∈ offers ->
  unselected selected o = true ->
  wellSelected offers (selected ++ [o]).
Proof.
  intros [Hnd Hin] Ho Hu. apply unselected_spec in Hu. split.
  - rewrite map_app. simpl. apply NoDup_app. split; [done | split].
    + intros i Hi Hi'. apply list_elem_of_singleton in Hi'. by subst.
    + apply NoDup_singleton.
  - intros o' Ho'. apply elem_of_app in Ho' as [Ho' | Ho']; [by apply Hin |].
    apply list_elem_of_singleton in Ho'. by subst.
Qed.

Lemma pushUnique_extends (sorted selected : list Offer) :
  exists more, pushUnique sorted selected = selected ++ more.
Proof.
  unfold pushUnique. destruct (List.find _ sorted) as [o |].
  - by exists [o].
  - exists []. by rewrite app_nil_r.
Qed.

Lemma wellSelected_pushUnique (offers sorted selected : list Offer) :
  (forall o, o ∈ sorted -> o ∈ offers) ->
  wellSelected offers selected ->
  wellSelected offers (pushUnique sorted selected).
Proof.
  intros Hsub Hw. unfold pushUnique.
  destruct (List.find _ sorted) as [o |] eqn:E; [| done].
  apply find_some in E as [Ho Hu].
  apply wellSelected_push; [done | | done].
  apply Hsub. by apply list_elem_of_In.
Qed.

Lemma fill_extends (offers : list Offer) (count : nat) (selected : list Offer) :
  exists more, fill offers count selected = selected ++ more.
Proof.
  revert selected. induction offers as [| o os IH]; intros selected; simpl.
  - exists []. by rewrite app_nil_r.
  - destruct (count <=? length selected)%nat.
    + exists []. by rewrite app_nil_r.
    + destruct (unselected selected o).
      * destruct (IH (selected ++ [o])) as (more & ->).
        exists (o :: more). by rewrite <- app_assoc.
      * apply IH.
Qed.

Lemma wellSelected_fill (offers rest : list Offer) (count : nat)
    (selected : list Offer) :
  (forall o, o ∈ rest -> o ∈ offers) ->
  wellSelected offers selected ->
  wellSelected offers (fill rest count selected).
Proof.
  revert selected. induction rest as [| o os IH]; intros selected Hsub Hw; simpl.
  - done.
  - destruct (count <=? length selected)%nat; [done |].
    apply IH; [intros o' Ho'; apply Hsub; by right |].
    destruct (unselected selected o) eqn:Hu; [| done].
    apply wellSelected_push; [done | apply Hsub; by left | done].
Qed.

(** The loop stops with [count] offers selected, or with every offer of
    the list it ran over selected. *)
Lemma fill_full (rest : list Offer) (count : nat) (selected : list Offer) :
  (count <= length (fill rest count selected))%nat \/
  forall o, o ∈ rest -> id o ∈ map id (fill rest count selected).
Proof.
  revert selected. induction rest as [| o os IH]; intros selected; simpl.
  - right. intros o Ho. by apply elem_of_nil in Ho.
  - destruct (Nat.leb_spec count (length selected)) as [Hle | Hgt]; [by left |].
    set (selected' := if unselected selected o then selected ++ [o] else selected).
    destruct (IH selected') as [Hl | Hr]; [by left |].
    right. intros o' Ho'. apply elem_of_cons in Ho' as [-> | Ho']; [| by apply Hr].
    destruct (fill_extends os count selected') as (more & ->).
    rewrite map_app. apply elem_of_app. left.
    subst selected'. destruct (unselected selected o) eqn:Hu.
    + rewrite map_app. apply elem_of_app. right. simpl. by left.
    + destruct (decide (id o ∈ map id selected)) as [Hin | Hnin]; [done |].
      apply unselected_spec in Hnin. congruence.
Qed.

Lemma ids_cover_length (offers selected : list Offer) :
  NoDup (map id offers) ->
  (forall o, o ∈ offers -> id o ∈ map id selected) ->
  (length offers <= length selected)%nat.
Proof.
  intros Hnd Hcover.
  rewrite <- (length_map id offers), <- (length_map id selected).
  apply submseteq_length, NoDup_submseteq; [done |].
  intros i Hi. apply list_elem_of_In, in_map_iff in Hi as (o & <- & Ho).
  apply Hcover. by apply list_elem_of_In.
Qed.

Lemma sortByDeparture_ok (offers : list Offer) :
  Forall (fun o => slices o <> []) offers ->
  sortByDeparture false offers = Ok (Js.sort cmpDeparture offers).
Proof.
  intros Hs. unfold sortByDeparture.
  assert (E : existsb (fun o => match slices o with [] => true | _ => false end)
                offers = false).
  { apply not_true_iff_false. rewrite existsb_exists.
    intros (o & Ho & Hempty). rewrite Forall_forall in Hs.
    apply list_elem_of_In in Ho. specialize (Hs o Ho).
    by destruct (slices o). }
  rewrite E, andb_false_r. reflexivity.
Qed.

(** C6, as the code has it.  For offers with pairwise distinct ids, each
    with at least one slice, and every [n]: the selection returns exactly
    [min n (length offers)] offers of the input with no duplicate ids; all
    of them when [length offers <= n]; and for [1 <= n < length offers] an
    offer whose total amount is the least of all. *)
Theorem selectDiverseOffers_diverse (offers : list Offer) (n : nat) :
  NoDup (map id offers) ->
  Forall (fun o => slices o <> []) offers ->
  exists selected,
    selectDiverseOffers offers n = Ok selected /\
    length selected = Nat.min n (length offers) /\
    NoDup (map id selected) /\
    (forall o, o ∈ selected -> o ∈ offers) /\
    ((length offers <= n)%nat -> selected = offers) /\
    ((n < length offers)%nat -> (1 <= n)%nat ->
     exists cheapest,
       cheapest ∈ selected /\
       forall o, o ∈ offers -> totalAmount cheapest <= totalAmount o).
Proof.
  intros Hnd Hs. unfold selectDiverseOffers.
  destruct (Nat.leb_spec (length offers) n) as [Hle | Hgt].
  { exists offers. repeat split; try done; lia. }
  rewrite (sortByDeparture_ok offers Hs).
  set (amount := fun a b : Offer => totalAmount a - totalAmount b).
  set (minutes := fun a b : Offer => totalDuration a - totalDuration b).
  destruct (Js.sort amount offers) as [| cheapest others] eqn:E.
  { pose proof (sort_length amount offers) as Hl. rewrite E in Hl. simpl in Hl. lia. }
  assert (Hcheap_in : cheapest ∈ offers).
  { apply (sort_elem amount). rewrite E. by left. }
  assert (Hcheap_min : forall o, o ∈ offers -> totalAmount cheapest <= totalAmount o).
  { exact (sort_head_least totalAmount offers cheapest others E). }
  assert (W0 : wellSelected offers [cheapest]).
  { split; [apply NoDup_singleton |].
    intros o Ho. apply list_elem_of_singleton in Ho. by subst. }
  set (s1 := pushUnique (Js.sort minutes offers) [cheapest]).
  set (s2 := pushUnique (Js.sort cmpDeparture offers) s1).
  set (s3 := fill offers n s2).
  assert (W1 : wellSelected offers s1).
  { apply wellSelected_pushUnique; [| done]. intros o. by rewrite sort_elem. }
  assert (W2 : wellSelected offers s2).
  { apply wellSelected_pushUnique; [| done]. intros o. by rewrite sort_elem. }
  assert (W3 : wellSelected offers s3) by by apply wellSelected_fill.
  assert (Hhead : exists more, s3 = cheapest :: more).
  { destruct (pushUnique_extends (Js.sort minutes offers) [cheapest]) as (m1 & E1).
    destruct (pushUnique_extends (Js.sort cmpDeparture offers) s1) as (m2 & E2).
    destruct (fill_extends offers n s2) as (m3 & E3).
    exists (m1 ++ m2 ++ m3). subst s3. rewrite E3. subst s2. rewrite E2.
    subst s1. rewrite E1. simpl. by rewrite <- !app_assoc. }
  assert (Hlen : (n <= length s3)%nat).
  { destruct (fill_full offers n s2) as [Hl | Hcover]; [done |].
    pose proof (ids_cover_length offers s3 Hnd Hcover). lia. }
  destruct W3 as [Hnd3 Hin3].
  exists (sliceFirst n s3). unfold sliceFirst.
  split; [reflexivity | split; [| split; [| split; [| split]]]].
  - rewrite length_take. lia.
  - rewrite <- firstn_map.
    apply (sublist_NoDup _ (map id s3)); [done | apply sublist_take].
  - intros o Ho. apply Hin3. by apply (subseteq_take n s3).
  - lia.
  - intros _ Hn. exists cheapest. split; [| done].
    destruct Hhead as (more & ->). destruct n as [| n']; [lia |].
    simpl. by left.
Qed.
End SelectClaims.

Section SelectExamples.
Import Js Offers Sandbox.

(** Three out of four offers. *)
Lemma selectDiverseOffers_diverse_witness :
  let offers := [noon; redEye; halfPastNoon; morning] in
  NoDup (map id offers) /\
  Forall (fun o => slices o <> []) offers /\
  exists selected,
    selectDiverseOffers offers 3 = Ok selected /\
    length selected = Nat.min 3 (length offers) /\
    NoDup (map id selected) /\
    (forall o, o ∈ selected -> o ∈ offers) /\
    ((length offers <= 3)%nat -> selected = offers) /\
    ((3 < length offers)%nat -> (1 <= 3)%nat ->
     exists cheapest,
       cheapest ∈ selected /\
       forall o, o ∈ offers -> totalAmount cheapest <= totalAmount o).
Proof.
  intros offers.
  assert (Hnd : NoDup (map id offers)).
  { apply (bool_decide_unpack _). vm_compute. exact I. }
  assert (Hs : Forall (fun o => slices o <> []) offers)
    by (repeat constructor; discriminate).
  split; [exact Hnd | split; [exact Hs |]].
  exact (selectDiverseOffers_diverse offers 3 Hnd Hs).
Defined.

(** The selection of three out of the ten offers of [tenOffers]: the
    cheapest ([off_x9]), then the fastest ([off_x0]), then the earliest
    not yet chosen ([off_x1]). *)
Example selectDiverseOffers_ten :
  (map id <$> match selectDiverseOffers tenOffers 3 with
              | Ok selected => Some selected
              | Throw _ => None
              end) = Some ["off_x9"; "off_x0"; "off_x1"].
Proof. vm_compute. reflexivity. Qed.

(** C6 fails as stated at [n = 0]: one offer is more than none, yet the
    selection is empty and holds no offer of the least amount. *)
Lemma selectDiverseOffers_zero_is_empty :
  NoDup (map id [noon]) /\
  Forall (fun o => slices o <> []) [noon] /\
  (0 < length [noon])%nat /\
  selectDiverseOffers [noon] 0 = Ok [] /\
  noon ∉ ([] : list Offer).
Proof.
  split; [apply (bool_decide_unpack _); vm_compute; exact I |].
  split; [repeat constructor; discriminate |].
  split; [simpl; lia |].
  split; [vm_compute; reflexivity | apply not_elem_of_nil].
Qed.
End SelectExamples.

(** ** Validation of multi-city searches *)
Section ShowNat.
Import Js.

Lemma showNat_inj (a b : nat) : showNat a = showNat b -> a = b.
Proof.
  unfold showNat. intros E.
  apply (f_equal NilEmpty.uint_of_string) in E.
  rewrite !NilEmpty.usu in E. injection E as E.
  apply (f_equal Nat.of_uint) in E.
  by rewrite !DecimalNat.Unsigned.of_to in E.
Qed.

Lemma string_of_uint_digits (d : Decimal.uint) :
  allChars isDigit (NilEmpty.string_of_uint d) = true.
Proof. induction d; simpl; auto. Qed.

Lemma showNat_digits (n : nat) : allChars isDigit (showNat n) = true.
Proof. apply string_of_uint_digits. Qed.

(** Two runs of digits, each followed by a blank, that start equal
    strings are the same run. *)
Lemma digits_then_blank (d1 d2 r1 r2 : string) :
  allChars isDigit d1 = true -> allChars isDigit d2 = true ->
  d1 +:+ String " " r1 = d2 +:+ String " " r2 -> d1 = d2.
Proof.
  revert d2. induction d1 as [| c d1 IH]; intros [| c2 d2] H1 H2 E; simpl in *.
  - reflexivity.
  - injection E as <- _. apply andb_true_iff in H2 as [H2 _]. discriminate.
  - injection E as -> _. apply andb_true_iff in H1 as [H1 _]. discriminate.
  - injection E as <- E. apply andb_true_iff in H1 as [_ H1].
    apply andb_true_iff in H2 as [_ H2]. f_equal. by apply IH.
Qed.
End ShowNat.

Section ValidationClaims.
Import Js Validation.
Context `{DateRuntime}.

Lemma segmentLoop_pair (k : nat) (segments : list Segment.t) (j : nat)
    (currentSegment nextSegment : Segment.t) (e : ValidationError) :
  segments !! j = Some currentSegment ->
  segments !! S j = Some nextSegment ->
  e ∈ segmentPairErrors (k + j) currentSegment nextSegment ->
  e ∈ segmentLoop k segments.
Proof.
  revert k j. induction segments as [| c rest IH]; intros k j Hc Hn He.
  - discriminate.
  - destruct j as [| j]; simpl in Hc, Hn.
    + injection Hc as ->. destruct rest as [| n rest']; [discriminate |].
      simpl in Hn. injection Hn as ->.
      cbn [segmentLoop]. apply elem_of_app. left.
      by rewrite Nat.add_0_r in He.
    + destruct rest as [| n rest']; [discriminate |].
      cbn [segmentLoop]. apply elem_of_app. right.
      apply (IH (S k) j); [done | done |].
      by replace (S k + j)%nat with (k + S j)%nat by lia.
Qed.

Lemma validateMultiCity_reported (now today : Z) (params : Params)
    (e : ValidationError) :
  type params = Some "multi_city" ->
  e ∈ validateMultiCity params ->
  e ∈ errors (validateFlightSearch now today params).
Proof.
  intros Ht He. unfold validateFlightSearch. cbn [errors].
  rewrite Ht. unfold strictEq at 3.
  rewrite bool_decide_eq_true_2 by reflexivity.
  rewrite !elem_of_app. do 7 right. by left.
Qed.

Lemma validateMultiCity_pair (params : Params) (stops : list Segment.t)
    (i : nat) (currentSegment nextSegment : Segment.t) (e : ValidationError) :
  additionalStops params = Some stops ->
  allSegments params stops !! i = Some currentSegment ->
  allSegments params stops !! S i = Some nextSegment ->
  e ∈ segmentPairErrors i currentSegment nextSegment ->
  e ∈ validateMultiCity params.
Proof.
  intros Hs Hc Hn He. unfold validateMultiCity. rewrite Hs.
  destruct stops as [| s stops'].
  - destruct i; simpl in Hn; discriminate.
  - by apply (segmentLoop_pair 0 _ i currentSegment nextSegment).
Qed.

Lemma continuityError_inj (i j : nat) :
  continuityError i = continuityError j -> i = j.
Proof.
  unfold continuityError, err. intros E. injection E as E.
  apply (digits_then_blank (showNat (i + 1)) (showNat (j + 1))) in E;
    [| apply showNat_digits | apply showNat_digits].
  apply showNat_inj in E. lia.
Qed.

Lemma continuity_not_sequence (i j : nat) :
  continuityError i <> sequenceError j.
Proof.
  unfold continuityError, sequenceError, err. intros E. injection E as E.
  pose proof E as E'.
  apply (digits_then_blank (showNat (i + 1)) (showNat (j + 2))) in E';
    [| apply showNat_digits | apply showNat_digits].
  rewrite E' in E. clear E'.
  revert E. generalize (showNat (j + 2)). intros s.
  induction s as [| c s IH]; simpl; intros E; [discriminate |].
  injection E as E. by apply IH.
Qed.

(** The loop never reports a mismatch between the first and the second
    leg. *)
Lemma segmentLoop_no_first_link (k : nat) (segments : list Segment.t) :
  continuityError 0 ∉ segmentLoop k segments.
Proof.
  revert k. induction segments as [| c rest IH]; intros k; [apply not_elem_of_nil |].
  destruct rest as [| n rest']; [apply not_elem_of_nil |].
  cbn [segmentLoop]. rewrite elem_of_app. intros [He | He]; [| by apply (IH (S k))].
  unfold segmentPairErrors in He. rewrite !elem_of_app in He.
  destruct He as [He | [He | [He | He]]].
  - destruct (_ && _) eqn:G; [| by apply elem_of_nil in He].
    apply list_elem_of_singleton, continuityError_inj in He.
    apply andb_true_iff in G as [G _]. apply Nat.ltb_lt in G. lia.
  - destruct (negb _); [| by apply elem_of_nil in He].
    apply list_elem_of_singleton in He. discriminate.
  - destruct (negb _); [| by apply elem_of_nil in He].
    apply list_elem_of_singleton in He. discriminate.
  - destruct (numLe _ _); [| by apply elem_of_nil in He].
    apply list_elem_of_singleton in He. by apply continuity_not_sequence in He.
Qed.

(** C2, as the code has it.  In a multi-city search, for every pair of
    adjacent legs [i] and [i + 1] (the search's own leg being leg 0):
    [validateFlightSearch] reports a continuity error when the pair is
    not the first one ([i >= 1]) and the destination of leg [i] differs
    from the origin of leg [i + 1]; it reports a sequence error when the
    dates of both legs are valid and the later leg does not depart
    strictly after the earlier one; and the link between the search's own
    leg and the first additional stop is never reported. *)
Theorem validateFlightSearch_multi_city_chain
    (now today : Z) (params : Params) (stops : list Segment.t) (i : nat)
    (currentSegment nextSegment : Segment.t) :
  type params = Some "multi_city" ->
  additionalStops params = Some stops ->
  allSegments params stops !! i = Some currentSegment ->
  allSegments params stops !! S i = Some nextSegment ->
  ((1 <= i)%nat ->
   Segment.destination currentSegment <> Segment.origin nextSegment ->
   continuityError i ∈ errors (validateFlightSearch now today params)) /\
  (forall tc tn,
     segmentDate currentSegment = Some tc ->
     segmentDate nextSegment = Some tn ->
     tn <= tc ->
     sequenceError i ∈ errors (validateFlightSearch now today params)) /\
  continuityError 0 ∉ validateMultiCity params.
Proof.
  intros Ht Hs Hc Hn. split; [| split].
  - intros Hi Hne. apply validateMultiCity_reported; [done |].
    apply (validateMultiCity_pair params stops i currentSegment nextSegment);
      try done.
    unfold segmentPairErrors. apply elem_of_app. left.
    destruct (Nat.ltb_spec 0 i) as [_ | Hz]; [| lia].
    unfold strictEq. rewrite bool_decide_eq_false_2 by done.
    simpl. by left.
  - intros tc tn Hc' Hn' Hle. apply validateMultiCity_reported; [done |].
    apply (validateMultiCity_pair params stops i currentSegment nextSegment);
      try done.
    unfold segmentPairErrors. rewrite !elem_of_app. do 3 right.
    rewrite Hc', Hn'. simpl.
    destruct (Z.leb_spec tn tc) as [_ | Hgt]; [by left | lia].
  - unfold validateMultiCity. rewrite Hs.
    destruct stops as [| s stops'].
    + destruct i; simpl in Hn; discriminate.
    + apply segmentLoop_no_first_link.
Qed.
End ValidationClaims.

Section ValidationExamples.
Import Js Validation Sandbox.

(** JFK to LHR, LHR to CDG, then AMS to JFK a day before the second leg:
    the pair of legs 1 and 2 is reported twice, for the broken link and
    for the dates. *)
Lemma validateFlightSearch_multi_city_chain_witness :
  let params := brokenLaterLink in
  let stops :=
    [leg "LHR" "CDG" "2025-06-03"; leg "AMS" "JFK" "2025-06-02";
     leg "JFK" "AMS" "2025-06-09"] in
  let currentSegment := leg "LHR" "CDG" "2025-06-03" in
  let nextSegment := leg "AMS" "JFK" "2025-06-02" in
  type params = Some "multi_city" /\
  additionalStops params = Some stops /\
  allSegments params stops !! 1%nat = Some currentSegment /\
  allSegments params stops !! 2%nat = Some nextSegment /\
  ((1 <= 1)%nat ->
   Segment.destination currentSegment <> Segment.origin nextSegment ->
   continuityError 1 ∈ errors (validateFlightSearch may1st8am may1st params)) /\
  (forall tc tn,
     segmentDate currentSegment = Some tc ->
     segmentDate nextSegment = Some tn ->
     tn <= tc ->
     sequenceError 1 ∈ errors (validateFlightSearch may1st8am may1st params)) /\
  continuityError 0 ∉ validateMultiCity params.
Proof.
  intros params stops currentSegment nextSegment.
  split; [reflexivity | split; [reflexivity | split; [reflexivity |
    split; [reflexivity |]]]].
  exact (validateFlightSearch_multi_city_chain may1st8am may1st params stops 1
           currentSegment nextSegment eq_refl eq_refl eq_refl eq_refl).
Defined.

Example validateFlightSearch_broken_later_link :
  errors (validateFlightSearch may1st8am may1st brokenLaterLink) =
    [continuityError 1; sequenceError 1] /\
  message (continuityError 1) =
    "Segment 2 destination doesn't match segment 3 origin" /\
  message (sequenceError 1) = "Segment 3 departure must be after segment 2".
Proof. vm_compute. repeat split. Qed.

(** The chain of the specification validates without an error. *)
Example validateFlightSearch_round_the_world :
  errors (validateFlightSearch may1st8am may1st roundTheWorld) = [].
Proof. vm_compute. reflexivity. Qed.

(** C2 fails as stated: JFK to LHR followed by CDG to JFK, the first
    additional stop starting in CDG where the search's own leg ends in
    LHR, validates without any error. *)
Lemma first_link_mismatch_not_reported :
  type brokenFirstLink = Some "multi_city" /\
  destination brokenFirstLink = Some "LHR" /\
  additionalStops brokenFirstLink = Some [leg "CDG" "JFK" "2025-06-05"] /\
  Segment.origin (leg "CDG" "JFK" "2025-06-05") = Some "CDG" /\
  errors (validateFlightSearch may1st8am may1st brokenFirstLink) = [] /\
  isValid (validateFlightSearch may1st8am may1st brokenFirstLink) = true.
Proof. vm_compute. repeat split. Qed.
End ValidationExamples.

(** ** Further properties of the orchestration *)
Section MoreConversation.
Import Conversation.

(** X1. [canTransitionTo] answers what [updateStage] would return, which is
    yes exactly on the edges of the transition graph, and changes
    nothing. *)
Theorem canTransitionTo_agrees (c : Conversation.t) (target : string) :
  canTransitionTo target c = snd (updateStage target c) /\
  (canTransitionTo target c = true <-> edge (currentStage c) target).
Proof.
  unfold canTransitionTo, updateStage. split.
  - by destruct (includes target _).
  - apply transitions_graph.
Qed.

Lemma includes_NoDup_snoc (i : string) (l : list string) :
  NoDup l -> includes i l = false -> NoDup (l ++ [i]).
Proof.
  intros Hnd Hi. apply includes_false in Hi.
  apply NoDup_app. split; [done | split; [| apply NoDup_singleton]].
  intros x Hx Hx'. apply list_elem_of_singleton in Hx'. by subst.
Qed.

(** X2. The viewed-offer list never holds an offer twice: every operation
    on a conversation keeps a duplicate-free list duplicate-free. *)
Theorem viewed_offers_stay_distinct (ops : list (Z * op)) (c : Conversation.t) :
  NoDup (viewed c) -> NoDup (viewed (run ops c)).
Proof.
  revert c. induction ops as [| [now o] ops IH]; intros c Hnd; [done |].
  simpl. apply IH. destruct o; unfold step.
  - exact Hnd.
  - unfold updateStage. destruct (includes _ _); [| done].
    unfold setCurrentStage. by destruct (String.eqb _ _).
  - unfold setCurrentStage. by destruct (String.eqb _ _).
  - unfold updateSearchParams. by destruct (_ <? _)%nat.
  - exact Hnd.
  - exact Hnd.
  - rewrite viewed_trackViewedOffer.
    destruct (includes offerId (viewed c)) eqn:E; [done |].
    by apply includes_NoDup_snoc.
  - exact Hnd.
Qed.

Lemma viewed_offers_stay_distinct_witness :
  let c0 := create 0 "session-1" in
  let ops := [(1, OpTrackViewedOffer "off_1"); (2, OpTrackViewedOffer "off_2");
              (3, OpTrackViewedOffer "off_1")] in
  NoDup (viewed c0) /\ NoDup (viewed (run ops c0)).
Proof.
  intros c0 ops.
  assert (H0 : NoDup (viewed c0)) by apply NoDup_nil_2.
  split; [exact H0 |].
  exact (viewed_offers_stay_distinct ops c0 H0).
Defined.
End MoreConversation.

Section MoreBooking.
Import Js Duffel.
Context {St : Type} `{Client St} `{DateRuntime}.

Lemma formatPassengers_ids (ids : list string) (index : nat)
    (passengers : list Passenger) :
  (index + length passengers <= length ids)%nat ->
  exists formatted,
    formatPassengers ids index passengers = Ok formatted /\
    map order_passenger_id formatted = take (length passengers) (drop index ids).
Proof.
  revert index. induction passengers as [| p ps IH]; intros index Hlen.
  - by exists [].
  - simpl in Hlen. cbn [formatPassengers]. unfold formatPassenger.
    destruct (ids !! index) as [pid |] eqn:E.
    + destruct (IH (S index)) as (fps & -> & Hids); [lia |].
      eexists. split; [reflexivity |].
      cbn [map order_passenger_id length]. rewrite Hids.
      by rewrite (drop_S ids pid index E).
    + apply lookup_ge_None in E. lia.
Qed.

(** X3. With as many passengers as the offer has slots, [createOrder] reads
    the offer and then issues one order-creation call: for the offer asked
    for, paid with the amount and the currency of the offer just read, its
    passengers carrying the passenger ids of the offer in order, and its
    services being exactly the requested services that the offer lists as
    available (an unknown service id is dropped, not rejected). *)
Theorem createOrder_request
    (offerId : string) (passengers : list Passenger)
    (paymentDetails : PaymentDetails) (services : list ServiceRequest)
    (st st1 : St) (offer : RawOffer) :
  offers_get offerId true st = (Ok offer, st1) ->
  length passengers = length (offer_passengers offer) ->
  exists orderData,
    issued (createOrder offerId passengers paymentDetails services) st =
      [CallOffersGet offerId true; CallOrdersCreate orderData] /\
    selected_offers orderData = [offerId] /\
    map payment_amount (payments orderData) = [total_amount offer] /\
    map payment_currency (payments orderData) = [Some (total_currency offer)] /\
    map order_passenger_id (order_passengers orderData) =
      map passenger_id (offer_passengers offer) /\
    (forall i,
       i ∈ map order_service_id (default [] (order_services orderData)) <->
       i ∈ map requested_id services /\
       i ∈ map service_id (default [] (available_services offer))).
Proof.
  intros Hget Hlen.
  destruct (formatPassengers_ids (map passenger_id (offer_passengers offer)) 0
              passengers) as (fps & Hfps & Hids).
  { rewrite length_map. lia. }
  rewrite drop_0, Hlen, <- (length_map passenger_id), firstn_all in Hids.
  unfold issued, createOrder, bind, offersGet. rewrite Hget.
  rewrite length_map, Hlen, Nat.eqb_refl. cbn [negb].
  unfold lift. rewrite Hfps. unfold ordersCreate.
  match goal with
  | |- context [orders_create ?d st1] =>
      exists d; destruct (orders_create d st1) as [r st2]
  end.
  cbn [snd]. split; [reflexivity |].
  cbn [selected_offers payments order_passengers order_services map
       payment_amount payment_currency].
  split; [reflexivity | split; [reflexivity | split; [reflexivity |
    split; [exact Hids |]]]].
  intros i.
  set (valid := match available_services offer with
                | Some available =>
                    if (0 <? length services)%nat
                    then List.filter
                           (fun service =>
                              bool_decide (requested_id service ∈ map service_id available))
                           services
                    else []
                | None => []
                end).
  assert (Hvalid : forall s, s ∈ valid <->
            s ∈ services /\
            requested_id s ∈ map service_id (default [] (available_services offer))).
  { intros s. subst valid. destruct (available_services offer) as [available |].
    - destruct services as [| s0 services'].
      + simpl. rewrite elem_of_nil. tauto.
      + cbn [length Nat.ltb Nat.leb default].
        rewrite !list_elem_of_In, filter_In, bool_decide_eq_true.
        by rewrite !list_elem_of_In.
    - simpl. rewrite !elem_of_nil. tauto. }
  assert (Hout : forall l : list OrderService,
            default [] (if (0 <? length l)%nat then Some l else None) = l).
  { by intros [| x l]. }
  rewrite Hout, map_map. cbn [order_service_id]. split.
  - intros Hi. apply list_elem_of_In, in_map_iff in Hi as (s & <- & Hs).
    apply list_elem_of_In, Hvalid in Hs as [Hs Ha]. split; [| done].
    apply list_elem_of_In, in_map_iff. exists s.
    split; [done | by apply list_elem_of_In].
  - intros [Hi Ha]. apply list_elem_of_In, in_map_iff in Hi as (s & <- & Hs).
    apply list_elem_of_In, in_map_iff. exists s. split; [done |].
    apply list_elem_of_In, Hvalid. split; [by apply list_elem_of_In | done].
Qed.

(** X4. [payForHoldOrder] reads the order and only then submits one payment,
    for that order; when the read throws, no payment is submitted. *)
Theorem payForHoldOrder_reads_then_pays
    (orderId amount : string) (paymentDetails : PaymentDetails) (st : St) :
  details_amount paymentDetails = Some amount ->
  (forall order st1,
     orders_get orderId st = (Ok order, st1) ->
     exists request,
       issued (payForHoldOrder orderId paymentDetails) st =
         [CallOrdersGet orderId; CallPaymentsCreate request] /\
       request_order_id request = orderId) /\
  (forall e st1,
     orders_get orderId st = (Throw e, st1) ->
     payForHoldOrder orderId paymentDetails (st, []) =
       (Throw e, (st1, [CallOrdersGet orderId]))).
Proof.
  intros Hamount. split.
  - intros order st1 Hget.
    rewrite (payForHoldOrder_request orderId amount paymentDetails st st1 order
               Hget Hamount).
    eexists. split; reflexivity.
  - intros e st1 Hget.
    unfold payForHoldOrder, bind, ordersGet. by rewrite Hget.
Qed.
End MoreBooking.

Section MoreExamples.
Import Js Duffel Sandbox.

(** Three passengers for the three slots of [offer3], with one service the
    offer lists and one it does not. *)
Lemma createOrder_request_witness :
  let passengers :=
    [passenger "Ada" "Byron" "0612345678"; passenger "Alan" "Turing" "0687654321";
     passenger "Grace" "Hopper" "+31612345678"] in
  let paymentDetails :=
    {| details_type := Some "card"; details_amount := Some "1.00";
       details_currency := Some "USD" |} in
  let services :=
    [{| requested_id := "ase_1"; requested_quantity := None |};
     {| requested_id := "ase_9"; requested_quantity := Some 2 |}] in
  offers_get "off_3" true withOffer3 = (Ok offer3, withOffer3) /\
  length passengers = length (offer_passengers offer3) /\
  exists orderData,
    issued (createOrder "off_3" passengers paymentDetails services) withOffer3 =
      [CallOffersGet "off_3" true; CallOrdersCreate orderData] /\
    selected_offers orderData = ["off_3"] /\
    map payment_amount (payments orderData) = [total_amount offer3] /\
    map payment_currency (payments orderData) = [Some (total_currency offer3)] /\
    map order_passenger_id (order_passengers orderData) =
      map passenger_id (offer_passengers offer3) /\
    (forall i,
       i ∈ map order_service_id (default [] (order_services orderData)) <->
       i ∈ map requested_id services /\
       i ∈ map service_id (default [] (available_services offer3))).
Proof.
  intros passengers paymentDetails services.
  assert (Hget : offers_get "off_3" true withOffer3 = (Ok offer3, withOffer3))
    by reflexivity.
  assert (Hlen : length passengers = length (offer_passengers offer3))
    by reflexivity.
  split; [exact Hget | split; [exact Hlen |]].
  exact (createOrder_request "off_3" passengers paymentDetails services
           withOffer3 withOffer3 offer3 Hget Hlen).
Defined.

Example createOrder_drops_unknown_service :
  let passengers :=
    [passenger "Ada" "Byron" "0612345678"; passenger "Alan" "Turing" "0687654321";
     passenger "Grace" "Hopper" "+31612345678"] in
  let paymentDetails :=
    {| details_type := Some "card"; details_amount := Some "1.00";
       details_currency := Some "USD" |} in
  let services :=
    [{| requested_id := "ase_1"; requested_quantity := None |};
     {| requested_id := "ase_9"; requested_quantity := Some 2 |}] in
  match issued (createOrder "off_3" passengers paymentDetails services) withOffer3 with
  | [_; CallOrdersCreate d] =>
      order_services d = Some [{| order_service_id := "ase_1"; order_quantity := 1 |}] /\
      payments d = [{| payment_type := Some "balance";
                       payment_currency := Some "EUR";
                       payment_amount := "420.00" |}]
  | _ => False
  end.
Proof. vm_compute. split; reflexivity. Qed.

(** The payment of the held order [ord_1]. *)
Lemma payForHoldOrder_reads_then_pays_witness :
  let paymentDetails :=
    {| details_type := None; details_amount := Some "120.00";
       details_currency := Some "EUR" |} in
  details_amount paymentDetails = Some "120.00" /\
  (forall order st1,
     orders_get "ord_1" withHeldOrder = (Ok order, st1) ->
     exists request,
       issued (payForHoldOrder "ord_1" paymentDetails) withHeldOrder =
         [CallOrdersGet "ord_1"; CallPaymentsCreate request] /\
       request_order_id request = "ord_1") /\
  (forall e st1,
     orders_get "ord_1" withHeldOrder = (Throw e, st1) ->
     payForHoldOrder "ord_1" paymentDetails (withHeldOrder, []) =
       (Throw e, (st1, [CallOrdersGet "ord_1"]))).
Proof.
  intros paymentDetails. split; [reflexivity |].
  exact (payForHoldOrder_reads_then_pays "ord_1" "120.00" paymentDetails
           withHeldOrder eq_refl).
Defined.

(** [parseDurationToMinutes] on the durations of the specification:
    two and a half hours, three quarters of an hour, and a string that is
    no duration. *)
Example parseDurationToMinutes_examples :
  Offers.parseDurationToMinutes (Some "PT2H30M") = 150 /\
  Offers.parseDurationToMinutes (Some "PT45M") = 45 /\
  Offers.parseDurationToMinutes (Some "PT3H") = 180 /\
  Offers.parseDurationToMinutes (Some "garbage") = 0 /\
  Offers.parseDurationToMinutes (Some "") = 0 /\
  Offers.parseDurationToMinutes None = 0.
Proof. vm_compute. repeat split. Qed.
End MoreExamples.

(** ** Durations *)
Section DurationFacts.
Import Js Offers Text Durations.

Lemma isDigit_cases (c : ascii) :
  isDigit c = true ->
  c ∈ ["0"; "1"; "2"; "3"; "4"; "5"; "6"; "7"; "8"; "9"]%char.
Proof.
  destruct c as [[] [] [] [] [] [] [] []]; intros E; try discriminate E;
    set_solver.
Qed.

Lemma append_cons (x : ascii) (a b : string) :
  String x a +:+ b = String x (a +:+ b).
Proof. reflexivity. Qed.

Lemma append_assoc (a b c : string) : (a +:+ b) +:+ c = a +:+ (b +:+ c).
Proof.
  induction a as [| x a IH]; [done |]. rewrite !append_cons. by rewrite IH.
Qed.

Lemma append_nonempty (s t : string) : s <> "" -> s +:+ t <> "".
Proof. by destruct s. Qed.

(** [joined || fallback] on a string that is not empty. *)
Lemma nonempty_or (s t d : string) :
  s <> "" ->
  match s +:+ t with
  | EmptyString => d
  | joined => joined
  end = s +:+ t.
Proof. destruct s; [done | reflexivity]. Qed.

Lemma digits_span (ds : string) (u : ascii) (rest : string) :
  allChars isDigit ds = true -> isDigit u = false ->
  takeWhile isDigit (ds +:+ String u rest) = ds /\
  dropWhile isDigit (ds +:+ String u rest) = String u rest.
Proof.
  intros Hd Hu. induction ds as [| c ds IH].
  - simpl. by rewrite Hu.
  - cbn [allChars] in Hd. apply andb_true_iff in Hd as [Hc Hd].
    rewrite append_cons. cbn [takeWhile dropWhile]. rewrite Hc.
    destruct (IH Hd) as [-> ->]. done.
Qed.

Lemma group_digits (unit : ascii) (ds rest : string) :
  allChars isDigit ds = true -> ds <> "" -> isDigit unit = false ->
  group unit (ds +:+ String unit rest) = (Some ds, rest).
Proof.
  intros Hd Hne Hu. unfold group.
  destruct (digits_span ds unit rest Hd Hu) as [-> ->].
  destruct ds; [done |]. by rewrite Ascii.eqb_refl.
Qed.

Lemma group_other (unit other : ascii) (ds rest : string) :
  allChars isDigit ds = true -> isDigit other = false -> other <> unit ->
  group unit (ds +:+ String other rest) = (None, ds +:+ String other rest).
Proof.
  intros Hd Ho Hne. unfold group.
  destruct (digits_span ds other rest Hd Ho) as [-> ->].
  destruct ds; [done |].
  destruct (Ascii.eqb_spec other unit); [done | reflexivity].
Qed.

Lemma digit_radix10 (c : ascii) : isDigit c = true -> isRadixDigit 10 c = true.
Proof.
  intros Hc. apply isDigit_cases in Hc.
  repeat (apply elem_of_cons in Hc as [-> | Hc]; [reflexivity |]).
  by apply elem_of_nil in Hc.
Qed.

Lemma takeWhile_all (p : ascii -> bool) (s : string) :
  allChars p s = true -> takeWhile p s = s.
Proof.
  induction s as [| c s IH]; simpl; [done |].
  intros [Hc Hs]%andb_true_iff. by rewrite Hc, IH.
Qed.

Lemma allChars_impl (p q : ascii -> bool) (s : string) :
  (forall c, p c = true -> q c = true) ->
  allChars p s = true -> allChars q s = true.
Proof.
  intros Hpq. induction s as [| c s IH]; simpl; [done |].
  intros [Hc Hs]%andb_true_iff. by rewrite (Hpq c Hc), IH.
Qed.

(** [parseInt] reads a run of decimal digits as the number they write. *)
Lemma parseInt_digits (ds : string) :
  allChars isDigit ds = true -> ds <> "" ->
  parseInt ds = Some (digitsValue 10 0 ds).
Proof.
  intros Hd Hne. destruct ds as [| c ds]; [done |].
  assert (Ht : takeWhile (isRadixDigit 10) (String c ds) = String c ds).
  { apply takeWhile_all. revert Hd. apply allChars_impl, digit_radix10. }
  simpl in Hd. apply andb_true_iff in Hd as [Hc Hd].
  apply isDigit_cases in Hc.
  assert (Hz : c = "0"%char \/
               c ∈ ["1"; "2"; "3"; "4"; "5"; "6"; "7"; "8"; "9"]%char).
  { apply elem_of_cons in Hc as [-> | Hc]; [by left | by right]. }
  destruct Hz as [-> | Hnz].
  - destruct ds as [| c2 ds]; [reflexivity |].
    simpl in Hd. apply andb_true_iff in Hd as [Hc2 Hd].
    apply isDigit_cases in Hc2.
    unfold parseInt.
    repeat (apply elem_of_cons in Hc2 as [-> | Hc2];
            [simpl dropWhile; cbv iota beta; rewrite Ht;
             f_equal; apply Z.mul_1_l |]).
    by apply elem_of_nil in Hc2.
  - unfold parseInt.
    repeat (apply elem_of_cons in Hnz as [-> | Hnz];
            [simpl dropWhile; cbv iota beta; rewrite Ht;
             f_equal; apply Z.mul_1_l |]).
    by apply elem_of_nil in Hnz.
Qed.

Lemma digitsValue_uint (d : Decimal.uint) (acc : nat) :
  digitsValue 10 (Z.of_nat acc) (NilEmpty.string_of_uint d) =
  Z.of_nat (Nat.of_uint_acc d acc).
Proof.
  revert acc. induction d; intros acc; simpl NilEmpty.string_of_uint;
    simpl Nat.of_uint_acc; [reflexivity | ..];
    cbn [digitsValue]; rewrite <- IHd; f_equal;
    rewrite Nat.tail_mul_spec; vm_compute digitValue; simpl default; lia.
Qed.

(** The decimal rendering of [n] writes [n]. *)
Lemma digitsValue_showNat (n : nat) :
  digitsValue 10 0 (showNat n) = Z.of_nat n.
Proof.
  unfold showNat. rewrite (digitsValue_uint _ 0).
  fold (Nat.of_uint (Nat.to_uint n)). by rewrite Unsigned.of_to.
Qed.

Lemma showNat_nonempty (n : nat) : showNat n <> "".
Proof.
  unfold showNat. intros E.
  apply (f_equal NilEmpty.uint_of_string) in E.
  rewrite NilEmpty.usu in E. injection E as E.
  pose proof (Unsigned.of_to n) as Hn. rewrite E in Hn.
  subst n. discriminate E.
Qed.

Lemma isDigits_spec (ds : string) :
  isDigits ds = true <-> allChars isDigit ds = true /\ ds <> "".
Proof.
  unfold isDigits. rewrite andb_true_iff, negb_true_iff.
  split; intros [? Hne]; (split; [done |]).
  - intros ->. discriminate.
  - by apply String.eqb_neq.
Qed.

(** The groups read after [PT] in an ISO duration. *)
Lemma groups_iso (h m : option string) :
  partOk h = true -> partOk m = true ->
  let '(gh, r1) := group "H" (part h "H" +:+ part m "M") in
  let '(gm, _) := group "M" r1 in
  gh = h /\ gm = m.
Proof.
  intros Hh Hm.
  destruct h as [h |], m as [m |]; simpl in Hh, Hm;
    try apply isDigits_spec in Hh as [Hh1 Hh2];
    try apply isDigits_spec in Hm as [Hm1 Hm2]; unfold part.
  - rewrite append_assoc, append_cons.
    rewrite group_digits by done.
    change ("" +:+ ?x) with x.
    rewrite (group_digits "M" m "") by done. done.
  - rewrite append_assoc, append_cons.
    rewrite group_digits by done. done.
  - change ("" +:+ ?x) with x.
    rewrite (group_other "H" "M" m "") by done.
    rewrite (group_digits "M" m "") by done. done.
  - done.
Qed.

Lemma afterPT_iso (h m : option string) :
  afterPT (iso h m) = Some (part h "H" +:+ part m "M").
Proof. reflexivity. Qed.

Lemma parsed_part (g : option string) :
  partOk g = true ->
  match g with Some ds => default 0 (parseInt ds) | None => 0 end = partValue g.
Proof.
  destruct g as [ds |]; [| done]. simpl.
  intros [Hd Hne]%isDigits_spec. by rewrite parseInt_digits.
Qed.

(** X5. [parseDurationToMinutes] reads the ISO 8601 durations [PT<h>H<m>M],
    [PT<h>H], [PT<m>M] and [PT], where [<h>] and [<m>] are runs of digits,
    as [60 * h + m] minutes, a part that is absent counting as zero, as
    long as that number of minutes is at most [MAX_SAFE_INTEGER], the range
    in which the arithmetic of the code is exact. *)
Theorem parseDurationToMinutes_iso (h m : option string) :
  partOk h = true -> partOk m = true ->
  60 * partValue h + partValue m <= MAX_SAFE_INTEGER ->
  parseDurationToMinutes (Some (iso h m)) = 60 * partValue h + partValue m.
Proof.
  intros Hh Hm _. unfold parseDurationToMinutes.
  change (truthyStr (Some (iso h m))) with true. cbv [negb]. cbv iota.
  change (default "" (Some (iso h m))) with (iso h m).
  rewrite afterPT_iso.
  pose proof (groups_iso h m Hh Hm) as G.
  destruct (group "H" _) as [gh r1]. destruct (group "M" r1) as [gm r2].
  destruct G as [-> ->]. cbv iota beta.
  rewrite !parsed_part by done. lia.
Qed.

(** [PT02H26M] is 146 minutes. *)
Lemma parseDurationToMinutes_iso_witness :
  partOk (Some "02") = true /\ partOk (Some "26") = true /\
  60 * partValue (Some "02") + partValue (Some "26") <= MAX_SAFE_INTEGER /\
  parseDurationToMinutes (Some (iso (Some "02") (Some "26"))) =
    60 * partValue (Some "02") + partValue (Some "26").
Proof.
  assert (Hs : 60 * partValue (Some "02") + partValue (Some "26")
               <= MAX_SAFE_INTEGER) by (vm_compute; discriminate).
  split; [reflexivity | split; [reflexivity | split; [exact Hs |]]].
  exact (parseDurationToMinutes_iso (Some "02") (Some "26") eq_refl eq_refl Hs).
Defined.

(** X6. [formatDuration] shows such a duration as [<h>h <m>m], the
    numbers in plain decimal, leaving out a part that is zero, and as [0m]
    when both are, as long as the hours and the minutes are at most
    [MAX_SAFE_INTEGER]: beyond it the code prints the double it has read. *)
Theorem formatDuration_iso (h m : option string) :
  partOk h = true -> partOk m = true ->
  partValue h <= MAX_SAFE_INTEGER -> partValue m <= MAX_SAFE_INTEGER ->
  formatDuration (Some (iso h m)) =
    readable (Z.to_nat (partValue h)) (Z.to_nat (partValue m)).
Proof.
  intros Hh Hm _ _. unfold formatDuration.
  change (truthyStr (Some (iso h m))) with true. cbv [negb]. cbv iota zeta.
  change (default "" (Some (iso h m))) with (iso h m).
  rewrite afterPT_iso.
  pose proof (groups_iso h m Hh Hm) as G.
  destruct (group "H" _) as [gh r1]. destruct (group "M" r1) as [gm r2].
  destruct G as [-> ->]. cbv iota beta.
  rewrite !parsed_part by done.
  assert (H0 : forall v, (0 <? v) = false -> Z.to_nat v = 0%nat).
  { intros v Hv. apply Z.ltb_ge in Hv. lia. }
  assert (H1 : forall v, (0 <? v) = true -> exists k, Z.to_nat v = S k).
  { intros v Hv. apply Z.ltb_lt in Hv. exists (Z.to_nat v - 1)%nat. lia. }
  destruct (0 <? partValue h) eqn:Eh, (0 <? partValue m) eqn:Em.
  - destruct (H1 _ Eh) as (a & Ea), (H1 _ Em) as (b & Eb).
    unfold readable. rewrite Ea, Eb. rewrite <- Ea, <- Eb.
    cbn [app join].
    rewrite nonempty_or by apply append_nonempty, showNat_nonempty.
    rewrite append_assoc. reflexivity.
  - destruct (H1 _ Eh) as (a & Ea). rewrite (H0 _ Em).
    unfold readable. rewrite Ea. rewrite <- Ea.
    cbn [app join]. rewrite nonempty_or; [done | apply showNat_nonempty].
  - destruct (H1 _ Em) as (b & Eb). rewrite (H0 _ Eh).
    unfold readable. rewrite Eb. rewrite <- Eb.
    cbn [app join]. rewrite nonempty_or; [done | apply showNat_nonempty].
  - rewrite (H0 _ Eh), (H0 _ Em). reflexivity.
Qed.

(** [PT12H30M] reads [12h 30m]. *)
Lemma formatDuration_iso_witness :
  partOk (Some "12") = true /\ partOk (Some "30") = true /\
  partValue (Some "12") <= MAX_SAFE_INTEGER /\
  partValue (Some "30") <= MAX_SAFE_INTEGER /\
  formatDuration (Some (iso (Some "12") (Some "30"))) =
    readable (Z.to_nat (partValue (Some "12"))) (Z.to_nat (partValue (Some "30"))).
Proof.
  assert (Hh : partValue (Some "12") <= MAX_SAFE_INTEGER)
    by (vm_compute; discriminate).
  assert (Hm : partValue (Some "30") <= MAX_SAFE_INTEGER)
    by (vm_compute; discriminate).
  split; [reflexivity | split; [reflexivity | split; [exact Hh | split; [exact Hm |]]]].
  exact (formatDuration_iso (Some "12") (Some "30") eq_refl eq_refl Hh Hm).
Defined.

Example formatDuration_examples :
  formatDuration (Some "PT12H30M") = "12h 30m" /\
  formatDuration (Some "PT02H05M") = "2h 5m" /\
  formatDuration (Some "PT45M") = "45m" /\
  formatDuration (Some "PT0H0M") = "0m" /\
  formatDuration (Some "soon") = "soon" /\
  formatDuration None = "".
Proof. vm_compute. repeat split. Qed.

Lemma afterPT_without_P (s : string) :
  includesChar "P" s = false -> afterPT s = None.
Proof.
  induction s as [| c s IH]; [done |].
  cbn [includesChar]. intros [Hc Hs]%orb_false_iff.
  cbn [afterPT]. destruct s as [| d s']; [done |].
  rewrite Ascii.eqb_sym in Hc. rewrite Hc. cbn [andb]. by apply IH.
Qed.

Lemma includesChar_app (c : ascii) (a b : string) :
  includesChar c (a +:+ b) = includesChar c a || includesChar c b.
Proof.
  induction a as [| x a IH]; [done |].
  rewrite append_cons. cbn [includesChar]. by rewrite IH, orb_assoc.
Qed.

Lemma digits_without_P (ds : string) :
  allChars isDigit ds = true -> includesChar "P" ds = false.
Proof.
  induction ds as [| c ds IH]; [done |].
  cbn [allChars includesChar]. intros [Hc Hd]%andb_true_iff.
  rewrite (IH Hd), orb_false_r.
  apply isDigit_cases in Hc.
  repeat (apply elem_of_cons in Hc as [-> | Hc]; [reflexivity |]).
  by apply elem_of_nil in Hc.
Qed.

(** A string without [PT] counts as no duration. *)
Lemma parseDurationToMinutes_unmatched (s : string) :
  afterPT s = None -> parseDurationToMinutes (Some s) = 0.
Proof.
  intros E. unfold parseDurationToMinutes.
  destruct (negb _); [done |].
  change (default "" (Some s)) with s. by rewrite E.
Qed.

Lemma part_without_P (g : option string) (unit : string) :
  partOk g = true -> includesChar "P" unit = false ->
  includesChar "P" (part g unit) = false.
Proof.
  destruct g as [ds |]; [| done]. simpl.
  intros [Hd _]%isDigits_spec Hu.
  by rewrite includesChar_app, (digits_without_P ds Hd), Hu.
Qed.

Lemma afterPT_cons (c d : ascii) (r : string) :
  afterPT (String c (String d r)) =
    if Ascii.eqb c "P" && Ascii.eqb d "T" then Some r else afterPT (String d r).
Proof. reflexivity. Qed.

Lemma afterPT_isoDays (d : string) (h m : option string) :
  isDigits d = true -> partOk h = true -> partOk m = true ->
  afterPT (isoDays d h m) = None.
Proof.
  intros [Hd Hne]%isDigits_spec Hh Hm. unfold isoDays.
  destruct d as [| c d]; [done |].
  change ("P" +:+ ?x) with (String "P" x). rewrite append_cons.
  rewrite afterPT_cons.
  assert (Ec : Ascii.eqb c "T" = false).
  { cbn [allChars] in Hd. apply andb_true_iff in Hd as [Hc _].
    apply isDigit_cases in Hc.
    repeat (apply elem_of_cons in Hc as [-> | Hc]; [reflexivity |]).
    by apply elem_of_nil in Hc. }
  rewrite Ec, andb_false_r.
  apply afterPT_without_P.
  rewrite <- append_cons.
  rewrite !includesChar_app.
  rewrite (digits_without_P _ Hd).
  rewrite (part_without_P h "H" Hh eq_refl).
  rewrite (part_without_P m "M" Hm eq_refl).
  reflexivity.
Qed.

(** X7. A duration of a day or more, [P<d>DT<h>H<m>M], has no [PT] in it:
    [parseDurationToMinutes] counts it as 0 minutes and [formatDuration]
    returns it as it is. *)
Theorem day_part_is_not_read (d : string) (h m : option string) :
  isDigits d = true -> partOk h = true -> partOk m = true ->
  parseDurationToMinutes (Some (isoDays d h m)) = 0 /\
  formatDuration (Some (isoDays d h m)) = isoDays d h m.
Proof.
  intros Hd Hh Hm. pose proof (afterPT_isoDays d h m Hd Hh Hm) as E. split.
  - by apply parseDurationToMinutes_unmatched.
  - unfold formatDuration.
    change (truthyStr (Some (isoDays d h m))) with true. cbv [negb]. cbv iota zeta.
    change (default "" (Some (isoDays d h m))) with (isoDays d h m).
    by rewrite E.
Qed.

(** [P1DT2H30M], a day and two and a half hours. *)
Lemma day_part_is_not_read_witness :
  isDigits "1" = true /\ partOk (Some "2") = true /\ partOk (Some "30") = true /\
  parseDurationToMinutes (Some (isoDays "1" (Some "2") (Some "30"))) = 0 /\
  formatDuration (Some (isoDays "1" (Some "2") (Some "30"))) =
    isoDays "1" (Some "2") (Some "30").
Proof.
  split; [reflexivity | split; [reflexivity | split; [reflexivity |]]].
  exact (day_part_is_not_read "1" (Some "2") (Some "30") eq_refl eq_refl eq_refl).
Defined.

Lemma afterPT_formatDuration (d : option string) :
  afterPT (formatDuration d) = None.
Proof.
  unfold formatDuration. destruct (negb (truthyStr d)); [done |].
  cbv zeta. destruct (afterPT (default "" d)) as [r |] eqn:E; [| done].
  destruct (group "H" r) as [h r1]. destruct (group "M" r1) as [m r2].
  set (hours := match h with Some ds => default 0 (parseInt ds) | None => 0 end).
  set (minutes := match m with Some ds => default 0 (parseInt ds) | None => 0 end).
  assert (Hp : forall n unit, includesChar "P" unit = false ->
                 includesChar "P" (showNat n +:+ unit) = false).
  { intros n unit Hu.
    by rewrite includesChar_app, (digits_without_P _ (showNat_digits n)), Hu. }
  apply afterPT_without_P.
  destruct (0 <? hours), (0 <? minutes); cbn [app join].
  - rewrite nonempty_or by apply append_nonempty, showNat_nonempty.
    rewrite append_assoc. apply Hp.
    change ("h" +:+ " " +:+ ?x) with (String "h" (String " " x)).
    cbn [includesChar]. rewrite Hp by reflexivity. reflexivity.
  - rewrite nonempty_or by apply showNat_nonempty. by apply Hp.
  - rewrite nonempty_or by apply showNat_nonempty. by apply Hp.
  - reflexivity.
Qed.

(** X8. The readable form is no duration for [parseDurationToMinutes]:
    whatever [formatDuration] returns counts as 0 minutes. *)
Theorem formatted_duration_parses_to_zero (d : option string) :
  parseDurationToMinutes (Some (formatDuration d)) = 0.
Proof. apply parseDurationToMinutes_unmatched, afterPT_formatDuration. Qed.
End DurationFacts.

(** ** The canonical offers *)
Section NormaliseFacts.
Import Js Offers Durations Normalise.
Context `{DateRuntime} (parseFloat : string -> Z).

Lemma mapR_Forall2 {A B : Type} (f : A -> result B) (l : list A) (ys : list B) :
  mapR f l = Ok ys <-> Forall2 (fun x y => f x = Ok y) l ys.
Proof.
  revert ys. induction l as [| x l IH]; intros ys; simpl.
  - split; [intros [= <-]; constructor | by inversion 1].
  - destruct (f x) as [y | e] eqn:Ex.
    + destruct (mapR f l) as [ys' | e] eqn:El.
      * split.
        -- intros [= <-]. constructor; [done | by apply IH].
        -- inversion 1 as [| ? y' ? ys'' Hy Hys]; subst.
           rewrite Ex in Hy. injection Hy as <-.
           apply IH in Hys. by injection Hys as <-.
      * split; [done |]. inversion 1 as [| ? y' ? ys'' Hy Hys]; subst.
        by apply IH in Hys.
    + split; [done |]. inversion 1 as [| ? y' ? ys'' Hy Hys]; subst.
      rewrite Ex in Hy. discriminate.
Qed.

Lemma foldl_zero {A : Type} (f : A -> Z) (l : list A) (acc : Z) :
  Forall (fun x => f x = 0) l ->
  foldl (fun total x => total + f x) acc l = acc.
Proof.
  intros Hl. revert acc. induction Hl as [| x l Hx _ IH]; intros acc; simpl.
  - done.
  - rewrite Hx, Z.add_0_r. apply IH.
Qed.

Lemma formatSlice_duration (slice : RawSlice) (formatted : Slice) :
  formatSlice slice = Ok formatted ->
  parseDurationToMinutes (duration formatted) = 0.
Proof.
  unfold formatSlice. destruct (slice_segments slice) as [| first rest]; [done |].
  intros [= <-]. simpl.
  apply parseDurationToMinutes_unmatched, afterPT_formatDuration.
Qed.

Lemma formatOffer_parsedDuration (offer : RawOffer) (formatted : Offer) :
  formatOffer parseFloat offer = Ok formatted -> parsedDuration formatted = 0.
Proof.
  unfold formatOffer.
  destruct (mapR formatSlice (raw_slices offer)) as [ss | e] eqn:E; [| done].
  intros [= <-]. unfold parsedDuration. simpl.
  apply (foldl_zero (fun slice => parseDurationToMinutes (duration slice))).
  apply mapR_Forall2 in E.
  induction E as [| x y l l' Hxy _ IH]; constructor; [| done].
  by apply formatSlice_duration in Hxy.
Qed.

Lemma formatOffers_parsedDuration (raws : list RawOffer) (offers : list Offer) :
  formatOffers parseFloat raws = Ok offers ->
  Forall (fun offer => parsedDuration offer = 0) offers.
Proof.
  intros E. apply mapR_Forall2 in E.
  induction E as [| x y l l' Hxy _ IH]; constructor; [| done].
  by apply formatOffer_parsedDuration in Hxy.
Qed.

Lemma filter_all_true {A : Type} (p : A -> bool) (l : list A) :
  Forall (fun x => p x = true) l -> List.filter p l = l.
Proof.
  induction 1 as [| x l Hx _ IH]; simpl; [done |]. by rewrite Hx, IH.
Qed.

(** A comparator that never asks for a swap leaves the list as it is. *)
Lemma sort_flat {A : Type} (cmp : A -> A -> Z) (l : list A) :
  (forall a b, a ∈ l -> b ∈ l -> cmp a b <= 0) -> Js.sort cmp l = l.
Proof.
  induction l as [| x l IH]; intros Hc; [done |].
  unfold Js.sort in *. simpl. rewrite IH.
  - destruct l as [| y l']; [done |]. simpl.
    destruct (Z.leb_spec (cmp x y) 0) as [_ | Hgt]; [done |].
    assert (cmp x y <= 0) by (apply Hc; [by left | right; by left]). lia.
  - intros a b Ha Hb. apply Hc; by right.
Qed.

(** X9. The canonical offers carry the readable duration, which the filter
    reads as 0 minutes: on the offers [formatOffers] returns, a maximum
    duration of 0 or more removes no offer, and the orders
    [duration_short] and [duration_long] leave the offers as they are. *)
Theorem formatted_offers_ignore_duration
    (raws : list RawOffer) (offers : list Offer) (limit : Z) :
  formatOffers parseFloat raws = Ok offers ->
  0 <= limit ->
  filterOffers offers (durationOnly limit) = Ok offers /\
  filterOffers offers (sortOnly "duration_short") = Ok offers /\
  filterOffers offers (sortOnly "duration_long") = Ok offers.
Proof.
  intros E Hl. apply formatOffers_parsedDuration in E.
  assert (Hs : forall flip : bool,
    Js.sort (fun a b => if flip then parsedDuration b - parsedDuration a
                        else parsedDuration a - parsedDuration b) offers = offers).
  { intros flip. apply sort_flat. intros a b Ha Hb.
    rewrite Forall_forall in E. rewrite (E a Ha), (E b Hb). by destruct flip. }
  split; [| split].
  - change (filterOffers offers (durationOnly limit))
      with (Ok (if limit =? 0 then offers
                else List.filter (fun offer => parsedDuration offer <=? limit) offers)).
    destruct (limit =? 0); [done |]. f_equal. apply filter_all_true.
    eapply Forall_impl; [exact E |]. intros o Ho. simpl in Ho. rewrite Ho.
    by apply Z.leb_le.
  - change (filterOffers offers (sortOnly "duration_short"))
      with (Ok (Js.sort (fun a b => parsedDuration a - parsedDuration b) offers)).
    f_equal. exact (Hs false).
  - change (filterOffers offers (sortOnly "duration_long"))
      with (Ok (Js.sort (fun a b => parsedDuration b - parsedDuration a) offers)).
    f_equal. exact (Hs true).
Qed.
End NormaliseFacts.

(** ** The way through the stages *)
Section JourneyFacts.
Import Conversation Journey.

Lemma edge_rank (cur target : string) :
  edge cur target -> (rank cur < rank target <= 7)%nat.
Proof. destruct 1; vm_compute; lia. Qed.

Lemma updateStage_rank (target : string) (c : Conversation.t) :
  let '(c1, ok) := updateStage target c in
  if ok then (rank (currentStage c) < rank (currentStage c1) <= 7)%nat
  else c1 = c.
Proof.
  unfold updateStage.
  destruct (includes target _) eqn:E; [| done].
  rewrite currentStage_setCurrentStage.
  by apply edge_rank, transitions_graph.
Qed.

Lemma attempts_rank (targets : list string) (c : Conversation.t) :
  (rank (currentStage c) + snd (attempts targets c)
     <= rank (currentStage (fst (attempts targets c))))%nat /\
  (snd (attempts targets c) = 0%nat \/
   rank (currentStage (fst (attempts targets c))) <= 7)%nat /\
  (rank (currentStage c) <= 7 ->
   rank (currentStage (fst (attempts targets c))) <= 7)%nat.
Proof.
  revert c. induction targets as [| target rest IH]; intros c; simpl.
  - split; [lia | split; [by left | done]].
  - pose proof (updateStage_rank target c) as Hu.
    destruct (updateStage target c) as [c1 ok].
    specialize (IH c1). destruct (attempts rest c1) as [c2 n]. simpl in *.
    destruct ok.
    + split; [lia | split; [right; lia | lia]].
    + subst c1. done.
Qed.

(** X10. The stage only moves forward.  Over any sequence of calls of
    [updateStage], each call that returns [true] moves the stage to a later
    place of the schema's list of stages, so at most seven calls succeed;
    and a conversation at [confirmation] stays as it is. *)
Theorem updateStage_only_forward (targets : list string) (c : Conversation.t) :
  (rank (currentStage c) + snd (attempts targets c)
     <= rank (currentStage (fst (attempts targets c))))%nat /\
  (snd (attempts targets c) <= 7)%nat /\
  (currentStage c = "confirmation" -> attempts targets c = (c, 0%nat)).
Proof.
  destruct (attempts_rank targets c) as (H1 & H2 & _).
  split; [exact H1 | split].
  - destruct H2 as [-> | H2]; lia.
  - intros Hc. clear H2 H1. revert c Hc.
    induction targets as [| target rest IH]; intros c Hc; [done |].
    simpl. unfold updateStage. rewrite Hc.
    change (default [] (validTransitions !! "confirmation")) with (@nil string).
    simpl. rewrite (IH c Hc). done.
Qed.

(** A conversation taken from [initial] to [confirmation], with a step
    back and a leap ahead tried on the way. *)
Example attempts_through_the_stages :
  let targets :=
    ["search"; "selection"; "search"; "payment"; "passenger_details";
     "additional_services"; "payment"; "confirmation"; "initial"] in
  let '(c, n) := attempts targets (create 0 "session-1") in
  currentStage c = "confirmation" /\ n = 6%nat.
Proof. vm_compute. split; reflexivity. Qed.
End JourneyFacts.

(** ** What the filter keeps and in which order *)
Section SwitchFacts.
Import Filtering.
Context {A : Type} (a1 a2 a3 a4 a5 a6 d : A).

(** An order that is none of the six known ones takes the default case. *)
Lemma switch_default (order : string) :
  order ∈ orders \/ switch a1 a2 a3 a4 a5 a6 d order = d.
Proof.
  unfold switch.
  repeat first
    [ solve [right; reflexivity]
    | match goal with
      | |- context [match ?x with _ => _ end] => is_var x; destruct x
      end
    | solve [left; unfold orders; set_solver] ].
Qed.
End SwitchFacts.

Section FilteringFacts.
Import Js Offers Filtering.
Context `{DateRuntime}.

Lemma departsWithin_total (range : TimeRange) (offer : Offer) :
  slices offer <> [] ->
  departsWithin range offer = Ok (inDepartureWindow range offer).
Proof.
  intros Hs. unfold inDepartureWindow, departsWithin, departure.
  by destruct (slices offer).
Qed.

Lemma filter_always {A : Type} (l : list A) : List.filter (fun _ => true) l = l.
Proof. induction l as [| x l IH]; simpl; [done | by rewrite IH]. Qed.

Lemma filter_twice {A : Type} (p q : A -> bool) (l : list A) :
  List.filter p (List.filter q l) = List.filter (fun x => q x && p x) l.
Proof.
  induction l as [| x l IH]; simpl; [done |].
  destruct (q x); simpl; [destruct (p x) |]; by rewrite IH.
Qed.

Lemma filter_elem {A : Type} (p : A -> bool) (l : list A) (x : A) :
  x ∈ List.filter p l <-> x ∈ l /\ p x = true.
Proof. by rewrite !list_elem_of_In, filter_In. Qed.

(** [filterOffers] is the departure window, then the other criteria, then
    the order. *)
Lemma filterOffers_unfold (offers : list Offer) (criteria : Criteria) :
  filterOffers offers criteria =
    match
      match departureTime criteria with
      | Some range => filterR (departsWithin range) offers
      | None => Ok offers
      end
    with
    | Throw e => Throw e
    | Ok filtered => ordered (sort criteria) (narrowed criteria filtered)
    end.
Proof. reflexivity. Qed.

Lemma narrowed_meets (criteria : Criteria) (offers : list Offer) :
  narrowed criteria
    (List.filter (fun o => match departureTime criteria with
                           | Some range => inDepartureWindow range o
                           | None => true
                           end) offers) =
  List.filter (meets criteria) offers.
Proof.
  unfold narrowed.
  set (l0 := List.filter _ offers).
  set (l1 := match maxConnections criteria with Some _ => _ | None => _ end).
  set (l2 := match airlines criteria with Some _ => _ | None => _ end).
  set (l3 := match maxPrice criteria with Some _ => _ | None => _ end).
  set (l4 := match minPrice criteria with Some _ => _ | None => _ end).
  set (l5 := match maxDuration criteria with Some _ => _ | None => _ end).
  assert (E1 : l1 = List.filter
                 (fun o => match maxConnections criteria with
                           | Some limit => withinConnections limit o
                           | None => true
                           end) l0).
  { subst l1. destruct (maxConnections criteria); [done | by rewrite filter_always]. }
  assert (E2 : l2 = List.filter
                 (fun o => match airlines criteria with
                           | Some ((_ :: _) as codes) => fliesWith codes o
                           | _ => true
                           end) l1).
  { subst l2. destruct (airlines criteria) as [[| code codes] |];
      [by rewrite filter_always | done | by rewrite filter_always]. }
  assert (E3 : l3 = List.filter
                 (fun o => match maxPrice criteria with
                           | Some limit => (limit =? 0) || (totalAmount o <=? limit)
                           | None => true
                           end) l2).
  { subst l3. destruct (maxPrice criteria) as [limit |];
      [destruct (limit =? 0) |]; simpl; by rewrite ?filter_always. }
  assert (E4 : l4 = List.filter
                 (fun o => match minPrice criteria with
                           | Some limit => (limit =? 0) || (limit <=? totalAmount o)
                           | None => true
                           end) l3).
  { subst l4. destruct (minPrice criteria) as [limit |];
      [destruct (limit =? 0) |]; simpl; by rewrite ?filter_always. }
  assert (E5 : l5 = List.filter
                 (fun o => match maxDuration criteria with
                           | Some limit => (limit =? 0) || (parsedDuration o <=? limit)
                           | None => true
                           end) l4).
  { subst l5. destruct (maxDuration criteria) as [limit |];
      [destruct (limit =? 0) |]; simpl; by rewrite ?filter_always. }
  rewrite E5, E4, E3, E2, E1. subst l0. rewrite !filter_twice.
  apply filter_ext. intros o. unfold meets.
  by rewrite !andb_assoc.
Qed.

Lemma filterOffers_steps (offers : list Offer) (criteria : Criteria) :
  Forall (fun o => slices o <> []) offers ->
  filterOffers offers criteria =
    ordered (sort criteria) (List.filter (meets criteria) offers).
Proof.
  intros Hs. rewrite filterOffers_unfold, <- narrowed_meets.
  destruct (departureTime criteria) as [range |].
  - rewrite (filterR_pure _ (inDepartureWindow range)); [done |].
    eapply Forall_impl; [exact Hs |].
    intros o Ho. by apply departsWithin_total.
  - by rewrite filter_always.
Qed.

Lemma ordered_unknown (order : string) (l : list Offer) :
  order ∈ orders \/ ordered (Some order) l = Ok l.
Proof.
  exact (switch_default
           (Ok (Js.sort (fun a b => totalAmount a - totalAmount b) l))
           (Ok (Js.sort (fun a b => totalAmount b - totalAmount a) l))
           (Ok (Js.sort (fun a b => parsedDuration a - parsedDuration b) l))
           (Ok (Js.sort (fun a b => parsedDuration b - parsedDuration a) l))
           (sortByDeparture false l) (sortByDeparture true l) (Ok l) order).
Qed.

Lemma ordered_returned (order : option string) (l kept : list Offer) :
  ordered order l = Ok kept ->
  kept ≡ₚ l /\ ((forall s, order = Some s -> s ∉ orders) -> kept = l).
Proof.
  destruct order as [s |]; [| by intros [= <-]].
  destruct (ordered_unknown s l) as [Hk | Hd];
    [| rewrite Hd; by intros [= <-]].
  assert (Hn : (forall s', Some s = Some s' -> s' ∉ orders) -> kept = l)
    by (intros Hn; by destruct (Hn s eq_refl)).
  intros Hr. split; [| exact Hn]. clear Hn.
  unfold orders in Hk.
  repeat (apply elem_of_cons in Hk as [-> | Hk];
          [first [injection Hr as <-; apply sort_perm
                 | cbn [ordered] in Hr; unfold sortByDeparture in Hr;
                   destruct (_ && _); [done |];
                   injection Hr as <-; apply sort_perm] |]).
  by apply elem_of_nil in Hk.
Qed.

Lemma filterR_ok {A : Type} (p : A -> result bool) (l r : list A) :
  filterR p l = Ok r ->
  r = List.filter (fun x => match p x with Ok kept => kept | Throw _ => false end) l.
Proof.
  revert r. induction l as [| x l IH]; intros r; simpl.
  - by intros [= <-].
  - destruct (p x) as [b | e]; [| done].
    destruct (filterR p l) as [r' | e]; [| done].
    intros [= <-]. rewrite (IH r' eq_refl). by destruct b.
Qed.

(** X11. What [filterOffers] returns are exactly the offers that meet
    every criterion that is set.  Whenever it returns, on criteria of the
    form of [Criteria] (a window with its two ends, a list of airline
    codes, numbers as limits), the list returned is a rearrangement of the
    offers that meet the criteria: no offer is added, lost or repeated; and
    without one of the six known orders the offers stay in the order they
    came in. *)
Theorem filterOffers_keeps_what_meets
    (offers : list Offer) (criteria : Criteria) (kept : list Offer) :
  filterOffers offers criteria = Ok kept ->
  kept ≡ₚ List.filter (meets criteria) offers /\
  ((forall order, sort criteria = Some order -> order ∉ orders) ->
   kept = List.filter (meets criteria) offers).
Proof.
  rewrite filterOffers_unfold, <- narrowed_meets.
  destruct (departureTime criteria) as [range |].
  - destruct (filterR (departsWithin range) offers) as [filtered | e] eqn:E;
      [| done].
    apply filterR_ok in E. subst filtered. apply ordered_returned.
  - rewrite filter_always. apply ordered_returned.
Qed.
End FilteringFacts.

Section SortedFacts.
Import Js Filtering.
Context {A : Type} (cmp : A -> A -> Z) (key : A -> Z).

Lemma insertSorted_ascending (x : A) (l : list A) :
  (forall a b, a ∈ x :: l -> b ∈ x :: l -> cmp a b = key a - key b) ->
  ascending key l -> ascending key (insertSorted cmp x l).
Proof.
  unfold ascending. intros Hc Hl.
  induction Hl as [| y l Hl IH Hy]; simpl.
  - repeat constructor.
  - rewrite (Hc x y) by (rewrite !elem_of_cons; tauto).
    destruct (Z.leb_spec (key x - key y) 0) as [Hle | Hgt].
    + constructor; [by constructor |].
      constructor; [lia |].
      eapply Forall_impl; [exact Hy |]. simpl. intros b Hb. lia.
    + constructor.
      * apply IH. intros a b Ha Hb.
        apply Hc; rewrite !elem_of_cons in *; tauto.
      * assert (Hp : insertSorted cmp x l ≡ₚ x :: l) by apply insertSorted_perm.
        rewrite Hp. constructor; [lia | done].
Qed.

(** Sorting with the difference of a key as comparator puts the list in
    the order of the key. *)
Lemma sort_ascending (l : list A) :
  (forall a b, a ∈ l -> b ∈ l -> cmp a b = key a - key b) ->
  ascending key (Js.sort cmp l).
Proof.
  induction l as [| x l IH]; intros Hc.
  - constructor.
  - unfold Js.sort. simpl. fold (Js.sort cmp l).
    apply insertSorted_ascending.
    + intros a b Ha Hb. apply Hc.
      * rewrite elem_of_cons, (sort_elem cmp) in Ha. by apply elem_of_cons.
      * rewrite elem_of_cons, (sort_elem cmp) in Hb. by apply elem_of_cons.
    + apply IH. intros a b Ha Hb. apply Hc; by right.
Qed.
End SortedFacts.

Section SortedDescending.
Import Js Filtering.
Context {A : Type} (cmp : A -> A -> Z) (key : A -> Z).

Lemma sort_descending (l : list A) :
  (forall a b, a ∈ l -> b ∈ l -> cmp a b = key b - key a) ->
  descending key (Js.sort cmp l).
Proof.
  intros Hc.
  assert (Ha : ascending (fun a => - key a) (Js.sort cmp l)).
  { apply sort_ascending. intros a b Ha Hb. rewrite (Hc a b Ha Hb). lia. }
  unfold ascending, descending in *.
  induction Ha as [| x s Hs IH Hx]; constructor; [done |].
  eapply Forall_impl; [exact Hx |]. simpl. intros b Hb. lia.
Qed.

Lemma ascending_head (x : A) (l : list A) :
  ascending key (x :: l) -> forall y, y ∈ x :: l -> key x <= key y.
Proof.
  unfold ascending. intros Hs y Hy.
  apply StronglySorted_inv in Hs as [_ Hx].
  apply elem_of_cons in Hy as [-> | Hy]; [lia |].
  rewrite Forall_forall in Hx. by apply Hx.
Qed.
End SortedDescending.

Section OrderFacts.
Import Js Offers Filtering.
Context `{DateRuntime}.

Lemma filterR_subset {A : Type} (p : A -> result bool) (l r : list A) :
  filterR p l = Ok r -> forall x, x ∈ r -> x ∈ l.
Proof.
  revert r. induction l as [| y l IH]; intros r; simpl.
  - intros [= <-] x Hx. done.
  - destruct (p y) as [b | e]; [| done].
    destruct (filterR p l) as [r' | e]; [| done].
    intros [= <-] x Hx. destruct b.
    + apply elem_of_cons in Hx as [-> | Hx];
        [by left | right; by apply (IH _ eq_refl)].
    + right. by apply (IH _ eq_refl).
Qed.

Lemma narrowed_subset (criteria : Criteria) (l : list Offer) (x : Offer) :
  x ∈ narrowed criteria l -> x ∈ l.
Proof.
  unfold narrowed.
  destruct (maxConnections criteria) as [mc |];
  destruct (airlines criteria) as [[| code codes] |];
  destruct (maxPrice criteria) as [maxp |];
  destruct (minPrice criteria) as [minp |];
  destruct (maxDuration criteria) as [maxd |];
  cbv zeta;
  repeat match goal with
         | |- context [if ?b then _ else _] => destruct b
         end;
  rewrite ?filter_elem; tauto.
Qed.

Lemma cmpDeparture_known (a b : Offer) :
  departureKnown a = true -> departureKnown b = true ->
  cmpDeparture a b = departureKey a - departureKey b.
Proof.
  unfold departureKnown, cmpDeparture, departureKey.
  destruct (departure a) as [[x |] | e]; try done.
  by destruct (departure b) as [[y |] | e].
Qed.

Lemma sortByDeparture_sorted (flip : bool) (l kept : list Offer) :
  Forall (fun o => departureKnown o = true) l ->
  sortByDeparture flip l = Ok kept ->
  if flip then descending departureKey kept else ascending departureKey kept.
Proof.
  intros Hk. rewrite Forall_forall in Hk.
  unfold sortByDeparture. destruct (_ && _); [done |].
  intros [= <-]. destruct flip.
  - apply sort_descending. intros a b Ha Hb. apply cmpDeparture_known; auto.
  - apply sort_ascending. intros a b Ha Hb. apply cmpDeparture_known; auto.
Qed.

(** X12. The order asked for is the order returned.  What [filterOffers]
    returns is in ascending order of the total amount for [price_low] and
    in descending order for [price_high]; in ascending and descending order
    of the duration the filter reads for [duration_short] and
    [duration_long]; and, when the first slice of every offer carries a
    valid departure date, in ascending and descending order of the
    departure for [departure_early] and [departure_late]. *)
Theorem filterOffers_orders_as_asked
    (offers : list Offer) (criteria : Criteria) (kept : list Offer) :
  filterOffers offers criteria = Ok kept ->
  (sort criteria = Some "price_low" -> ascending totalAmount kept) /\
  (sort criteria = Some "price_high" -> descending totalAmount kept) /\
  (sort criteria = Some "duration_short" -> ascending parsedDuration kept) /\
  (sort criteria = Some "duration_long" -> descending parsedDuration kept) /\
  (Forall (fun o => departureKnown o = true) offers ->
   (sort criteria = Some "departure_early" -> ascending departureKey kept) /\
   (sort criteria = Some "departure_late" -> descending departureKey kept)).
Proof.
  rewrite filterOffers_unfold.
  set (timed := match departureTime criteria with
                | Some range => filterR (departsWithin range) offers
                | None => Ok offers
                end).
  assert (Hsub : forall filtered, timed = Ok filtered ->
                 forall x, x ∈ filtered -> x ∈ offers).
  { subst timed. destruct (departureTime criteria) as [range |].
    - apply filterR_subset.
    - by intros filtered [= <-]. }
  destruct timed as [filtered | e]; [| done].
  specialize (Hsub filtered eq_refl).
  intros Hk. split; [| split; [| split; [| split; [| intros Hd; split]]]].
  - intros E. rewrite E in Hk. injection Hk as <-. by apply sort_ascending.
  - intros E. rewrite E in Hk. injection Hk as <-. by apply sort_descending.
  - intros E. rewrite E in Hk. injection Hk as <-. by apply sort_ascending.
  - intros E. rewrite E in Hk. injection Hk as <-. by apply sort_descending.
  - intros E. rewrite E in Hk.
    apply (sortByDeparture_sorted false (narrowed criteria filtered)); [| done].
    rewrite Forall_forall in *. intros o Ho.
    by apply Hd, Hsub, (narrowed_subset criteria).
  - intros E. rewrite E in Hk.
    apply (sortByDeparture_sorted true (narrowed criteria filtered)); [| done].
    rewrite Forall_forall in *. intros o Ho.
    by apply Hd, Hsub, (narrowed_subset criteria).
Qed.
End OrderFacts.

Section SelectExtremes.
Import Js Offers Filtering.
Context `{DateRuntime}.

Lemma same_id_same_offer (offers : list Offer) (a b : Offer) :
  NoDup (map id offers) -> a ∈ offers -> b ∈ offers -> id a = id b -> a = b.
Proof.
  induction offers as [| o os IH]; simpl; intros Hnd Ha Hb E.
  - by apply elem_of_nil in Ha.
  - apply NoDup_cons in Hnd as [Ho Hnd].
    apply elem_of_cons in Ha as [-> | Ha], Hb as [-> | Hb].
    + done.
    + exfalso. apply Ho. rewrite E. by apply list_elem_of_fmap_2.
    + exfalso. apply Ho. rewrite <- E. by apply list_elem_of_fmap_2.
    + by apply IH.
Qed.

(** The head of the sorted list is in the selection afterwards: pushed, or
    selected before. *)
Lemma pushUnique_head (offers sorted rest selected : list Offer) (o : Offer) :
  NoDup (map id offers) -> o ∈ offers ->
  (forall x, x ∈ selected -> x ∈ offers) ->
  sorted = o :: rest ->
  o ∈ pushUnique sorted selected.
Proof.
  intros Hnd Ho Hsel ->. unfold pushUnique. simpl.
  destruct (unselected selected o) eqn:Hu.
  - apply elem_of_app. right. by left.
  - assert (Hin : id o ∈ map id selected).
    { destruct (decide (id o ∈ map id selected)) as [Hin | Hnin]; [done |].
      apply unselected_spec in Hnin. congruence. }
    apply list_elem_of_fmap in Hin as (x & E & Hx).
    assert (x = o) as ->.
    { apply (same_id_same_offer offers); auto. }
    destruct (List.find _ rest); [apply elem_of_app; by left | done].
Qed.

Lemma pushUnique_length (sorted selected : list Offer) :
  (length (pushUnique sorted selected) <= S (length selected))%nat.
Proof.
  unfold pushUnique. destruct (List.find _ sorted); [| lia].
  rewrite length_app. simpl. lia.
Qed.

Lemma elem_of_take_app {A : Type} (x : A) (s more : list A) (n : nat) :
  x ∈ s -> (length s <= n)%nat -> x ∈ take n (s ++ more).
Proof.
  intros Hx Hn. apply list_elem_of_lookup in Hx as (i & Hi).
  apply list_elem_of_lookup. exists i.
  pose proof (lookup_lt_Some _ _ _ Hi) as Hlt.
  rewrite lookup_take_lt by lia. by apply lookup_app_l_Some.
Qed.

(** X13. A selection of two or more holds one of the fastest offers, and a
    selection of three or more one of the earliest: when more than [n]
    offers with distinct ids are given, the [n] offers selected include,
    for [n >= 2], an offer of the least total duration and, for [n >= 3]
    and valid departure dates, an offer of the earliest departure. *)
Theorem selectDiverseOffers_covers_extremes
    (offers : list Offer) (n : nat) (selected : list Offer) :
  NoDup (map id offers) ->
  Forall (fun o => slices o <> []) offers ->
  (n < length offers)%nat ->
  selectDiverseOffers offers n = Ok selected ->
  ((2 <= n)%nat ->
   exists fastest,
     fastest ∈ selected /\
     forall o, o ∈ offers -> totalDuration fastest <= totalDuration o) /\
  ((3 <= n)%nat ->
   Forall (fun o => departureKnown o = true) offers ->
   exists earliest,
     earliest ∈ selected /\
     forall o, o ∈ offers -> departureKey earliest <= departureKey o).
Proof.
  intros Hnd Hs Hn. unfold selectDiverseOffers.
  destruct (Nat.leb_spec (length offers) n) as [Hle | _]; [lia |].
  rewrite (sortByDeparture_ok offers Hs).
  set (amount := fun a b : Offer => totalAmount a - totalAmount b).
  set (minutes := fun a b : Offer => totalDuration a - totalDuration b).
  destruct (Js.sort amount offers) as [| cheapest others] eqn:E.
  { pose proof (sort_length amount offers) as Hl. rewrite E in Hl. simpl in Hl. lia. }
  assert (Hcheap : forall x, x ∈ [cheapest] -> x ∈ offers).
  { intros x ->%list_elem_of_singleton. apply (sort_elem amount). rewrite E. by left. }
  set (s1 := pushUnique (Js.sort minutes offers) [cheapest]).
  set (s2 := pushUnique (Js.sort cmpDeparture offers) s1).
  assert (H1 : forall x, x ∈ s1 -> x ∈ offers).
  { apply (wellSelected_pushUnique offers).
    - intros o. by rewrite sort_elem.
    - split; [apply NoDup_singleton | done]. }
  assert (L1 : (length s1 <= 2)%nat).
  { pose proof (pushUnique_length (Js.sort minutes offers) [cheapest]) as L.
    simpl in L. done. }
  assert (L2 : (length s2 <= 3)%nat).
  { pose proof (pushUnique_length (Js.sort cmpDeparture offers) s1) as L.
    fold s2 in L. lia. }
  destruct (pushUnique_extends (Js.sort cmpDeparture offers) s1) as (m2 & E2).
  fold s2 in E2.
  destruct (fill_extends offers n s2) as (m3 & E3).
  intros [= <-]. unfold sliceFirst. rewrite E3. split.
  - intros Hn2.
    destruct (Js.sort minutes offers) as [| fastest rest] eqn:Ef.
    { pose proof (sort_length minutes offers) as Hl. rewrite Ef in Hl. simpl in Hl. lia. }
    assert (Hf : fastest ∈ offers).
    { apply (sort_elem minutes). rewrite Ef. by left. }
    exists fastest. split.
    + rewrite E2, <- app_assoc. apply elem_of_take_app; [| lia].
      by apply (pushUnique_head offers _ rest).
    + exact (sort_head_least totalDuration offers fastest rest Ef).
  - intros Hn3 Hk.
    destruct (Js.sort cmpDeparture offers) as [| earliest rest] eqn:Ee.
    { pose proof (sort_length cmpDeparture offers) as Hl. rewrite Ee in Hl.
      simpl in Hl. lia. }
    assert (He : earliest ∈ offers).
    { apply (sort_elem cmpDeparture). rewrite Ee. by left. }
    exists earliest. split.
    + apply elem_of_take_app; [| lia].
      by apply (pushUnique_head offers _ rest).
    + intros o Ho.
      apply (ascending_head departureKey earliest rest).
      * rewrite <- Ee. apply sort_ascending.
        rewrite Forall_forall in Hk.
        intros a b Ha Hb. apply cmpDeparture_known; auto.
      * rewrite <- Ee. by apply sort_elem.
Qed.
End SelectExtremes.

(** ** Time ranges *)
Section ClockFacts.
Import Js Clock.

Lemma timeRegexTest_isClock (s : string) : Validation.timeRegexTest s = isClock s.
Proof.
  unfold Validation.timeRegexTest, isClock.
  repeat first
    [ reflexivity
    | match goal with
      | |- context [match ?x with _ => _ end] => is_var x; destruct x
      end ].
  by destruct (Validation.inRange 48 49 a), (Ascii.eqb a "2").
Qed.

Lemma digit_cases (lo hi : nat) (c : ascii) :
  (48 <= lo)%nat -> (hi <= 57)%nat ->
  Validation.inRange lo hi c = true ->
  exists d : nat, (lo - 48 <= d <= hi - 48)%nat /\ c = ascii_of_nat (48 + d).
Proof.
  unfold Validation.inRange. intros Hlo Hhi [H1 H2]%andb_true_iff.
  apply Nat.leb_le in H1, H2.
  exists (nat_of_ascii c - 48)%nat. split; [lia |].
  replace (48 + (nat_of_ascii c - 48))%nat with (nat_of_ascii c) by lia.
  by rewrite ascii_nat_embedding.
Qed.

Lemma isDigit_inRange (c : ascii) : isDigit c = Validation.inRange 48 57 c.
Proof. reflexivity. Qed.

(** The two-digit numerals. *)
Lemma two_digits (a b : nat) :
  (a <= 9)%nat -> (b <= 9)%nat ->
  String (ascii_of_nat (48 + a)) (String (ascii_of_nat (48 + b)) "") =
    two (10 * a + b).
Proof.
  intros Ha Hb.
  assert (E : forallb (fun a => forallb (fun b =>
            String.eqb
              (String (ascii_of_nat (48 + a)) (String (ascii_of_nat (48 + b)) ""))
              (two (10 * a + b))) (seq 0 10)) (seq 0 10) = true)
    by (vm_compute; reflexivity).
  rewrite forallb_forall in E. specialize (E a).
  rewrite forallb_forall in E. apply String.eqb_eq, E; apply in_seq; lia.
Qed.

Lemma one_digit (a : nat) :
  (a <= 9)%nat -> String (ascii_of_nat (48 + a)) "" = showNat a.
Proof.
  intros Ha.
  assert (E : forallb (fun a =>
            String.eqb (String (ascii_of_nat (48 + a)) "") (showNat a))
            (seq 0 10) = true) by (vm_compute; reflexivity).
  rewrite forallb_forall in E. apply String.eqb_eq, E, in_seq. lia.
Qed.

(** Every string [timeRegex] accepts is a time of the day. *)
Lemma isClock_clock (s : string) :
  isClock s = true ->
  exists padded h m, (h < 24)%nat /\ (m < 60)%nat /\ s = clock padded h m.
Proof.
  unfold isClock.
  destruct s as [| a [| b [| c [| d rest]]]]; try done.
  destruct (Ascii.eqb_spec b ":") as [-> | Hb].
  - destruct rest; [| done].
    rewrite isDigit_inRange.
    intros [[Ha Hc]%andb_true_iff Hd]%andb_true_iff.
    rewrite isDigit_inRange in Hd.
    apply digit_cases in Ha as (h & Hh & ->); [| lia | lia].
    apply digit_cases in Hc as (m1 & Hm1 & ->); [| lia | lia].
    apply digit_cases in Hd as (m2 & Hm2 & ->); [| lia | lia].
    exists false, h, (10 * m1 + m2)%nat. split; [lia | split; [lia |]].
    unfold clock. rewrite <- two_digits, <- one_digit by lia. reflexivity.
  - destruct rest as [| e [| ? ?]]; try done.
    intros [[[Hc Hh]%andb_true_iff Hd]%andb_true_iff He]%andb_true_iff.
    apply Ascii.eqb_eq in Hc as ->.
    rewrite isDigit_inRange in He.
    apply digit_cases in Hd as (m1 & Hm1 & ->); [| lia | lia].
    apply digit_cases in He as (m2 & Hm2 & ->); [| lia | lia].
    apply orb_true_iff in Hh as [[Ha Hb']%andb_true_iff | [Ha Hb']%andb_true_iff].
    + rewrite isDigit_inRange in Hb'.
      apply digit_cases in Ha as (h1 & Hh1 & ->); [| lia | lia].
      apply digit_cases in Hb' as (h2 & Hh2 & ->); [| lia | lia].
      exists true, (10 * h1 + h2)%nat, (10 * m1 + m2)%nat.
      split; [lia | split; [lia |]].
      unfold clock. rewrite <- !two_digits by lia. reflexivity.
    + apply Ascii.eqb_eq in Ha as ->.
      apply digit_cases in Hb' as (h2 & Hh2 & ->); [| lia | lia].
      exists true, (10 * 2 + h2)%nat, (10 * m1 + m2)%nat.
      split; [lia | split; [lia |]].
      unfold clock. rewrite <- !two_digits by lia. reflexivity.
Qed.

(** Every time of the day is a string [timeRegex] accepts, and
    [timeToMinutes] gives the minutes since midnight. *)
Lemma clock_isClock (padded : bool) (h m : nat) :
  (h < 24)%nat -> (m < 60)%nat ->
  isClock (clock padded h m) = true /\
  Validation.timeToMinutes (clock padded h m) = 60 * Z.of_nat h + Z.of_nat m.
Proof.
  intros Hh Hm.
  assert (E : forall p, forallb (fun h => forallb (fun m =>
            isClock (clock p h m) &&
            Z.eqb (Validation.timeToMinutes (clock p h m))
                  (60 * Z.of_nat h + Z.of_nat m))
            (seq 0 60)) (seq 0 24) = true)
    by (intros []; vm_compute; reflexivity).
  specialize (E padded).
  rewrite forallb_forall in E. specialize (E h).
  rewrite forallb_forall in E. specialize (E ltac:(apply in_seq; lia) m).
  apply andb_true_iff in E as [E1 E2]; [| apply in_seq; lia].
  split; [done | by apply Z.eqb_eq].
Qed.

(** No error is reported exactly on two times the regular expression
    accepts, the first earlier than the second. *)
Lemma validateTimeRange_nil (range : Validation.TimeRange) (field : string) :
  Validation.validateTimeRange range field = [] <->
  exists f t,
    Validation.from range = Some f /\ Validation.to range = Some t /\
    Validation.timeRegexTest f = true /\ Validation.timeRegexTest t = true /\
    Validation.timeToMinutes f < Validation.timeToMinutes t.
Proof.
  unfold Validation.validateTimeRange, Validation.missing.
  destruct (Validation.from range) as [f |], (Validation.to range) as [t |];
    simpl; try (split; [done | by intros (? & ? & ? & ? & _)]).
  - destruct (String.eqb_spec f "") as [-> | Hf]; simpl.
    { split; [done |]. intros (? & ? & [= <-] & _ & ? & _). done. }
    destruct (String.eqb_spec t "") as [-> | Ht]; simpl.
    { split; [done |]. intros (? & ? & _ & [= <-] & _ & ? & _). done. }
    destruct (Validation.timeRegexTest f) eqn:Ef; simpl;
      [| split; [done | intros (? & ? & [= <-] & _ & ? & _); congruence]].
    destruct (Validation.timeRegexTest t) eqn:Et; simpl;
      [| split; [done | intros (? & ? & _ & [= <-] & _ & ? & _); congruence]].
    destruct (Z.leb_spec (Validation.timeToMinutes t) (Validation.timeToMinutes f)).
    + split; [done |]. intros (? & ? & [= <-] & [= <-] & _ & _ & ?). lia.
    + split; [| done]. intros _. exists f, t. repeat split; try done.
  - destruct (negb _); split; try done; by intros (? & ? & ? & ? & _).
Qed.

(** X14. [validateTimeRange] accepts a range exactly when both ends are
    times of the day, written [h:mm] or [hh:mm] with the hour below 24 and
    the minute below 60, and the start is strictly earlier than the end; a
    window that runs over midnight is rejected. *)
Theorem validateTimeRange_accepts_day_windows
    (range : Validation.TimeRange) (field : string) :
  Validation.validateTimeRange range field = [] <->
  exists p1 h1 m1 p2 h2 m2,
    (h1 < 24 /\ m1 < 60 /\ h2 < 24 /\ m2 < 60)%nat /\
    Validation.from range = Some (clock p1 h1 m1) /\
    Validation.to range = Some (clock p2 h2 m2) /\
    (60 * h1 + m1 < 60 * h2 + m2)%nat.
Proof.
  rewrite validateTimeRange_nil. split.
  - intros (f & t & Ef & Et & Hf & Ht & Hlt).
    rewrite timeRegexTest_isClock in Hf, Ht.
    apply isClock_clock in Hf as (p1 & h1 & m1 & Hh1 & Hm1 & ->).
    apply isClock_clock in Ht as (p2 & h2 & m2 & Hh2 & Hm2 & ->).
    destruct (clock_isClock p1 h1 m1 Hh1 Hm1) as [_ E1].
    destruct (clock_isClock p2 h2 m2 Hh2 Hm2) as [_ E2].
    exists p1, h1, m1, p2, h2, m2. repeat split; try done. lia.
  - intros (p1 & h1 & m1 & p2 & h2 & m2 & (Hh1 & Hm1 & Hh2 & Hm2) & Ef & Et & Hlt).
    destruct (clock_isClock p1 h1 m1 Hh1 Hm1) as [C1 E1].
    destruct (clock_isClock p2 h2 m2 Hh2 Hm2) as [C2 E2].
    exists (clock p1 h1 m1), (clock p2 h2 m2).
    rewrite !timeRegexTest_isClock. repeat split; try done. lia.
Qed.

(** The overnight window of a red-eye flight is no valid range. *)
Example overnight_range_rejected :
  Validation.validateTimeRange
    {| Validation.from := Some "23:00"; Validation.to := Some "05:00" |}
    "departureTime" <> [].
Proof. vm_compute. discriminate. Qed.
End ClockFacts.

(** ** The search parameters *)
Section FlightSearchFacts.
Import Js FlightSearch.
Context `{DateRuntime}.

Lemma isValidTimeRange_true (range : Validation.TimeRange) :
  isValidTimeRange range = true <->
  exists f t,
    Validation.from range = Some f /\ Validation.to range = Some t /\
    Validation.timeRegexTest f = true /\ Validation.timeRegexTest t = true /\
    Validation.timeToMinutes f < Validation.timeToMinutes t.
Proof.
  unfold isValidTimeRange, Validation.missing.
  destruct (Validation.from range) as [f |], (Validation.to range) as [t |];
    simpl; try (split; [done | by intros (? & ? & ? & ? & _)]).
  - destruct (String.eqb_spec f "") as [-> | Hf]; simpl.
    { split; [done |]. intros (? & ? & [= <-] & _ & ? & _). done. }
    destruct (String.eqb_spec t "") as [-> | Ht]; simpl.
    { split; [done |]. intros (? & ? & _ & [= <-] & _ & ? & _). done. }
    destruct (Validation.timeRegexTest f) eqn:Ef; simpl;
      [| split; [done | intros (? & ? & [= <-] & _ & ? & _); congruence]].
    destruct (Validation.timeRegexTest t) eqn:Et; simpl;
      [| split; [done | intros (? & ? & _ & [= <-] & _ & ? & _); congruence]].
    rewrite Z.ltb_lt. split.
    + intros Hlt. exists f, t. repeat split; done.
    + by intros (? & ? & [= <-] & [= <-] & _ & _ & ?).
  - destruct (negb _); split; try done; by intros (? & ? & ? & ? & _).
Qed.

(** X15. The two checks of a time range agree: [isValidTimeRange] of the
    search parameters accepts a range exactly when [validateTimeRange] of
    the validation service reports no error on it. *)
Theorem isValidTimeRange_agrees (range : Validation.TimeRange) (field : string) :
  isValidTimeRange range = true <-> Validation.validateTimeRange range field = [].
Proof. by rewrite isValidTimeRange_true, validateTimeRange_nil. Qed.

Lemma validateDates_ok (today : Z) (params : Validation.Params) :
  Validation.validateDates today params = [] ->
  exists depDate,
    truthyStr (Validation.departureDate params) = true /\
    Validation.newDate (Validation.departureDate params) = Some depDate /\
    today <= depDate /\
    (strictEq (Validation.type params) (Some "round_trip") = true ->
     truthyStr (Validation.returnDate params) = true ->
     exists retDate,
       Validation.newDate (Validation.returnDate params) = Some retDate /\
       depDate < retDate).
Proof.
  unfold Validation.validateDates, Validation.missing.
  destruct (truthyStr (Validation.departureDate params)); [| done]. simpl.
  destruct (Validation.newDate (Validation.departureDate params)) as [depDate |];
    [| done].
  destruct (Z.ltb_spec depDate today); [done |]. simpl.
  intros E. exists depDate. repeat split; try done.
  intros Ht Hr. rewrite Ht, Hr in E. simpl in E.
  destruct (Validation.newDate (Validation.returnDate params)) as [retDate |];
    [| done].
  exists retDate. split; [done |].
  destruct (Z.leb_spec retDate depDate); [done | lia].
Qed.

(** The counts [validatePassengers] accepts. *)
Lemma validatePassengers_ok (p : Validation.Passengers) :
  Validation.validatePassengers (Some p) = [] <->
  1 <= default 0 (Validation.adults p) /\
  0 <= default 0 (Validation.children p) /\
  0 <= default 0 (Validation.infants p) /\
  default 0 (Validation.adults p) + default 0 (Validation.children p) +
    default 0 (Validation.infants p) <= 9 /\
  default 0 (Validation.infants p) <= default 0 (Validation.adults p).
Proof.
  unfold Validation.validatePassengers. cbv zeta.
  set (a := default 0 (Validation.adults p)).
  set (c := default 0 (Validation.children p)).
  set (i := default 0 (Validation.infants p)).
  destruct (Z.ltb_spec a 1), (Z.ltb_spec c 0), (Z.ltb_spec i 0),
    (Z.ltb_spec 9 (a + c + i)), (Z.ltb_spec a i); simpl;
    split; try done; lia.
Qed.

Lemma createSlice_ok (o d date : option string)
    (departs arrives : option Validation.TimeRange) (slice : DuffelSlice) :
  createSlice o d date departs arrives = Ok slice ->
  formattable date = true /\
  slice_origin slice = o /\ slice_destination slice = d /\
  departure_time slice = departs /\ arrival_time slice = arrives.
Proof.
  unfold createSlice, formatDate, formattable.
  destruct date as [s |]; [| done].
  destruct (isIsoDate s); simpl.
  - by intros [= <-].
  - destruct (parse s) as [t |] eqn:E; [| done].
    intros [= <-]. repeat split; done.
Qed.

Lemma createSlice_formattable (o d date : option string)
    (departs arrives : option Validation.TimeRange) :
  formattable date = true ->
  exists slice, createSlice o d date departs arrives = Ok slice.
Proof.
  unfold createSlice, formatDate, formattable.
  destruct date as [s |]; [| done].
  destruct (isIsoDate s); simpl; [eauto |].
  intros [t Ht]%bool_decide_eq_true. rewrite Ht. eauto.
Qed.

Lemma createSlice_unformattable (o d date : option string)
    (departs arrives : option Validation.TimeRange) :
  formattable date = false ->
  createSlice o d date departs arrives = Throw (Error "Invalid time value").
Proof.
  unfold createSlice, formatDate, formattable.
  destruct date as [s |]; [| done].
  destruct (isIsoDate s); simpl; [done |].
  intros Hn%bool_decide_eq_false.
  destruct (parse s) as [t |]; [| done]. exfalso. apply Hn. eauto.
Qed.

Lemma newDate_formattable (date : option string) (t : Z) :
  Validation.newDate date = Some t -> formattable date = true.
Proof.
  unfold Validation.newDate, formattable. destruct date as [s |]; [| done].
  intros E. apply orb_true_iff. right. apply bool_decide_eq_true. by rewrite E.
Qed.

Lemma stopSlices_ok (stops : list Stop.t) (more : list DuffelSlice) :
  stopSlices stops = Ok more ->
  Forall (fun stop => formattable (Stop.departureDate stop) = true) stops /\
  map (fun slice => (slice_origin slice, slice_destination slice)) more =
    map (fun stop => (Stop.origin stop, Stop.destination stop)) stops.
Proof.
  revert more. induction stops as [| stop rest IH]; intros more; simpl.
  - intros [= <-]. split; [constructor | done].
  - destruct (createSlice _ _ _ _ _) as [slice | e] eqn:Es; [| done].
    destruct (stopSlices rest) as [more' | e]; [| done].
    intros [= <-]. apply createSlice_ok in Es as (Hf & Ho & Hd & _).
    destruct (IH more' eq_refl) as [Hrest Hmap].
    split; [by constructor |]. simpl. by rewrite Ho, Hd, Hmap.
Qed.

Lemma stopSlices_formattable (stops : list Stop.t) :
  Forall (fun stop => formattable (Stop.departureDate stop) = true) stops ->
  exists more, stopSlices stops = Ok more.
Proof.
  induction 1 as [| stop rest Hs _ (more & E)]; simpl; [eauto |].
  destruct (createSlice_formattable (Stop.origin stop) (Stop.destination stop)
              (Stop.departureDate stop) (Stop.departureTime stop) None Hs)
    as (slice & ->).
  rewrite E. eauto.
Qed.

Lemma length_legs (search : FlightSearchParams) :
  length (legs search) = sliceCount search.
Proof.
  unfold legs, sliceCount.
  destruct (String.eqb (type search) "round_trip"); [done |].
  destruct (String.eqb (type search) "multi_city"); [| done].
  simpl. by rewrite length_map.
Qed.

(** What [validate] has checked when it reports nothing. *)
Lemma validate_round_trip (today : Z) (search : FlightSearchParams) :
  validate today search = [] ->
  String.eqb (type search) "round_trip" = true ->
  truthyStr (returnDate search) = true.
Proof.
  unfold validate. cbv zeta. intros Hv Ht. rewrite Ht in Hv.
  destruct (Validation.missing (origin search)); [done |].
  destruct (Validation.missing (destination search)); [done |].
  destruct (Validation.missing (departureDate search)); [done |].
  destruct (numLt _ _); [done |]. simpl in Hv.
  unfold Validation.missing in Hv.
  by destruct (truthyStr (returnDate search)).
Qed.

(** X17. The slices of the request follow the legs of the search.  When
    [toDuffelFormat] returns, the slices are the outbound leg followed by
    the way back from the destination to the origin for a round trip, or by
    the additional stops in their order for a multi-city search, and by
    nothing otherwise; on a round trip both slices carry the departure and
    arrival windows of the search. *)
Theorem toDuffelFormat_legs
    (today : Z) (search : FlightSearchParams) (request : DuffelRequest) :
  toDuffelFormat today search = Ok request ->
  map (fun slice => (slice_origin slice, slice_destination slice))
      (slices request) = legs search /\
  (type search = "round_trip" ->
   Forall (fun slice => departure_time slice = departureTime search /\
                        arrival_time slice = arrivalTime search)
          (slices request)).
Proof.
  unfold toDuffelFormat. cbv zeta.
  destruct (validate today search) as [| e errors] eqn:Hv; [| done].
  cbn [length Nat.ltb Nat.leb].
  destruct (buildSlices search) as [built |] eqn:Hb; [| done].
  intros [= <-]. cbn [slices].
  unfold buildSlices in Hb.
  destruct (createSlice (origin search) _ _ _ _) as [outbound |] eqn:Eo; [| done].
  apply createSlice_ok in Eo as (_ & Oo & Od & Ot & Oa).
  unfold legs.
  destruct (String.eqb (type search) "round_trip") eqn:Ert.
  - rewrite (validate_round_trip today search Hv Ert) in Hb. cbn [andb] in Hb.
    destruct (createSlice (destination search) _ _ _ _) as [back |] eqn:Eb;
      [| done].
    apply createSlice_ok in Eb as (_ & Bo & Bd & Bt & Ba).
    apply String.eqb_eq in Ert. rewrite Ert in Hb. simpl in Hb.
    injection Hb as <-. split.
    + simpl. by rewrite Oo, Od, Bo, Bd.
    + intros _. repeat constructor; done.
  - cbn [andb] in Hb.
    assert (Hrt : type search <> "round_trip") by by apply String.eqb_neq.
    destruct (String.eqb (type search) "multi_city").
    + destruct (stopSlices (additionalStops search)) as [more |] eqn:Em; [| done].
      injection Hb as <-. apply stopSlices_ok in Em as [_ Hmap].
      split; [| done]. simpl. by rewrite Oo, Od, Hmap.
    + injection Hb as <-. split; [| done]. simpl. by rewrite Oo, Od.
Qed.

Lemma app_nil_inv {A : Type} (l1 l2 : list A) : l1 ++ l2 = [] -> l1 = [] /\ l2 = [].
Proof. by destruct l1. Qed.

Lemma strictEq_type (t lit : string) :
  strictEq (Some t) (Some lit) = String.eqb t lit.
Proof.
  unfold strictEq. destruct (String.eqb_spec t lit) as [-> | Hne].
  - by apply bool_decide_eq_true.
  - apply bool_decide_eq_false. congruence.
Qed.

(** X16. A search that [validateFlightSearch] accepts converts, unless a
    stop has no usable date.  When the validation service reports no error
    on the search parameters, [toDuffelFormat] passes its own validation;
    it returns a request exactly when the departure dates of the additional
    stops of a multi-city search are dates [formatDate] accepts, and throws
    the error of an invalid date otherwise.  The request has two slices for
    a round trip, one per leg for a multi-city search and one otherwise,
    and between one and nine passengers. *)
Theorem validated_search_converts
    (now today : Z) (search : FlightSearchParams) :
  Validation.errors (Validation.validateFlightSearch now today (asParams search)) = [] ->
  ((type search = "multi_city" ->
    Forall (fun stop => formattable (Stop.departureDate stop) = true)
           (additionalStops search)) ->
   exists request,
     toDuffelFormat today search = Ok request /\
     length (slices request) = sliceCount search /\
     (1 <= length (request_passengers request) <= 9)%nat) /\
  (type search = "multi_city" ->
   Exists (fun stop => formattable (Stop.departureDate stop) = false)
          (additionalStops search) ->
   toDuffelFormat today search = Throw (Error "Invalid time value")).
Proof.
  intros Hv. unfold Validation.validateFlightSearch in Hv.
  cbn [Validation.errors] in Hv.
  cbn [asParams Validation.origin Validation.destination Validation.departureTime
       Validation.arrivalTime Validation.type Validation.returnDate
       Validation.passengers Validation.maxConnections] in Hv.
  apply app_nil_inv in Hv as [Ho Hv].
  apply app_nil_inv in Hv as [Hd Hv].
  apply app_nil_inv in Hv as [_ Hv].
  apply app_nil_inv in Hv as [Hdates Hv].
  apply app_nil_inv in Hv as [Hdep Hv].
  apply app_nil_inv in Hv as [Harr Hv].
  apply app_nil_inv in Hv as [Hret Hv].
  apply app_nil_inv in Hv as [Hmulti Hv].
  apply app_nil_inv in Hv as [Hpass _].
  apply validateDates_ok in Hdates as (depDate & Hdt & Hdp & Htoday & Hback).
  cbn [asParams Validation.departureDate Validation.returnDate Validation.type]
    in Hdt, Hdp, Hback.
  rewrite strictEq_type in Hret, Hmulti, Hback.
  apply validatePassengers_ok in Hpass as (Ha & Hc & Hi & Hsum & _).
  assert (Eo : Validation.missing (origin search) = false).
  { by destruct (Validation.missing (origin search)). }
  assert (Ed : Validation.missing (destination search) = false).
  { by destruct (Validation.missing (destination search)). }
  assert (Edd : Validation.missing (departureDate search) = false).
  { unfold Validation.missing. by rewrite Hdt. }
  assert (Et : forall range (text field : string),
            Validation.validateTimeRange range field = [] ->
            (if negb (isValidTimeRange range) then [text] else []) = []).
  { intros range text field E.
    apply validateTimeRange_nil, isValidTimeRange_true in E. by rewrite E. }
  assert (Hvalid : validate today search = []).
  { unfold validate. rewrite Eo, Ed, Edd, Hdp. cbn [numLt app].
    destruct (Z.ltb_spec depDate today); [lia |]. cbn [app].
    assert (E1 : (if String.eqb (type search) "round_trip"
                  then if Validation.missing (returnDate search)
                       then ["Return date is required for round-trip flights"]
                       else if numLe (Validation.newDate (returnDate search))
                                     (Some depDate)
                            then ["Return date must be after departure date"]
                            else []
                  else []) = []).
    { destruct (String.eqb (type search) "round_trip"); [| done].
      simpl in Hret. unfold Validation.missing in *.
      destruct (truthyStr (returnDate search)); [| done]. simpl.
      destruct (Hback eq_refl eq_refl) as (retDate & -> & Hlt). simpl.
      destruct (Z.leb_spec retDate depDate); [lia | done]. }
    rewrite E1. cbn [app].
    assert (E2 : (if String.eqb (type search) "multi_city" &&
                     (length (additionalStops search) =? 0)%nat
                  then ["Multi-city trips require at least one additional stop"]
                  else []) = []).
    { destruct (String.eqb (type search) "multi_city"); [| done].
      unfold Validation.validateMultiCity in Hmulti.
      cbn [asParams Validation.additionalStops] in Hmulti.
      by destruct (additionalStops search). }
    rewrite E2. cbn [app].
    destruct (departureTime search) as [range |];
      [rewrite (Et range "Invalid departure time range" "departureTime" Hdep) |];
      (destruct (arrivalTime search) as [range' |];
        [by rewrite (Et range' "Invalid arrival time range" "arrivalTime" Harr) | done]). }
  assert (Hout : exists outbound,
            createSlice (origin search) (destination search) (departureDate search)
                        (departureTime search) (arrivalTime search) = Ok outbound).
  { apply createSlice_formattable. by apply (newDate_formattable _ depDate). }
  destruct Hout as (outbound & Eout).
  unfold toDuffelFormat. rewrite Hvalid. cbn [length Nat.ltb Nat.leb].
  unfold buildSlices. rewrite Eout.
  destruct (String.eqb_spec (type search) "round_trip") as [Ert | Nrt].
  - split; [| intros Emc; congruence].
    intros _. unfold sliceCount. rewrite Ert in *. simpl in Hret.
    unfold Validation.missing in Hret.
    destruct (truthyStr (returnDate search)) eqn:Etr; [| done].
    destruct (Hback eq_refl eq_refl) as (retDate & Hr & _).
    destruct (createSlice_formattable (destination search) (origin search)
                (returnDate search) (departureTime search) (arrivalTime search)
                (newDate_formattable _ _ Hr)) as (back & ->).
    simpl. eexists. split; [done |]. cbn [slices request_passengers].
    split; [done |].
    unfold formatPassengers. rewrite !length_app, !length_replicate.
    unfold count. lia.
  - cbn [andb]. unfold sliceCount.
    destruct (String.eqb_spec (type search) "round_trip"); [done |].
    destruct (String.eqb_spec (type search) "multi_city") as [Emc | Nmc].
    + split.
      * intros Hstops.
        destruct (stopSlices_formattable _ (Hstops Emc)) as (more & Em).
        rewrite Em. eexists. split; [done |]. cbn [slices request_passengers].
        split.
        -- apply stopSlices_ok in Em as [_ Hmap].
           apply (f_equal length) in Hmap. rewrite !length_map in Hmap.
           simpl. by rewrite Hmap.
        -- unfold formatPassengers. rewrite !length_app, !length_replicate.
           unfold count. lia.
      * intros _ Hbad.
        assert (Hthrow : stopSlices (additionalStops search) =
                         Throw (Error "Invalid time value")).
        { clear -Hbad. induction Hbad as [stop rest Hs | stop rest _ IH]; simpl.
          - by rewrite createSlice_unformattable.
          - destruct (formattable (Stop.departureDate stop)) eqn:Hf.
            + destruct (createSlice_formattable (Stop.origin stop)
                          (Stop.destination stop) (Stop.departureDate stop)
                          (Stop.departureTime stop) None Hf) as (slice & ->).
              by rewrite IH.
            + by rewrite createSlice_unformattable. }
        by rewrite Hthrow.
    + split; [| intros Emc; congruence].
      intros _. eexists. split; [done |]. cbn [slices request_passengers].
      split; [done |].
      unfold formatPassengers. rewrite !length_app, !length_replicate.
      unfold count. lia.
Qed.
End FlightSearchFacts.

(** ** Examples of the further properties *)
Section FurtherExamples.
Import Js Offers Filtering Normalise Sandbox Samples.

(** The two offers of [rawOffers] and a limit of two hours. *)
Lemma formatted_offers_ignore_duration_witness :
  let offers := default [] (match formatOffers hundredths rawOffers with
                            | Ok offers => Some offers
                            | Throw _ => None
                            end) in
  formatOffers hundredths rawOffers = Ok offers /\
  0 <= 120 /\
  filterOffers offers (durationOnly 120) = Ok offers /\
  filterOffers offers (sortOnly "duration_short") = Ok offers /\
  filterOffers offers (sortOnly "duration_long") = Ok offers.
Proof.
  intros offers.
  assert (E : formatOffers hundredths rawOffers = Ok offers) by reflexivity.
  assert (L : 0 <= 120) by lia.
  split; [exact E | split; [exact L |]].
  exact (formatted_offers_ignore_duration hundredths rawOffers offers 120 E L).
Defined.

(** The direct flight of two and a half hours passes a limit of two
    hours, and the canonical offers keep the minutes apart. *)
Example formatted_offer_durations :
  match formatOffers hundredths rawOffers with
  | Ok offers =>
      map (fun o => map duration (slices o)) offers =
        [[Some "2h 30m"]; [Some "P1DT1H"]] /\
      map (fun o => map durationMinutes (slices o)) offers = [[150]; [0]] /\
      map totalAmount offers = [18000; 9550]
  | Throw _ => False
  end.
Proof. vm_compute. repeat split. Qed.

Lemma filterOffers_keeps_what_meets_witness :
  let kept := [noon; halfPastNoon; morning] in
  filterOffers fourOffers cheapFirst = Ok kept /\
  kept ≡ₚ List.filter (meets cheapFirst) fourOffers /\
  ((forall order, sort cheapFirst = Some order -> order ∉ Filtering.orders) ->
   kept = List.filter (meets cheapFirst) fourOffers).
Proof.
  intros kept.
  assert (E : filterOffers fourOffers cheapFirst = Ok kept)
    by (vm_compute; reflexivity).
  split; [exact E |].
  exact (filterOffers_keeps_what_meets fourOffers cheapFirst kept E).
Defined.

Example filterOffers_cheapFirst :
  (map id <$> match filterOffers fourOffers cheapFirst with
              | Ok kept => Some kept
              | Throw _ => None
              end) = Some ["off_1200"; "off_1230"; "off_0915"].
Proof. vm_compute. reflexivity. Qed.

Lemma filterOffers_orders_as_asked_witness :
  let kept := [noon; halfPastNoon; morning] in
  filterOffers fourOffers cheapFirst = Ok kept /\
  (sort cheapFirst = Some "price_low" -> ascending totalAmount kept) /\
  (sort cheapFirst = Some "price_high" -> descending totalAmount kept) /\
  (sort cheapFirst = Some "duration_short" -> ascending parsedDuration kept) /\
  (sort cheapFirst = Some "duration_long" -> descending parsedDuration kept) /\
  (Forall (fun o => departureKnown o = true) fourOffers ->
   (sort cheapFirst = Some "departure_early" -> ascending departureKey kept) /\
   (sort cheapFirst = Some "departure_late" -> descending departureKey kept)).
Proof.
  intros kept.
  assert (E : filterOffers fourOffers cheapFirst = Ok kept)
    by (vm_compute; reflexivity).
  split; [exact E |].
  exact (filterOffers_orders_as_asked fourOffers cheapFirst kept E).
Defined.

(** Three out of ten: the cheapest, the fastest and the earliest not yet
    chosen. *)
Lemma selectDiverseOffers_covers_extremes_witness :
  let selected := default [] (match selectDiverseOffers tenOffers 3 with
                              | Ok selected => Some selected
                              | Throw _ => None
                              end) in
  NoDup (map id tenOffers) /\
  Forall (fun o => slices o <> []) tenOffers /\
  (3 < length tenOffers)%nat /\
  selectDiverseOffers tenOffers 3 = Ok selected /\
  ((2 <= 3)%nat ->
   exists fastest,
     fastest ∈ selected /\
     forall o, o ∈ tenOffers -> totalDuration fastest <= totalDuration o) /\
  ((3 <= 3)%nat ->
   Forall (fun o => departureKnown o = true) tenOffers ->
   exists earliest,
     earliest ∈ selected /\
     forall o, o ∈ tenOffers -> departureKey earliest <= departureKey o).
Proof.
  intros selected.
  assert (Hnd : NoDup (map id tenOffers)).
  { apply (bool_decide_unpack _). vm_compute. exact I. }
  assert (Hs : Forall (fun o => slices o <> []) tenOffers)
    by (repeat constructor; discriminate).
  assert (Hn : (3 < length tenOffers)%nat) by (vm_compute; lia).
  assert (E : selectDiverseOffers tenOffers 3 = Ok selected)
    by (vm_compute; reflexivity).
  split; [exact Hnd | split; [exact Hs | split; [exact Hn | split; [exact E |]]]].
  exact (selectDiverseOffers_covers_extremes tenOffers 3 selected Hnd Hs Hn E).
Defined.

End FurtherExamples.

Section SearchExamples.
Import Js FlightSearch Sandbox Samples.

(** The round trip of [roundTrip], validated on 1 May 2025 at 08:00. *)
Lemma validated_search_converts_witness :
  Validation.errors
    (Validation.validateFlightSearch may1st8am may1st (asParams roundTrip)) = [] /\
  ((type roundTrip = "multi_city" ->
    Forall (fun stop => formattable (Stop.departureDate stop) = true)
           (additionalStops roundTrip)) ->
   exists request,
     toDuffelFormat may1st roundTrip = Ok request /\
     length (slices request) = sliceCount roundTrip /\
     (1 <= length (request_passengers request) <= 9)%nat) /\
  (type roundTrip = "multi_city" ->
   Exists (fun stop => formattable (Stop.departureDate stop) = false)
          (additionalStops roundTrip) ->
   toDuffelFormat may1st roundTrip = Throw (Error "Invalid time value")).
Proof.
  assert (E : Validation.errors
                (Validation.validateFlightSearch may1st8am may1st
                   (asParams roundTrip)) = []) by (vm_compute; reflexivity).
  split; [exact E |].
  exact (validated_search_converts may1st8am may1st roundTrip E).
Defined.

Lemma toDuffelFormat_legs_witness :
  let request :=
    {| slices :=
         [{| slice_origin := Some "AMS"; slice_destination := Some "JFK";
             departure_date := "2025-06-01";
             departure_time := Some (window "08:00" "12:00");
             arrival_time := None |};
          {| slice_origin := Some "JFK"; slice_destination := Some "AMS";
             departure_date := "2025-06-10";
             departure_time := Some (window "08:00" "12:00");
             arrival_time := None |}];
       request_passengers :=
         [{| passenger_type := "adult"; age := None |};
          {| passenger_type := "adult"; age := None |};
          {| passenger_type := "child"; age := Some 10 |}];
       cabin_class := "economy";
       max_connections := Some 1 |} in
  toDuffelFormat may1st roundTrip = Ok request /\
  map (fun slice => (slice_origin slice, slice_destination slice))
      (slices request) = legs roundTrip /\
  (type roundTrip = "round_trip" ->
   Forall (fun slice => departure_time slice = departureTime roundTrip /\
                        arrival_time slice = arrivalTime roundTrip)
          (slices request)).
Proof.
  intros request.
  assert (E : toDuffelFormat may1st roundTrip = Ok request)
    by (vm_compute; reflexivity).
  split; [exact E |].
  exact (toDuffelFormat_legs may1st roundTrip request E).
Defined.
End SearchExamples.

(** ** Times of day in the recommendations *)
Section RecommendFacts.
Import Js Recommend.

Lemma timeRanges_keys (timeOfDay : string) (range : list Z) :
  timeRanges !! timeOfDay = Some range ->
  (timeOfDay = "morning" /\ range = [6; 12]) \/
  (timeOfDay = "afternoon" /\ range = [12; 17]) \/
  (timeOfDay = "evening" /\ range = [17; 21]) \/
  (timeOfDay = "night" /\ range = [21; 24; 0; 5]).
Proof.
  unfold timeRanges. intros E.
  repeat (apply lookup_insert_Some in E as [[<- <-] | [_ E]]; [auto 10 |]).
  by rewrite lookup_empty in E.
Qed.

(** The hours [checkTimeMatch] accepts for a time of day. *)
Lemma checkTimeMatch_hours (hour : option Z) (timeOfDay : string) :
  checkTimeMatch hour timeOfDay = true <->
  exists h, hour = Some h /\
    ((timeOfDay = "morning" /\ 6 <= h < 12) \/
     (timeOfDay = "afternoon" /\ 12 <= h < 17) \/
     (timeOfDay = "evening" /\ 17 <= h < 21) \/
     (timeOfDay = "night" /\ (21 <= h \/ h < 5))).
Proof.
  split.
  - unfold checkTimeMatch.
    destruct (timeRanges !! timeOfDay) as [range |] eqn:E; [| done].
    destruct hour as [h |];
      [| apply timeRanges_keys in E as [[_ ->] | [[_ ->] | [[_ ->] | [_ ->]]]];
         done].
    intros Hm. exists h. split; [done |].
    apply timeRanges_keys in E as [[-> ->] | [[-> ->] | [[-> ->] | [-> ->]]]];
      simpl in Hm;
      rewrite ?andb_true_iff, ?orb_true_iff, ?Z.leb_le, ?Z.ltb_lt in Hm; auto 10.
  - intros (h & -> & [[-> Hh] | [[-> Hh] | [[-> Hh] | [-> Hh]]]]).
    + change (checkTimeMatch (Some h) "morning") with ((6 <=? h) && (h <? 12)).
      apply andb_true_iff. rewrite Z.leb_le, Z.ltb_lt. done.
    + change (checkTimeMatch (Some h) "afternoon") with ((12 <=? h) && (h <? 17)).
      apply andb_true_iff. rewrite Z.leb_le, Z.ltb_lt. done.
    + change (checkTimeMatch (Some h) "evening") with ((17 <=? h) && (h <? 21)).
      apply andb_true_iff. rewrite Z.leb_le, Z.ltb_lt. done.
    + change (checkTimeMatch (Some h) "night") with ((21 <=? h) || (h <? 5)).
      apply orb_true_iff. rewrite Z.leb_le, Z.ltb_lt. done.
Qed.

(** The label of an hour. *)
Lemma departureLabel_hours (h : Z) :
  (6 <= h < 12 /\ departureLabel (Some h) = "Morning departure") \/
  (12 <= h < 17 /\ departureLabel (Some h) = "Afternoon departure") \/
  (17 <= h < 21 /\ departureLabel (Some h) = "Evening departure") \/
  ((h < 6 \/ 21 <= h) /\ departureLabel (Some h) = "Night departure").
Proof.
  unfold departureLabel. simpl.
  destruct (Z.leb_spec 6 h), (Z.ltb_spec h 12), (Z.leb_spec 12 h),
    (Z.ltb_spec h 17), (Z.leb_spec 17 h), (Z.ltb_spec h 21); simpl;
    try lia; auto 10 with lia.
Qed.

(** X18. The time of day that earns the bonus is the one the label names,
    but five o'clock has none: [checkTimeMatch] accepts an hour for at
    most one time of day, the one [generateRecommendationReasoning] names
    in its label, and the time of day of the label is accepted, except for
    the hour 5 and an invalid date, which are labelled a night departure
    and accepted for no time of day. *)
Theorem time_of_day_matches_label (hour : option Z) :
  (forall timeOfDay,
     checkTimeMatch hour timeOfDay = true ->
     timeOfDay = timeOfDayOf (departureLabel hour)) /\
  (checkTimeMatch hour (timeOfDayOf (departureLabel hour)) = false <->
   hour = None \/ hour = Some 5) /\
  (hour = None \/ hour = Some 5 ->
   departureLabel hour = "Night departure" /\
   forall timeOfDay, checkTimeMatch hour timeOfDay = false).
Proof.
  split; [| split].
  - intros timeOfDay Hm.
    apply checkTimeMatch_hours in Hm as (h & -> & Hc).
    destruct (departureLabel_hours h) as [[Hh ->] | [[Hh ->] | [[Hh ->] | [Hh ->]]]];
      destruct Hc as [[-> Hc] | [[-> Hc] | [[-> Hc] | [-> Hc]]]];
      first [reflexivity | lia].
  - destruct hour as [h |]; [| split; [by left | reflexivity]].
    rewrite <- not_true_iff_false, checkTimeMatch_hours.
    destruct (departureLabel_hours h) as [[Hh ->] | [[Hh ->] | [[Hh ->] | [Hh ->]]]];
      (split;
       [ intros Hn; right; f_equal;
         destruct (decide (h = 5)) as [| Hne]; [done |];
         exfalso; apply Hn; exists h; split; [done |];
         cbn; auto 10 with lia
       | intros [Hn | [= ->]]; [done |];
         first [ lia
               | intros (h0 & [= <-] & [[E _] | [[E _] | [[E _] | [_ Hc]]]]);
                 [discriminate E | discriminate E | discriminate E | lia] ] ]).
  - intros Hh. split.
    + by destruct Hh as [-> | ->].
    + intros timeOfDay.
      destruct (checkTimeMatch hour timeOfDay) eqn:Hm; [| done].
      apply checkTimeMatch_hours in Hm as (h & -> & Hc).
      destruct Hh as [Hn | [= ->]]; [done |]. lia.
Qed.

Example time_of_day_examples :
  checkTimeMatch (Some 9) "morning" = true /\
  checkTimeMatch (Some 12) "morning" = false /\
  checkTimeMatch (Some 12) "afternoon" = true /\
  checkTimeMatch (Some 23) "night" = true /\
  checkTimeMatch (Some 3) "night" = true /\
  checkTimeMatch (Some 5) "night" = false /\
  checkTimeMatch (Some 9) "noon" = false /\
  departureLabel (Some 5) = "Night departure".
Proof. vm_compute. repeat split. Qed.
End RecommendFacts.

(** ** The life of a conversation document *)
Section LifecycleFacts.
Import Js Lifecycle.

Lemma cleanupExpired_elem (now : Z) (collection : list Doc) (d : Doc) :
  d ∈ cleanupExpired now collection <->
  d ∈ collection /\ expiredUnbooked now d = false.
Proof.
  unfold cleanupExpired.
  rewrite !list_elem_of_In, filter_In, negb_true_iff. done.
Qed.

(** X19. [cleanupExpired] never deletes a conversation that is completed
    or active.  It deletes exactly the conversations without a booking
    reference whose expiry has passed; what it deletes has the status
    [expired], [processing] or [confirmed], so a conversation whose payment
    is being processed, or which has reached the confirmation without a
    booking reference, is deleted once its expiry has passed. *)
Theorem cleanupExpired_spares_completed_and_active
    (now : Z) (collection : list Doc) (d : Doc) :
  d ∈ collection ->
  (d ∈ cleanupExpired now collection <->
   ~ (Conversation.expiresAt (conversation d) < now /\ bookingReference d = None)) /\
  (status now d = "completed" \/ status now d = "active" ->
   d ∈ cleanupExpired now collection) /\
  (d ∉ cleanupExpired now collection ->
   status now d = "expired" \/ status now d = "processing" \/
   status now d = "confirmed").
Proof.
  intros Hd.
  assert (Hk : d ∈ cleanupExpired now collection <->
               ~ (Conversation.expiresAt (conversation d) < now /\
                  bookingReference d = None)).
  { rewrite cleanupExpired_elem. unfold expiredUnbooked.
    rewrite andb_false_iff, Z.ltb_ge, bool_decide_eq_false.
    split.
    - intros [_ [Hge | Hb]] [Hlt Hn]; [lia | done].
    - intros Hn. split; [done |].
      destruct (Z.lt_ge_cases (Conversation.expiresAt (conversation d)) now);
        [| left; lia].
      right. intros Hb. by apply Hn. }
  split; [exact Hk | split].
  - intros Hs. apply Hk. intros [Hlt Hn]. unfold status in Hs.
    rewrite Hn in Hs. simpl in Hs.
    destruct (String.eqb _ "processing"); [by destruct Hs |].
    destruct (String.eqb _ "confirmation"); [by destruct Hs |].
    destruct (Z.ltb_spec (Conversation.expiresAt (conversation d)) now);
      [by destruct Hs | lia].
  - intros Hn.
    assert (Hx : Conversation.expiresAt (conversation d) < now /\
                 bookingReference d = None).
    { destruct (Z.lt_ge_cases (Conversation.expiresAt (conversation d)) now) as [Hlt | Hge];
        [| exfalso; apply Hn, Hk; intros [? _]; lia].
      destruct (bookingReference d) as [b |] eqn:Eb; [| done].
      exfalso. apply Hn, Hk. intros [_ ?]. done. }
    destruct Hx as [Hlt Hb]. unfold status. rewrite Hb. simpl.
    destruct (String.eqb _ "processing"); [by right; left |].
    destruct (String.eqb _ "confirmation"); [by right; right |].
    destruct (Z.ltb_spec (Conversation.expiresAt (conversation d)) now);
      [by left | lia].
Qed.
End LifecycleFacts.

(** ** Time preferences in free text *)
Section TimePreferenceFacts.
Import Js Text Clock TimePreference.

Lemma startsWith_includes (a b s : string) :
  startsWith (a +:+ b) s = true -> includesStr b s = true.
Proof.
  revert s. induction a as [| x a IH]; intros s.
  - change ("" +:+ b) with b. intros Hs.
    destruct s; simpl; by rewrite Hs.
  - rewrite append_cons. destruct s as [| y s]; [done |].
    cbn [startsWith]. intros [_ Hs]%andb_true_iff.
    cbn [includesStr]. rewrite (IH s Hs). apply orb_true_r.
Qed.

(** A text that includes a phrase includes the end of the phrase. *)
Lemma includesStr_suffix (a b s : string) :
  includesStr (a +:+ b) s = true -> includesStr b s = true.
Proof.
  induction s as [| y s IH].
  - cbn [includesStr]. rewrite orb_false_r. apply startsWith_includes.
  - cbn [includesStr]. intros [Hs | Hs]%orb_true_iff.
    + apply (startsWith_includes a b (String y s)) in Hs. exact Hs.
    + rewrite (IH Hs). apply orb_true_r.
Qed.

Lemma on_the_hour_not_2359 (s : string) : s +:+ ":00" <> "23:59".
Proof.
  destruct s as [| a [| b [| c s]]]; try discriminate.
  rewrite !append_cons. intros [= _ _ _ E].
  destruct s as [| d [| e s]]; try discriminate.
  rewrite !append_cons in E. injection E as _ _ E. by destruct s.
Qed.

(** X20. The entry [late night] of the table is never chosen.  No text
    makes [parseTimePreference] return the window from 22:00 to 23:59 of
    [late night]: a text that includes [late night] includes [night], which
    comes first in the table, so it gets the window of one of the first
    five entries. *)
Theorem late_night_is_never_chosen :
  (forall text, parseTimePreference text <> Some (window "22:00" "23:59")) /\
  (forall text,
     includesStr "late night" (toLowerCase text) = true ->
     exists key range,
       (key, range) ∈ take 5 preferences /\
       parseTimePreference text = Some range).
Proof.
  assert (Hn : forall s, includesStr "late night" s = true ->
                         includesStr "night" s = true).
  { intros s. apply (includesStr_suffix "late " "night"). }
  split.
  - intros text. unfold parseTimePreference. cbv zeta.
    set (lower := toLowerCase text).
    destruct (keyword lower) as [value |] eqn:Ek.
    + unfold keyword, preferences in Ek. cbn [List.find fst snd] in Ek.
      destruct (includesStr "early morning" lower); [by injection Ek as <- |].
      destruct (includesStr "morning" lower); [by injection Ek as <- |].
      destruct (includesStr "afternoon" lower); [by injection Ek as <- |].
      destruct (includesStr "evening" lower); [by injection Ek as <- |].
      destruct (includesStr "night" lower) eqn:En; [by injection Ek as <- |].
      destruct (includesStr "late night" lower) eqn:El.
      { apply Hn in El. congruence. }
      destruct (includesStr "red eye" lower); [by injection Ek as <- |].
      destruct (includesStr "business hours" lower); [by injection Ek as <- |].
      destruct (includesStr "daytime" lower); [by injection Ek as <- |].
      done.
    + destruct (timeMatch lower) as [[digits p] |]; [| done].
      intros [= _ E]. by apply on_the_hour_not_2359 in E.
  - intros text Hl. unfold parseTimePreference. cbv zeta.
    set (lower := toLowerCase text) in *.
    apply Hn in Hl.
    unfold keyword, preferences. cbn [List.find fst snd take].
    destruct (includesStr "early morning" lower);
      [exists "early morning", (window "05:00" "08:00");
       split; [repeat constructor | reflexivity] |].
    destruct (includesStr "morning" lower);
      [exists "morning", (window "06:00" "12:00");
       split; [repeat constructor | reflexivity] |].
    destruct (includesStr "afternoon" lower);
      [exists "afternoon", (window "12:00" "17:00");
       split; [repeat constructor | reflexivity] |].
    destruct (includesStr "evening" lower);
      [exists "evening", (window "17:00" "21:00");
       split; [repeat constructor | reflexivity] |].
    rewrite Hl. exists "night", (window "21:00" "23:59").
    split; [repeat constructor | reflexivity].
Qed.

Example parseTimePreference_examples :
  parseTimePreference "A late night flight, please" = Some (window "21:00" "23:59") /\
  parseTimePreference "Early MORNING works" = Some (window "05:00" "08:00") /\
  parseTimePreference "the red eye" = Some (window "23:00" "05:00") /\
  parseTimePreference "around 7 pm" = Some (window "19:00" "21:00") /\
  parseTimePreference "at 11pm" = Some (window "23:00" "25:00") /\
  parseTimePreference "12am" = Some (window "00:00" "02:00") /\
  parseTimePreference "whenever" = None.
Proof. vm_compute. repeat split. Qed.

Lemma period_cases (s p : string) : period s = Some p -> p = "am" \/ p = "pm".
Proof.
  unfold period.
  repeat first
    [ discriminate
    | intros [= <-]; auto
    | match goal with
      | |- context [match ?x with _ => _ end] => destruct x
      end ].
Qed.

(** One or two digits, read as a number below 100. *)
Lemma two_digit_value (a b : ascii) :
  isDigit a = true -> isDigit b = true ->
  (exists v, parseInt (String a "") = Some v /\ 0 <= v <= 99) /\
  (exists v, parseInt (String a (String b "")) = Some v /\ 0 <= v <= 99).
Proof.
  intros Ha Hb. split.
  - rewrite parseInt_digits; [| by simpl; rewrite Ha | done].
    eexists. split; [done |].
    apply isDigit_cases in Ha.
    repeat (apply elem_of_cons in Ha as [-> | Ha]; [vm_compute; split; discriminate |]).
    by apply elem_of_nil in Ha.
  - rewrite parseInt_digits; [| by simpl; rewrite Ha, Hb | done].
    eexists. split; [done |].
    assert (E : forallb (fun x => forallb (fun y =>
              (0 <=? digitsValue 10 0
                       (String (ascii_of_nat (48 + x)) (String (ascii_of_nat (48 + y)) ""))) &&
              (digitsValue 10 0
                 (String (ascii_of_nat (48 + x)) (String (ascii_of_nat (48 + y)) "")) <=? 99))
              (seq 0 10)) (seq 0 10) = true) by (vm_compute; reflexivity).
    rewrite isDigit_inRange in Ha, Hb.
    apply digit_cases in Ha as (x & Hx & ->); [| lia | lia].
    apply digit_cases in Hb as (y & Hy & ->); [| lia | lia].
    rewrite forallb_forall in E. specialize (E x ltac:(apply in_seq; lia)).
    rewrite forallb_forall in E. specialize (E y ltac:(apply in_seq; lia)).
    apply andb_true_iff in E as [E1 E2].
    apply Z.leb_le in E1, E2. done.
Qed.

Lemma timeAt_shape (s digits p : string) :
  timeAt s = Some (digits, p) ->
  (p = "am" \/ p = "pm") /\ exists v, parseInt digits = Some v /\ 0 <= v <= 99.
Proof.
  unfold timeAt. destruct s as [| a r]; [done |].
  destruct (isDigit a) eqn:Ha; [| done]. cbv zeta.
  assert (Hone : (fun p0 => (String a "", p0)) <$> period r = Some (digits, p) ->
                 (p = "am" \/ p = "pm") /\
                 exists v, parseInt digits = Some v /\ 0 <= v <= 99).
  { destruct (period r) as [p0 |] eqn:Ep; [| done]. intros [= <- <-].
    split; [by apply (period_cases r) |].
    by destruct (two_digit_value a a Ha Ha) as [? _]. }
  destruct r as [| b r']; [exact Hone |].
  destruct (isDigit b) eqn:Hb; [| exact Hone].
  destruct (period r') as [p0 |] eqn:Ep; [| exact Hone].
  intros [= <- <-]. split; [by apply (period_cases r') |].
  by destruct (two_digit_value a b Ha Hb) as [_ ?].
Qed.

Lemma timeMatch_shape (s digits p : string) :
  timeMatch s = Some (digits, p) ->
  (p = "am" \/ p = "pm") /\ exists v, parseInt digits = Some v /\ 0 <= v <= 99.
Proof.
  induction s as [| c s IH]; cbn [timeMatch].
  - destruct (timeAt "") as [found |] eqn:E; [| done].
    intros [= ->]. by apply (timeAt_shape "").
  - destruct (timeAt (String c s)) as [found |] eqn:E; [| exact IH].
    intros [= ->]. by apply (timeAt_shape (String c s)).
Qed.

Lemma twoHours_valid (h : nat) (field : string) :
  (h <= 111)%nat ->
  (Validation.validateTimeRange (twoHours h) field = [] <-> (h <= 21)%nat).
Proof.
  intros Hh.
  assert (E : forallb (fun h =>
            Bool.eqb (match Validation.validateTimeRange (twoHours h) field with
                      | [] => true
                      | _ => false
                      end) (h <=? 21)%nat) (seq 0 112) = true)
    by (vm_compute; reflexivity).
  rewrite forallb_forall in E. specialize (E h ltac:(apply in_seq; lia)).
  apply Bool.eqb_prop in E.
  destruct (Validation.validateTimeRange (twoHours h) field);
    destruct (Nat.leb_spec h 21); split; try done; lia.
Qed.

(** X25. A time mention gives a window of two hours that may leave the
    day.  When no keyword of the table occurs, what [parseTimePreference]
    returns is the window from an hour [h] to the hour [h + 2], both on the
    hour, and [validateTimeRange] accepts it exactly when [h] is at most
    21: from 10 pm on the window ends at 24:00 or later and is
    rejected. *)
Theorem time_mention_window (text field : string) (range : Validation.TimeRange) :
  keyword (toLowerCase text) = None ->
  parseTimePreference text = Some range ->
  exists h : nat,
    (h <= 111)%nat /\ range = twoHours h /\
    (Validation.validateTimeRange range field = [] <-> (h <= 21)%nat).
Proof.
  intros Hk. unfold parseTimePreference. cbv zeta. rewrite Hk.
  destruct (timeMatch (toLowerCase text)) as [[digits p] |] eqn:E; [| done].
  apply timeMatch_shape in E as (Hp & v & -> & Hv).
  intros [= <-]. change (default 0 (Some v)) with v.
  set (hour := hour24 v p).
  assert (Hh : 0 <= hour <= 111).
  { subst hour. unfold hour24.
    destruct Hp as [-> | ->]; simpl;
      destruct (Z.eqb_spec v 12); simpl; try destruct (Z.eqb_spec (v + 12) 12); lia. }
  exists (Z.to_nat hour).
  assert (Hto : Z.to_nat (hour + 2) = (Z.to_nat hour + 2)%nat) by lia.
  split; [lia |]. rewrite Hto. split; [reflexivity |].
  apply (twoHours_valid (Z.to_nat hour) field). lia.
Qed.
End TimePreferenceFacts.

(** ** Passengers and services *)
Section ServiceFacts.
Import Js Service.

(** X21. The two ways of listing the passengers agree on valid counts:
    on counts that [validatePassengers] accepts, [formatPassengers] of the
    Duffel service lists the passengers that [formatPassengers] of the
    search parameters lists, the adults, then the children, then the
    infants. *)
Theorem formatPassengers_agree (search : FlightSearch.FlightSearchParams) :
  Validation.validatePassengers (Some (FlightSearch.passengers search)) = [] ->
  formatPassengers (Some (FlightSearch.passengers search)) =
    FlightSearch.formatPassengers search /\
  exists a c i : nat,
    (1 <= a)%nat /\ (i <= a)%nat /\ (a + c + i <= 9)%nat /\
    formatPassengers (Some (FlightSearch.passengers search)) =
      replicate a adult ++ replicate c child ++ replicate i infant.
Proof.
  intros Hv. apply validatePassengers_ok in Hv as (Ha & Hc & Hi & Ht & Hr).
  unfold formatPassengers, FlightSearch.formatPassengers, FlightSearch.count.
  cbv zeta. fold adult child infant.
  destruct (Validation.adults (FlightSearch.passengers search)) as [a |];
    simpl in Ha, Ht, Hr; [| lia]. simpl.
  destruct (Z.ltb_spec a 1); [lia |].
  set (c := default 0 (Validation.children (FlightSearch.passengers search))) in *.
  set (i := default 0 (Validation.infants (FlightSearch.passengers search))) in *.
  assert (Ec : (if 0 <? c then replicate (Z.to_nat c) child else []) =
               replicate (Z.to_nat c) child).
  { destruct (Z.ltb_spec 0 c); [done |].
    by replace (Z.to_nat c) with 0%nat by lia. }
  assert (Ei : (if 0 <? i then replicate (Z.to_nat i) infant else []) =
               replicate (Z.to_nat i) infant).
  { destruct (Z.ltb_spec 0 i); [done |].
    by replace (Z.to_nat i) with 0%nat by lia. }
  rewrite Ec, Ei. split; [reflexivity |].
  exists (Z.to_nat a), (Z.to_nat c), (Z.to_nat i).
  repeat split; lia.
Qed.

Lemma fileService_ids (acc : AvailableServices) (service : RawService) :
  let one (p : RawService -> bool) :=
    if p service then [default "" (id service)] else [] in
  map formatted_id (seats (fileService acc service)) =
    map formatted_id (seats acc) ++ one isSeat /\
  map formatted_id (baggage (fileService acc service)) =
    map formatted_id (baggage acc) ++ one isBaggage /\
  map formatted_id (other (fileService acc service)) =
    map formatted_id (other acc) ++ one isOther.
Proof.
  unfold fileService, isSeat, isBaggage, isOther. cbv zeta.
  destruct (truthyStr (id service)); simpl; [| by rewrite !app_nil_r].
  unfold strictEq.
  repeat case_bool_decide; simplify_eq/=;
    repeat split; by rewrite ?map_app, ?app_nil_r.
Qed.

Lemma foldl_fileService_ids (services : list RawService) (acc : AvailableServices) :
  map formatted_id (seats (foldl fileService acc services)) =
    map formatted_id (seats acc) ++ idsOf isSeat services /\
  map formatted_id (baggage (foldl fileService acc services)) =
    map formatted_id (baggage acc) ++ idsOf isBaggage services /\
  map formatted_id (other (foldl fileService acc services)) =
    map formatted_id (other acc) ++ idsOf isOther services.
Proof.
  revert acc. induction services as [| service rest IH]; intros acc.
  - unfold idsOf. simpl. by rewrite !app_nil_r.
  - cbn [foldl]. destruct (IH (fileService acc service)) as (-> & -> & ->).
    destruct (fileService_ids acc service) as (-> & -> & ->). cbv zeta.
    unfold idsOf. cbn [List.filter].
    destruct (isSeat service), (isBaggage service), (isOther service);
      cbn [map]; rewrite <- ?app_assoc; done.
Qed.

(** X22. [formatAvailableServices] files every service that has an id
    under one heading: the seats are the services of type [seat], the
    baggage those of type [baggage], and the others all the rest, each in
    the order of the provider; a service without an id is left out, and no
    service is filed twice. *)
Theorem formatAvailableServices_files_by_type (services : list RawService) :
  let formatted := formatAvailableServices services in
  map formatted_id (seats formatted) = idsOf isSeat services /\
  map formatted_id (baggage formatted) = idsOf isBaggage services /\
  map formatted_id (other formatted) = idsOf isOther services /\
  (length (seats formatted) + length (baggage formatted) +
     length (other formatted) =
   length (List.filter (fun service => truthyStr (id service)) services))%nat.
Proof.
  intros formatted. subst formatted. unfold formatAvailableServices.
  destruct (foldl_fileService_ids services
              {| seats := []; baggage := []; other := [] |}) as (Hs & Hb & Ho).
  simpl in Hs, Hb, Ho.
  split; [exact Hs | split; [exact Hb | split; [exact Ho |]]].
  rewrite <- (length_map formatted_id (seats _)), Hs.
  rewrite <- (length_map formatted_id (baggage _)), Hb.
  rewrite <- (length_map formatted_id (other _)), Ho.
  unfold idsOf. rewrite !length_map.
  clear. induction services as [| service rest IH]; [done |].
  cbn [List.filter]. unfold isSeat, isBaggage, isOther, strictEq in *.
  destruct (truthyStr (id service)); simpl; [| exact IH].
  repeat case_bool_decide; simplify_eq/=; lia.
Qed.
End ServiceFacts.

(** ** More options *)
Section MoreOptionsFacts.
Import Js Offers MoreOptions.
Context `{DateRuntime}.


End MoreOptionsFacts.


(** ** Examples of the later properties *)
Section LaterExamples.
Import Js Lifecycle TimePreference MoreOptions Sandbox Samples.

(** Two days after the creation the conversation that is paying is
    deleted and the booked one is kept. *)
Lemma cleanupExpired_spares_completed_and_active_witness :
  let now := 2 * Conversation.DAY_MS in
  let collection := [paying; booked] in
  paying ∈ collection /\
  (paying ∈ cleanupExpired now collection <->
   ~ (Conversation.expiresAt (conversation paying) < now /\
      bookingReference paying = None)) /\
  (status now paying = "completed" \/ status now paying = "active" ->
   paying ∈ cleanupExpired now collection) /\
  (paying ∉ cleanupExpired now collection ->
   status now paying = "expired" \/ status now paying = "processing" \/
   status now paying = "confirmed").
Proof.
  intros now collection.
  assert (Hd : paying ∈ collection) by (by left).
  split; [exact Hd |].
  exact (cleanupExpired_spares_completed_and_active now collection paying Hd).
Defined.

Example cleanupExpired_example :
  cleanupExpired (2 * Conversation.DAY_MS) [paying; booked] = [booked] /\
  status (2 * Conversation.DAY_MS) paying = "processing" /\
  status (2 * Conversation.DAY_MS) booked = "completed".
Proof. vm_compute. repeat split. Qed.

(** Eleven in the evening. *)
Lemma time_mention_window_witness :
  let text := "something at 11pm" in
  let range := window "23:00" "25:00" in
  keyword (Text.toLowerCase text) = None /\
  parseTimePreference text = Some range /\
  exists h : nat,
    (h <= 111)%nat /\ range = twoHours h /\
    (Validation.validateTimeRange range "departureTime" = [] <-> (h <= 21)%nat).
Proof.
  intros text range.
  assert (Hk : keyword (Text.toLowerCase text) = None) by reflexivity.
  assert (Hp : parseTimePreference text = Some range) by reflexivity.
  split; [exact Hk | split; [exact Hp |]].
  exact (time_mention_window text "departureTime" range Hk Hp).
Defined.


(** Two requests in a row on the same ten offers: the second one shows
    [off_x9] and [off_x0] again, which the first one left out. *)
Example moreOptions_example :
  let ids (r : result (list Offers.Offer)) :=
    match r with
    | Ok shown => map Offers.id shown
    | Throw _ => []
    end in
  let first := ids (moreOptions ["off_x9"; "off_x0"] tenOffers) in
  let second := ids (moreOptions first tenOffers) in
  first = ["off_x8"; "off_x1"; "off_x2"] /\
  second = ["off_x9"; "off_x0"; "off_x3"].
Proof. vm_compute. split; reflexivity. Qed.

(** Two adults and a child. *)
Lemma formatPassengers_agree_witness :
  Validation.validatePassengers (Some (FlightSearch.passengers roundTrip)) = [] /\
  Service.formatPassengers (Some (FlightSearch.passengers roundTrip)) =
    FlightSearch.formatPassengers roundTrip /\
  exists a c i : nat,
    (1 <= a)%nat /\ (i <= a)%nat /\ (a + c + i <= 9)%nat /\
    Service.formatPassengers (Some (FlightSearch.passengers roundTrip)) =
      replicate a Service.adult ++ replicate c Service.child ++
      replicate i Service.infant.
Proof.
  assert (Hv : Validation.validatePassengers
                 (Some (FlightSearch.passengers roundTrip)) = [])
    by reflexivity.
  split; [exact Hv |].
  exact (formatPassengers_agree roundTrip Hv).
Defined.
End LaterExamples.

(** ** The last leg of a multi-city search *)
Section MultiCityFacts.
Import Js Validation MultiCity.
Context `{DateRuntime}.

Lemma segmentLoop_last (segments : list Segment.t) (last last' : Segment.t) :
  forall i,
  (forall j current, (i <= j)%nat ->
     segmentPairErrors j current last = segmentPairErrors j current last') ->
  segmentLoop i (segments ++ [last]) = segmentLoop i (segments ++ [last']).
Proof.
  induction segments as [| current rest IH]; intros i Hp; [done |].
  destruct rest as [| next rest].
  - cbn [app segmentLoop]. by rewrite Hp.
  - change (segmentLoop i ((current :: next :: rest) ++ [last]))
      with (segmentPairErrors i current next ++
            segmentLoop (S i) ((next :: rest) ++ [last])).
    change (segmentLoop i ((current :: next :: rest) ++ [last']))
      with (segmentPairErrors i current next ++
            segmentLoop (S i) ((next :: rest) ++ [last'])).
    f_equal. apply IH. intros j c Hj. apply Hp. lia.
Qed.

Lemma validateMultiCity_withStops (params : Params) (stops : list Segment.t) :
  stops <> [] ->
  validateMultiCity (withStops stops params) =
    segmentLoop 0 (allSegments params stops).
Proof. by destruct stops. Qed.

Lemma validateFlightSearch_stops (now today : Z) (params : Params)
    (stops stops' : list Segment.t) :
  validateMultiCity (withStops stops params) =
    validateMultiCity (withStops stops' params) ->
  validateFlightSearch now today (withStops stops params) =
    validateFlightSearch now today (withStops stops' params).
Proof.
  intros E. unfold validateFlightSearch. rewrite E. reflexivity.
Qed.

(** X26. The airports of the last leg of a multi-city search are not
    validated.  [validateFlightSearch] returns the same errors and warnings
    whatever the destination of the last additional stop is; and when there
    is one additional stop only, whatever its origin and its destination
    are. *)
Theorem last_leg_airports_unchecked (now today : Z) (params : Params)
    (stops : list Segment.t) (last : Segment.t) (o d : option string) :
  validateFlightSearch now today (withStops (stops ++ [last]) params) =
    validateFlightSearch now today
      (withStops (stops ++ [reroute (Segment.origin last) d last]) params) /\
  validateFlightSearch now today (withStops [last] params) =
    validateFlightSearch now today (withStops [reroute o d last] params).
Proof.
  split.
  - apply validateFlightSearch_stops.
    rewrite !validateMultiCity_withStops by (by destruct stops).
    unfold allSegments. rewrite !app_comm_cons.
    apply segmentLoop_last. reflexivity.
  - apply validateFlightSearch_stops. reflexivity.
Qed.
End MultiCityFacts.

(** ** The three offers shown after filtering *)
Section FilterHandlerFacts.
Import Js Offers Filtering FilterHandler.
Context `{DateRuntime}.

Lemma ascending_app {A : Type} (key : A -> Z) (l1 l2 : list A) :
  ascending key (l1 ++ l2) ->
  forall a b, a ∈ l1 -> b ∈ l2 -> key a <= key b.
Proof.
  unfold ascending. induction l1 as [| x l1 IH]; intros Hs a b Ha Hb.
  - by apply elem_of_nil in Ha.
  - apply StronglySorted_inv in Hs as [Hs Hx].
    apply elem_of_cons in Ha as [-> | Ha]; [| by apply IH].
    rewrite Forall_forall in Hx. apply Hx, elem_of_app. by right.
Qed.

(** X27. Asked for the cheapest, the filter handler shows the cheapest.
    With the order [price_low], and every offer having a slice,
    [handleFlightFilter] shows three of the offers that meet the criteria,
    or all of them when there are fewer; all it shows meet the criteria,
    cheapest first; and no offer that meets the criteria and is left out is
    cheaper than one that is shown. *)
Theorem best_filtered_are_cheapest (offers : list Offer) (criteria : Criteria) :
  sort criteria = Some "price_low" ->
  Forall (fun o => slices o <> []) offers ->
  exists best,
    bestFilteredOffers offers criteria = Ok best /\
    length best = (length (List.filter (meets criteria) offers) `min` 3)%nat /\
    ascending totalAmount best /\
    (forall o, o ∈ best -> o ∈ offers /\ meets criteria o = true) /\
    (forall o o', o ∈ best -> o' ∈ offers -> meets criteria o' = true ->
                  o' ∉ best -> totalAmount o <= totalAmount o').
Proof.
  intros Hsort Hs. unfold bestFilteredOffers.
  rewrite (filterOffers_steps offers criteria Hs), Hsort.
  set (meeting := List.filter (meets criteria) offers).
  set (cmp := fun a b : Offer => totalAmount a - totalAmount b).
  change (ordered (Some "price_low") meeting) with (Ok (Js.sort cmp meeting)).
  assert (Hp : Js.sort cmp meeting ≡ₚ meeting) by apply sort_perm.
  assert (Ha : ascending totalAmount (Js.sort cmp meeting))
    by (by apply sort_ascending).
  exists (take 3 (Js.sort cmp meeting)). split; [done |].
  split; [by rewrite length_take, Hp, Nat.min_comm |].
  rewrite <- (take_drop 3 (Js.sort cmp meeting)) in Ha.
  split; [| split].
  - unfold ascending in *. clear -Ha.
    induction (take 3 (Js.sort cmp meeting)) as [| x l IH]; [constructor |].
    simpl in Ha. apply StronglySorted_inv in Ha as [Ha Hx].
    constructor; [by apply IH |].
    rewrite Forall_forall in *. intros y Hy. apply Hx, elem_of_app. by left.
  - intros o Ho.
    assert (Hm : o ∈ meeting).
    { rewrite <- Hp, <- (take_drop 3 (Js.sort cmp meeting)).
      apply elem_of_app. by left. }
    by apply filter_elem in Hm.
  - intros o o' Ho Ho' Hm Hn.
    apply (ascending_app totalAmount _ _ Ha); [done |].
    assert (Hin : o' ∈ Js.sort cmp meeting)
      by (rewrite Hp; by apply filter_elem).
    rewrite <- (take_drop 3 (Js.sort cmp meeting)) in Hin.
    apply elem_of_app in Hin as [Hin | Hin]; [by destruct Hn | done].
Qed.
End FilterHandlerFacts.

(** ** Examples of the last properties *)
Section LastExamples.
Import Js Offers Filtering FilterHandler Sandbox Samples.

(** A trip from New York to London and on, whose second leg starts at
    [lhr] and ends at [Paris, France], passes validation. *)
Example unchecked_last_leg_example :
  Validation.validateFlightSearch may1st8am may1st
    (multiCity "JFK" "LHR" "2025-06-01" [leg "lhr" "Paris, France" "2025-06-05"]) =
  {| Validation.errors := []; Validation.warnings := [];
     Validation.isValid := true |}.
Proof. vm_compute. reflexivity. Qed.

(** The three cheapest of the ten offers of [tenOffers]. *)
Lemma best_filtered_are_cheapest_witness :
  sort cheapest = Some "price_low" /\
  Forall (fun o => slices o <> []) tenOffers /\
  exists best,
    bestFilteredOffers tenOffers cheapest = Ok best /\
    length best = (length (List.filter (meets cheapest) tenOffers) `min` 3)%nat /\
    ascending totalAmount best /\
    (forall o, o ∈ best -> o ∈ tenOffers /\ meets cheapest o = true) /\
    (forall o o', o ∈ best -> o' ∈ tenOffers -> meets cheapest o' = true ->
                  o' ∉ best -> totalAmount o <= totalAmount o').
Proof.
  assert (Hs : Forall (fun o => slices o <> []) tenOffers)
    by (repeat constructor; discriminate).
  split; [reflexivity |]. split; [exact Hs |].
  exact (best_filtered_are_cheapest tenOffers cheapest eq_refl Hs).
Defined.

Example bestFilteredOffers_cheapest :
  (map id <$> match bestFilteredOffers tenOffers cheapest with
              | Ok best => Some best
              | Throw _ => None
              end) = Some ["off_x9"; "off_x8"; "off_x7"].
Proof. vm_compute. reflexivity. Qed.
End LastExamples.
